(** * Oliveira Garden: a shallow embedding of [src/App.tsx]

    The application is a React single-page flashcard and quiz trainer.
    This development embeds the parts of [App.tsx] that carry logic:
    the progress store ([getInitialProgress], [saveProgress]), the streak
    bookkeeping of [handleFinish], the cycle timer effect, the quiz flow
    ([handleAnswer], [nextQuestion], [finishQuiz]), the quiz generator
    ([generateDailyQuiz], [getRandomPlantsFromList]), the catalog merge of
    [usePlantDatabase], the resize rule of [compressImage] and the accuracy
    figure of [ProgressPage].

    Conventions.
    - JavaScript numbers that hold counts, indices and millisecond time
      values are integers of [Z]; where the source divides, the operands
      become IEEE-754 doubles and the quotient is a double.
    - JavaScript strings are [string]; the browser's [localStorage] is a
      finite map from keys to strings.
    - A call that can throw returns a [result]. *)

From Stdlib Require Import ZArith QArith Lia List Ascii String Permutation.
From Stdlib Require Import Floats.SpecFloat.
From Stdlib Require Import Decimal DecimalZ DecimalN.
From stdpp Require Import base option gmap strings list.

Local Open Scope Z_scope.

(** ** Exceptions *)

Inductive error : Type :=
| SyntaxError      (* thrown by JSON.parse *)
| TypeError        (* property access on undefined *)
| Unmodelled.      (* the input leaves the fragment of the platform modelled here *)

Inductive result (A : Type) : Type :=
| Ok (a : A)
| Throw (e : error).
Arguments Ok {A} a.
Arguments Throw {A} e.

Definition bind {A B} (r : result A) (k : A -> result B) : result B :=
  match r with
  | Ok a => k a
  | Throw e => Throw e
  end.

Notation "'let*' x ':=' r 'in' k" := (bind r (fun x => k))
  (at level 10, x pattern, r at level 100, k at level 200).

(** ** The platform's [Date], as far as the source uses it

    [new Date().getTime()] is a millisecond count since the epoch (UTC).
    [toISOString().split('T')[0]] is the UTC calendar date of that instant
    as [YYYY-MM-DD]; [new Date(s)] on such a date-only string is UTC
    midnight of that date. *)

Module JsDate.

Definition msPerDay : Z := 1000 * 60 * 60 * 24.

(** Day number (days since 1970-01-01) to proleptic Gregorian
    year, month, day. *)
Definition civil_from_days (z : Z) : Z * Z * Z :=
  let z := z + 719468 in
  let era := z / 146097 in
  let doe := z - era * 146097 in
  let yoe := (doe - doe / 1460 + doe / 36524 - doe / 146096) / 365 in
  let y := yoe + era * 400 in
  let doy := doe - (365 * yoe + yoe / 4 - yoe / 100) in
  let mp := (5 * doy + 2) / 153 in
  let d := doy - (153 * mp + 2) / 5 + 1 in
  let m := if mp <? 10 then mp + 3 else mp - 9 in
  (if m <=? 2 then y + 1 else y, m, d).

Definition days_from_civil (y m d : Z) : Z :=
  let y := if m <=? 2 then y - 1 else y in
  let era := y / 400 in
  let yoe := y - era * 400 in
  let doy := (153 * (if 2 <? m then m - 3 else m + 9) + 2) / 5 + d - 1 in
  let doe := yoe * 365 + yoe / 4 - yoe / 100 + doy in
  era * 146097 + doe - 719468.

Definition is_leap (y : Z) : bool :=
  ((y mod 4 =? 0) && negb (y mod 100 =? 0)) || (y mod 400 =? 0).

Definition days_in_month (y m : Z) : Z :=
  if m =? 2 then (if is_leap y then 29 else 28)
  else if (m =? 4) || (m =? 6) || (m =? 9) || (m =? 11) then 30
  else 31.

Definition digit_char (d : Z) : ascii := ascii_of_nat (48 + Z.to_nat (d mod 10)).

Definition char_digit (c : ascii) : option Z :=
  let n := Z.of_nat (nat_of_ascii c) in
  if (48 <=? n) && (n <=? 57) then Some (n - 48) else None.

Definition pad2 (n : Z) : string :=
  String (digit_char (n / 10)) (String (digit_char n) EmptyString).

Definition pad4 (n : Z) : string :=
  String (digit_char (n / 1000)) (String (digit_char (n / 100)) (pad2 n)).

(** The year field of [toISOString]: four digits for years 0 to 9999,
    otherwise a sign and six digits. *)
Definition year_field (y : Z) : string :=
  if (0 <=? y) && (y <=? 9999) then pad4 y
  else String (if y <? 0 then "-"%char else "+"%char)
              (pad2 (Z.abs y / 10000) +:+ pad4 (Z.abs y)).

(** [new Date(t).toISOString().split('T')[0]] *)
Definition toISODate (t : Z) : string :=
  let '(y, m, d) := civil_from_days (t / msPerDay) in
  year_field y +:+ "-" +:+ pad2 m +:+ "-" +:+ pad2 d.

Definition digits_value (cs : list ascii) : option Z :=
  foldl (fun acc c =>
           match acc, char_digit c with
           | Some a, Some d => Some (10 * a + d)
           | _, _ => None
           end) (Some 0) cs.

(** [new Date(s).getTime()] for the date-only form [YYYY-MM-DD]; [None]
    stands for the time value NaN of an invalid date.  Other spellings
    of a date are parsed by implementation-defined rules and are not
    given a time value here. *)
Definition parse (s : string) : option Z :=
  match list_ascii_of_string s with
  | [y1; y2; y3; y4; "-"%char; m1; m2; "-"%char; d1; d2] =>
      match digits_value [y1; y2; y3; y4], digits_value [m1; m2],
            digits_value [d1; d2] with
      | Some y, Some m, Some d =>
          if (1 <=? m) && (m <=? 12) && (1 <=? d) && (d <=? days_in_month y m)
          then Some (days_from_civil y m d * msPerDay)
          else None
      | _, _, _ => None
      end
  | _ => None
  end.

End JsDate.

(** ** The platform's [JSON], as far as the source uses it

    [JSON.stringify] prints a value without white space; [JSON.parse]
    reads the JSON grammar.  Numbers are integers printed in plain
    decimal, which is what the platform prints for the counts the
    application stores; a number with a fraction or an exponent, and a
    [\u] escape above U+007F, are answered with [Unmodelled]. *)

Module Json.

#[local] Set Warnings "-register-all".
Inductive value : Type :=
| JNull
| JBool (b : bool)
| JNum (n : Z)
| JStr (s : string)
| JArr (vs : list value)
| JObj (kvs : list (string * value)).

Definition dquote : ascii := "034"%char.
Definition backslash : ascii := "092"%char.

(** *** Printing *)

Definition hex_char (n : nat) : ascii :=
  if (n <? 10)%nat then ascii_of_nat (48 + n) else ascii_of_nat (87 + n).

(** QuoteJSONString, one character at a time. *)
Definition escape_char (c : ascii) : list ascii :=
  let n := nat_of_ascii c in
  if (n =? 8)%nat then [backslash; "b"%char]
  else if (n =? 9)%nat then [backslash; "t"%char]
  else if (n =? 10)%nat then [backslash; "n"%char]
  else if (n =? 12)%nat then [backslash; "f"%char]
  else if (n =? 13)%nat then [backslash; "r"%char]
  else if (n =? 34)%nat then [backslash; dquote]
  else if (n =? 92)%nat then [backslash; backslash]
  else if (n <? 32)%nat then
    [backslash; "u"%char; "0"%char; "0"%char;
     hex_char (n / 16); hex_char (n mod 16)]
  else [c].

Definition print_string (s : string) : list ascii :=
  dquote :: concat (map escape_char (list_ascii_of_string s)) ++ [dquote].

Fixpoint uint_chars (d : uint) : list ascii :=
  match d with
  | Nil => []
  | D0 d => "0"%char :: uint_chars d
  | D1 d => "1"%char :: uint_chars d
  | D2 d => "2"%char :: uint_chars d
  | D3 d => "3"%char :: uint_chars d
  | D4 d => "4"%char :: uint_chars d
  | D5 d => "5"%char :: uint_chars d
  | D6 d => "6"%char :: uint_chars d
  | D7 d => "7"%char :: uint_chars d
  | D8 d => "8"%char :: uint_chars d
  | D9 d => "9"%char :: uint_chars d
  end.

Definition print_number (n : Z) : list ascii :=
  match Z.to_int n with
  | Pos d => uint_chars d
  | Neg d => "-"%char :: uint_chars d
  end.

Fixpoint join_comma (parts : list (list ascii)) : list ascii :=
  match parts with
  | [] => []
  | [p] => p
  | p :: ps => p ++ ","%char :: join_comma ps
  end.

Fixpoint print (v : value) : list ascii :=
  match v with
  | JNull => ["n"; "u"; "l"; "l"]%char
  | JBool true => ["t"; "r"; "u"; "e"]%char
  | JBool false => ["f"; "a"; "l"; "s"; "e"]%char
  | JNum n => print_number n
  | JStr s => print_string s
  | JArr vs => "["%char :: join_comma (map print vs) ++ ["]"%char]
  | JObj kvs =>
      "{"%char ::
      join_comma (map (fun kv => print_string (fst kv) ++ ":"%char :: print (snd kv)) kvs)
      ++ ["}"%char]
  end.

(** [JSON.stringify(v)] *)
Definition stringify (v : value) : string := string_of_list_ascii (print v).

(** *** Parsing *)

Definition is_ws (c : ascii) : bool :=
  let n := nat_of_ascii c in
  (n =? 32)%nat || (n =? 9)%nat || (n =? 10)%nat || (n =? 13)%nat.

Fixpoint skip_ws (cs : list ascii) : list ascii :=
  match cs with
  | c :: cs' => if is_ws c then skip_ws cs' else cs
  | [] => []
  end.

Definition hex_value (c : ascii) : option nat :=
  let n := nat_of_ascii c in
  if (48 <=? n)%nat && (n <=? 57)%nat then Some (n - 48)%nat
  else if (97 <=? n)%nat && (n <=? 102)%nat then Some (n - 87)%nat
  else if (65 <=? n)%nat && (n <=? 70)%nat then Some (n - 55)%nat
  else None.

Definition unicode_escape (a b c d : ascii) : result ascii :=
  match hex_value a, hex_value b, hex_value c, hex_value d with
  | Some x, Some y, Some z, Some w =>
      let n := (((x * 16 + y) * 16 + z) * 16 + w)%nat in
      if (n <? 128)%nat then Ok (ascii_of_nat n) else Throw Unmodelled
  | _, _, _, _ => Throw SyntaxError
  end.

(** The characters of a string literal after its opening quote, up to
    and including the closing quote. *)
Fixpoint parse_string_body (cs : list ascii) : result (list ascii * list ascii) :=
  match cs with
  | [] => Throw SyntaxError
  | c :: cs' =>
      if Ascii.eqb c dquote then Ok ([], cs')
      else if Ascii.eqb c backslash then
        match cs' with
        | e :: cs'' =>
            let simple (x : ascii) :=
              let* (s, r) := parse_string_body cs'' in Ok (x :: s, r) in
            if Ascii.eqb e dquote then simple dquote
            else if Ascii.eqb e backslash then simple backslash
            else if Ascii.eqb e "/"%char then simple "/"%char
            else if Ascii.eqb e "b"%char then simple "008"%char
            else if Ascii.eqb e "f"%char then simple "012"%char
            else if Ascii.eqb e "n"%char then simple "010"%char
            else if Ascii.eqb e "r"%char then simple "013"%char
            else if Ascii.eqb e "t"%char then simple "009"%char
            else if Ascii.eqb e "u"%char then
              match cs'' with
              | a :: b :: c' :: d :: cs3 =>
                  let* x := unicode_escape a b c' d in
                  let* (s, r) := parse_string_body cs3 in Ok (x :: s, r)
              | _ => Throw SyntaxError
              end
            else Throw SyntaxError
        | [] => Throw SyntaxError
        end
      else if (nat_of_ascii c <? 32)%nat then Throw SyntaxError
      else let* (s, r) := parse_string_body cs' in Ok (c :: s, r)
  end.

Definition digit_of (c : ascii) : option (uint -> uint) :=
  let n := nat_of_ascii c in
  if (n =? 48)%nat then Some D0 else if (n =? 49)%nat then Some D1
  else if (n =? 50)%nat then Some D2 else if (n =? 51)%nat then Some D3
  else if (n =? 52)%nat then Some D4 else if (n =? 53)%nat then Some D5
  else if (n =? 54)%nat then Some D6 else if (n =? 55)%nat then Some D7
  else if (n =? 56)%nat then Some D8 else if (n =? 57)%nat then Some D9
  else None.

(** The longest prefix of digits. *)
Fixpoint take_digits (cs : list ascii) : uint * list ascii :=
  match cs with
  | c :: cs' =>
      match digit_of c with
      | Some mk => let '(d, r) := take_digits cs' in (mk d, r)
      | None => (Nil, cs)
      end
  | [] => (Nil, [])
  end.

Definition starts_fraction (cs : list ascii) : bool :=
  match cs with
  | c :: _ => Ascii.eqb c "."%char || Ascii.eqb c "e"%char || Ascii.eqb c "E"%char
  | [] => false
  end.

Definition parse_number (cs : list ascii) : result (Z * list ascii) :=
  let '(neg, cs1) :=
    match cs with
    | c :: r => if Ascii.eqb c "-"%char then (true, r) else (false, cs)
    | [] => (false, cs)
    end in
  let '(d, rest) := take_digits cs1 in
  match d with
  | Nil => Throw SyntaxError
  | D0 (D0 _ | D1 _ | D2 _ | D3 _ | D4 _ | D5 _ | D6 _ | D7 _ | D8 _ | D9 _) =>
      Throw SyntaxError
  | _ =>
      if starts_fraction rest then Throw Unmodelled
      else Ok (Z.of_int (if neg then Neg d else Pos d), rest)
  end.

Fixpoint parse_value (fuel : nat) (cs : list ascii) : result (value * list ascii) :=
  match fuel with
  | O => Throw Unmodelled
  | S fuel =>
      match skip_ws cs with
      | [] => Throw SyntaxError
      | c :: r =>
          if Ascii.eqb c dquote then
            let* (s, r') := parse_string_body r in
            Ok (JStr (string_of_list_ascii s), r')
          else if Ascii.eqb c "["%char then
            match skip_ws r with
            | c' :: r' =>
                if Ascii.eqb c' "]"%char then Ok (JArr [], r')
                else let* (vs, r'') := parse_elements fuel r in Ok (JArr vs, r'')
            | [] => Throw SyntaxError
            end
          else if Ascii.eqb c "{"%char then
            match skip_ws r with
            | c' :: r' =>
                if Ascii.eqb c' "}"%char then Ok (JObj [], r')
                else let* (kvs, r'') := parse_members fuel r in Ok (JObj kvs, r'')
            | [] => Throw SyntaxError
            end
          else match c :: r with
               | "n" :: "u" :: "l" :: "l" :: r' => Ok (JNull, r')
               | "t" :: "r" :: "u" :: "e" :: r' => Ok (JBool true, r')
               | "f" :: "a" :: "l" :: "s" :: "e" :: r' => Ok (JBool false, r')
               | _ => let* (n, r') := parse_number (c :: r) in Ok (JNum n, r')
               end%char
      end
  end
with parse_elements (fuel : nat) (cs : list ascii) : result (list value * list ascii) :=
  match fuel with
  | O => Throw Unmodelled
  | S fuel =>
      let* (v, r) := parse_value fuel cs in
      match skip_ws r with
      | c :: r' =>
          if Ascii.eqb c ","%char then
            let* (vs, r'') := parse_elements fuel r' in Ok (v :: vs, r'')
          else if Ascii.eqb c "]"%char then Ok ([v], r')
          else Throw SyntaxError
      | [] => Throw SyntaxError
      end
  end
with parse_members (fuel : nat) (cs : list ascii)
  : result (list (string * value) * list ascii) :=
  match fuel with
  | O => Throw Unmodelled
  | S fuel =>
      match skip_ws cs with
      | q :: r0 =>
          if Ascii.eqb q dquote then
            let* (k, r1) := parse_string_body r0 in
            match skip_ws r1 with
            | c1 :: r2 =>
                if Ascii.eqb c1 ":"%char then
                  let* (v, r3) := parse_value fuel r2 in
                  match skip_ws r3 with
                  | c :: r' =>
                      if Ascii.eqb c ","%char then
                        let* (kvs, r'') := parse_members fuel r' in
                        Ok ((string_of_list_ascii k, v) :: kvs, r'')
                      else if Ascii.eqb c "}"%char then
                        Ok ([(string_of_list_ascii k, v)], r')
                      else Throw SyntaxError
                  | [] => Throw SyntaxError
                  end
                else Throw SyntaxError
            | [] => Throw SyntaxError
            end
          else Throw SyntaxError
      | [] => Throw SyntaxError
      end
  end.

(** [JSON.parse(s)]: one value, then nothing but white space.  The fuel
    is the length of the text, which bounds the nesting of any value it
    spells. *)
Definition parse (s : string) : result value :=
  let cs := list_ascii_of_string s in
  let* (v, r) := parse_value (length cs) cs in
  match skip_ws r with
  | [] => Ok v
  | _ :: _ => Throw SyntaxError
  end.

(** Property read [o.k] on a parsed object: the last member named [k]. *)
Fixpoint get (k : string) (kvs : list (string * value)) : option value :=
  match kvs with
  | [] => None
  | (k', v) :: r =>
      match get k r with
      | Some v' => Some v'
      | None => if String.eqb k k' then Some v else None
      end
  end.

(** *** Notions used to state that printing reads back *)

(** What may follow a number: no digit, and nothing that would continue
    it as a fraction or an exponent. *)
Definition follows_number (rest : list ascii) : bool :=
  match rest with
  | [] => true
  | c :: _ => match digit_of c with Some _ => false | None => true end
              && negb (starts_fraction rest)
  end.

(** The fuel that reading a value back takes. *)
Fixpoint need (v : value) : nat :=
  match v with
  | JArr vs => S (list_sum (map (fun x => S (need x)) vs))
  | JObj kvs => S (list_sum (map (fun kv => S (need (snd kv))) kvs))
  | _ => 1
  end.

(** The first character of a printed value decides how it is read. *)
Definition opens_value (c : ascii) : bool :=
  negb (is_ws c) && negb (Ascii.eqb c "]"%char) && negb (Ascii.eqb c "}"%char).

Definition starts_number (c : ascii) : bool :=
  Ascii.eqb c "-"%char || match digit_of c with Some _ => true | None => false end.

(** A value reads back, whatever follows it, given fuel for its size. *)
Definition reads_back (v : value) : Prop :=
  forall (fuel : nat) (rest : list ascii),
    (need v <= fuel)%nat -> follows_number rest = true ->
    parse_value fuel (print v ++ rest) = Ok (v, rest).

Definition print_member (kv : string * value) : list ascii :=
  print_string (fst kv) ++ ":"%char :: print (snd kv).

End Json.


(** ** The data model of [types.ts] *)

Module Types.

Inductive LightRequirement : Type := FULL_SUN | PARTIAL_SHADE | SHADE.

(** The enumeration's run-time values. *)
Definition light_value (l : LightRequirement) : string :=
  match l with
  | FULL_SUN => "Sol pleno"
  | PARTIAL_SHADE => "Meia-sombra"
  | SHADE => "Sombra"
  end.

(** Field [id] of the source is [plant_id] here. *)
Record Plant : Type := {
  plant_id : string;
  commonName : string;
  scientificName : string;
  light : LightRequirement;
  category : string;
  trivia : string;
  imageUrl : string
}.

Inductive SessionType : Type := CYCLE | QUIZ.

Record StudySession : Type := {
  date : string;
  type : SessionType;
  score : option Z
}.

Record UserProgress : Type := {
  plantsStudiedCount : Z;
  lastStudyDate : option string;
  streakDays : Z;
  quizTotalQuestions : Z;
  quizCorrectAnswers : Z;
  history : list StudySession
}.

Inductive QuestionType : Type :=
  SCIENTIFIC_TO_COMMON | COMMON_TO_LIGHT | PHOTO_TO_COMMON.

(** Fields [id], [type] and [imageUrl] of the source carry the prefix
    [q_] here. *)
Record QuizQuestion : Type := {
  q_id : Z;
  q_type : QuestionType;
  questionText : string;
  q_imageUrl : option string;
  options : list string;
  correctAnswer : string
}.

End Types.
Import Types.

(** A JavaScript string in a condition: the empty string is falsy. *)
Definition truthy (s : string) : bool := negb (String.eqb s "").

(** ** Records as JSON

    The TypeScript types are erased at run time: a [UserProgress] is the
    object that [JSON.stringify] prints member by member and that
    [JSON.parse] rebuilds.  [progress_of_json] reads the members the type
    declares; a parsed value of another shape does not inhabit the type
    and is answered with [Unmodelled]. *)

Definition session_type_value (t : SessionType) : string :=
  match t with CYCLE => "CYCLE" | QUIZ => "QUIZ" end.

Definition session_to_json (s : StudySession) : Json.value :=
  Json.JObj
    ([("date"%string, Json.JStr (date s));
      ("type"%string, Json.JStr (session_type_value (type s)))]
     ++ match score s with
        | Some n => [("score"%string, Json.JNum n)]
        | None => []          (* an undefined member is not printed *)
        end).

Definition progress_to_json (p : UserProgress) : Json.value :=
  Json.JObj
    [("plantsStudiedCount"%string, Json.JNum (plantsStudiedCount p));
     ("lastStudyDate"%string,
       match lastStudyDate p with
       | Some d => Json.JStr d
       | None => Json.JNull
       end);
     ("streakDays"%string, Json.JNum (streakDays p));
     ("quizTotalQuestions"%string, Json.JNum (quizTotalQuestions p));
     ("quizCorrectAnswers"%string, Json.JNum (quizCorrectAnswers p));
     ("history"%string, Json.JArr (map session_to_json (history p)))].

Definition num_member (k : string) (kvs : list (string * Json.value)) : result Z :=
  match Json.get k kvs with
  | Some (Json.JNum n) => Ok n
  | _ => Throw Unmodelled
  end.

Definition str_member (k : string) (kvs : list (string * Json.value)) : result string :=
  match Json.get k kvs with
  | Some (Json.JStr s) => Ok s
  | _ => Throw Unmodelled
  end.

Definition session_of_json (v : Json.value) : result StudySession :=
  match v with
  | Json.JObj kvs =>
      let* d := str_member "date" kvs in
      let* t := str_member "type" kvs in
      let* t' := (if String.eqb t "CYCLE" then Ok CYCLE
                  else if String.eqb t "QUIZ" then Ok QUIZ
                  else Throw Unmodelled) in
      let* sc := match Json.get "score" kvs with
                 | None => Ok None
                 | Some (Json.JNum n) => Ok (Some n)
                 | Some _ => Throw Unmodelled
                 end in
      Ok {| date := d; type := t'; score := sc |}
  | _ => Throw Unmodelled
  end.

Fixpoint sessions_of_json (vs : list Json.value) : result (list StudySession) :=
  match vs with
  | [] => Ok []
  | v :: vs' =>
      let* s := session_of_json v in
      let* ss := sessions_of_json vs' in
      Ok (s :: ss)
  end.

Definition progress_of_json (v : Json.value) : result UserProgress :=
  match v with
  | Json.JObj kvs =>
      let* c := num_member "plantsStudiedCount" kvs in
      let* l := match Json.get "lastStudyDate" kvs with
                | Some Json.JNull => Ok None
                | Some (Json.JStr s) => Ok (Some s)
                | _ => Throw Unmodelled
                end in
      let* sd := num_member "streakDays" kvs in
      let* qt := num_member "quizTotalQuestions" kvs in
      let* qc := num_member "quizCorrectAnswers" kvs in
      let* h := match Json.get "history" kvs with
                | Some (Json.JArr vs) => sessions_of_json vs
                | _ => Throw Unmodelled
                end in
      Ok {| plantsStudiedCount := c; lastStudyDate := l; streakDays := sd;
            quizTotalQuestions := qt; quizCorrectAnswers := qc; history := h |}
  | _ => Throw Unmodelled
  end.

(** ** Services and helpers of [App.tsx]: the progress store *)

Definition PROGRESS_KEY : string := "oliveira_garden_progress_v1".
Definition CUSTOM_IMAGES_KEY : string := "oliveira_garden_custom_images_v1".

Definition defaultProgress : UserProgress :=
  {| plantsStudiedCount := 0;
     lastStudyDate := None;
     streakDays := 0;
     quizTotalQuestions := 0;
     quizCorrectAnswers := 0;
     history := [] |}.

(** [getInitialProgress]: [localStorage.getItem] answers [null] for a
    missing key; [if (stored)] also skips the empty string. *)
Definition getInitialProgress (localStorage : gmap string string) : result UserProgress :=
  match localStorage !! PROGRESS_KEY with
  | Some stored =>
      if truthy stored
      then let* v := Json.parse stored in progress_of_json v
      else Ok defaultProgress
  | None => Ok defaultProgress
  end.

Definition saveProgress (progress : UserProgress) (localStorage : gmap string string)
  : gmap string string :=
  <[PROGRESS_KEY := Json.stringify (progress_to_json progress)]> localStorage.

(** ** Numbers that the source divides

    The three divisions of the source are IEEE-754 double divisions.
    Doubles are the binary64 instance of the library's [spec_float]:
    correctly rounded, with infinities and NaN. *)

Module Float64.

Definition prec : Z := 53.
Definition emax : Z := 1024.

(** The double nearest to an integer (the integer itself below 2^53). *)
Definition ofZ (z : Z) : spec_float := binary_normalize prec emax z 0 false.

Definition div (x y : spec_float) : spec_float := SFdiv prec emax x y.
Definition mul (x y : spec_float) : spec_float := SFmul prec emax x y.
Definition ltb (x y : spec_float) : bool := SFltb x y.
Definition eqb (x y : spec_float) : bool := SFeqb x y.

Definition signed (s : bool) (m : positive) : Z := if s then Z.neg m else Z.pos m.

(** The integers next to a finite double; [None] for NaN and the
    infinities. *)
Definition floorZ (x : spec_float) : option Z :=
  match x with
  | S754_zero _ => Some 0
  | S754_finite s m e =>
      Some (if 0 <=? e then signed s m * 2 ^ e else signed s m / 2 ^ (- e))
  | _ => None
  end.

Definition ceilZ (x : spec_float) : option Z :=
  match x with
  | S754_zero _ => Some 0
  | S754_finite s m e =>
      Some (if 0 <=? e then signed s m * 2 ^ e else - ((- signed s m) / 2 ^ (- e)))
  | _ => None
  end.

Definition truncZ (x : spec_float) : option Z :=
  match x with
  | S754_zero _ => Some 0
  | S754_finite s m e =>
      Some (if 0 <=? e then signed s m * 2 ^ e else Z.quot (signed s m) (2 ^ (- e)))
  | _ => None
  end.

(** The nearest integer, halves upwards. *)
Definition roundZ (x : spec_float) : option Z :=
  match x with
  | S754_zero _ => Some 0
  | S754_finite s m e =>
      Some (if 0 <=? e then signed s m * 2 ^ e
            else (2 * signed s m + 2 ^ (- e)) / 2 ^ (- e + 1))
  | _ => None
  end.

Definition integral (f : spec_float -> option Z) (x : spec_float) : spec_float :=
  match f x with
  | Some n => ofZ n
  | None => x
  end.

End Float64.

(** [Math.ceil] and [Math.round]; a zero result is given the positive
    sign. *)
Definition Math_ceil (x : spec_float) : spec_float := Float64.integral Float64.ceilZ x.
Definition Math_round (x : spec_float) : spec_float := Float64.integral Float64.roundZ x.

(** [a / b] on two integers held in numbers.  [None] marks a division by
    zero, whose quotient is [Infinity] or [NaN]. *)
Definition js_div (a b : Z) : option spec_float :=
  if b =? 0 then None else Some (Float64.div (Float64.ofZ a) (Float64.ofZ b)).

(** [x < y]; false when [x] is [Infinity] or [NaN]. *)
Definition js_lt (x : option spec_float) (y : spec_float) : bool :=
  match x with
  | Some q => Float64.ltb q y
  | None => false
  end.

(** The conversion of a number to an [unsigned long] attribute: the
    fraction is dropped, NaN and the infinities become 0, and the
    integer is taken modulo 2^32. *)
Definition toUnsignedLong (x : spec_float) : N :=
  match Float64.truncZ x with
  | Some n => Z.to_N (n mod 2 ^ 32)
  | None => 0%N
  end.

(** ** [compressImage] *)

Module Codec.

(** A decoded image and a canvas; both have unsigned dimensions. *)
Record Image : Type := { width : N; height : N }.
Record Canvas : Type := { canvas_width : N; canvas_height : N }.

Inductive File : Type :=
| Decodable (img : Image)
| Undecodable.

Inductive Promise (A : Type) : Type :=
| Resolved (a : A)
| Rejected.
Arguments Resolved {A} a.
Arguments Rejected {A}.

Definition MAX_WIDTH : Z := 600.

(** The size given to the canvas in [img.onload]. *)
Definition canvasFor (img : Image) : Canvas :=
  let scaleSize := js_div MAX_WIDTH (Z.of_N (width img)) in
  if js_lt scaleSize (Float64.ofZ 1) then
    {| canvas_width := Z.to_N MAX_WIDTH;
       canvas_height :=
         match scaleSize with
         | Some s => toUnsignedLong (Float64.mul (Float64.ofZ (Z.of_N (height img))) s)
         | None => 0%N
         end |}
  else
    {| canvas_width := width img; canvas_height := height img |}.

Section Encoder.
(** The base64 text of the JPEG that the platform's encoder produces for
    the drawn canvas at quality 0.7. *)
Variable jpegBase64 : Image -> Canvas -> string.

(** [canvas.toDataURL('image/jpeg', 0.7)]: a data URL, which for a canvas
    without pixels is the text [data:,]. *)
Definition toDataURL (img : Image) (canvas : Canvas) : string :=
  if ((canvas_width canvas =? 0) || (canvas_height canvas =? 0))%N
  then "data:,"
  else "data:image/jpeg;base64," +:+ jpegBase64 img canvas.

Definition compressImage (file : File) : Promise string :=
  match file with
  | Decodable img => Resolved (toDataURL img (canvasFor img))
  | Undecodable => Rejected
  end.
End Encoder.

End Codec.

(** ** [usePlantDatabase] *)

Module PlantDatabase.

Record Hook : Type := {
  plants : list Plant;
  customImages : gmap string string
}.

(** [customImages[p.id] || p.imageUrl] *)
Definition effectiveImage (customImages : gmap string string) (p : Plant) : string :=
  match customImages !! plant_id p with
  | Some url => if truthy url then url else imageUrl p
  | None => imageUrl p
  end.

Definition withImage (p : Plant) (url : string) : Plant :=
  {| plant_id := plant_id p; commonName := commonName p;
     scientificName := scientificName p; light := light p;
     category := category p; trivia := trivia p; imageUrl := url |}.

(** [JSON.stringify] of the custom-image object.  Members are listed
    in the map's enumeration order. *)
Definition images_to_json (customImages : gmap string string) : Json.value :=
  Json.JObj (map (fun kv => (fst kv, Json.JStr (snd kv))) (map_to_list customImages)).

Section Dataset.
(** The static dataset of [constants.ts]. *)
Variable PLANT_DATABASE : list Plant.

(** The merge effect: runs whenever [customImages] changes. *)
Definition mergedPlants (customImages : gmap string string) : list Plant :=
  map (fun p => withImage p (effectiveImage customImages p)) PLANT_DATABASE.

Definition setCustomImages (newCustomImages : gmap string string) : Hook :=
  {| plants := mergedPlants newCustomImages; customImages := newCustomImages |}.

(** [updatePlantImage], given how [compressImage] settled. *)
Definition updatePlantImage (plantId : string) (compressed : Codec.Promise string)
    (h : Hook) (localStorage : gmap string string)
  : bool * Hook * gmap string string :=
  match compressed with
  | Codec.Resolved base64Image =>
      let newCustomImages := <[plantId := base64Image]> (customImages h) in
      (true, setCustomImages newCustomImages,
       <[CUSTOM_IMAGES_KEY := Json.stringify (images_to_json newCustomImages)]> localStorage)
  | Codec.Rejected => (false, h, localStorage)
  end.

Definition resetImage (plantId : string) (h : Hook) (localStorage : gmap string string)
  : Hook * gmap string string :=
  let newCustomImages := delete plantId (customImages h) in
  (setCustomImages newCustomImages,
   <[CUSTOM_IMAGES_KEY := Json.stringify (images_to_json newCustomImages)]> localStorage).
End Dataset.

End PlantDatabase.

(** ** Random sampling

    [Math.random] draws from a source the program does not control: a
    sequence of numbers and a cursor into it. *)

Record Rng : Type := { draws : nat -> Q; cursor : nat }.

Definition Math_random (g : Rng) : Q * Rng :=
  (draws g (cursor g), {| draws := draws g; cursor := S (cursor g) |}).

(** [Array.prototype.sort] with a comparator that consults [Math.random].
    The engine chooses which pairs it compares and in which order; with a
    comparator that contradicts itself the order of the result is up to
    the engine.  What every engine does is rearrange the elements: the
    interface records that law and nothing more. *)
Class SortEngine : Type := {
  array_sort : forall A : Type, (A -> A -> Rng -> Q * Rng) -> list A -> Rng -> list A * Rng;
  array_sort_perm :
    forall (A : Type) (cmp : A -> A -> Rng -> Q * Rng) (l : list A) (g : Rng),
      Permutation (fst (array_sort A cmp l g)) l
}.

(** One engine: insertion sort. *)
Fixpoint insert_by {A : Type} (cmp : A -> A -> Rng -> Q * Rng) (x : A) (l : list A) (g : Rng)
  : list A * Rng :=
  match l with
  | [] => ([x], g)
  | y :: l' =>
      let '(c, g1) := cmp x y g in
      match (c ?= 0)%Q with
      | Gt => let '(r, g2) := insert_by cmp x l' g1 in (y :: r, g2)
      | _ => (x :: y :: l', g1)
      end
  end.

Fixpoint insertion_sort {A : Type} (cmp : A -> A -> Rng -> Q * Rng) (l : list A) (g : Rng)
  : list A * Rng :=
  match l with
  | [] => ([], g)
  | x :: l' =>
      let '(s, g1) := insertion_sort cmp l' g in
      insert_by cmp x s g1
  end.

(** The insertion-sort engine is an engine. *)
Definition insertion_engine : SortEngine.
Proof.
  refine {| array_sort := @insertion_sort |}.
  assert (Hins : forall A (cmp : A -> A -> Rng -> Q * Rng) x l g,
             Permutation (fst (insert_by cmp x l g)) (x :: l)).
  { intros A cmp x l. induction l as [|y l IH]; intros g; [reflexivity|].
    cbn [insert_by]. destruct (cmp x y g) as [c g1].
    destruct (c ?= 0)%Q; try reflexivity.
    specialize (IH g1). destruct (insert_by cmp x l g1) as [r g2]. cbn [fst] in *.
    rewrite IH. apply perm_swap. }
  intros A cmp l g. induction l as [|x l IH]; [reflexivity|].
  cbn [insertion_sort]. destruct (insertion_sort cmp l g) as [s g1]. cbn [fst] in IH.
  rewrite Hins. now apply perm_skip.
Defined.

(** The elements of a rearranged list sit at pairwise distinct positions
    of the original. *)
Definition drawn_from {A : Type} (l : list A) (idxs : list nat) (out : list A) : Prop :=
  NoDup idxs /\ Forall2 (fun i x => l !! i = Some x) idxs out.

(** [Array.prototype.slice(0, end)] for an integer [end]: a negative
    [end] counts from the end of the array. *)
Definition slice0 {A : Type} (l : list A) (end_ : Z) : list A :=
  let len := Z.of_nat (length l) in
  let final := if end_ <? 0 then Z.max (len + end_) 0 else Z.min end_ len in
  take (Z.to_nat final) l.

(** Arrays of plants are objects: the store maps an address to the
    array's current contents, so that sorting in place and copying are
    told apart. *)
Record World : Type := {
  arrays : gmap nat (list Plant);
  rng : Rng
}.

Definition M (A : Type) : Type := World -> result (A * World).

Definition ret {A} (a : A) : M A := fun w => Ok (a, w).

Definition mbind' {A B} (m : M A) (k : A -> M B) : M B :=
  fun w => match m w with
           | Ok (a, w') => k a w'
           | Throw e => Throw e
           end.

Notation "'do' x <- m ; k" := (mbind' m (fun x => k))
  (at level 10, x pattern, m at level 100, k at level 200).

Definition throw {A} (e : error) : M A := fun _ => Throw e.

(** Reading the array at an address the program holds. *)
Definition readArray (a : nat) : M (list Plant) :=
  fun w => match arrays w !! a with
           | Some l => Ok (l, w)
           | None => Throw Unmodelled
           end.

(** A new array object. *)
Definition newArray (l : list Plant) : M nat :=
  fun w => let a := fresh (dom (arrays w)) in
           Ok (a, {| arrays := <[a := l]> (arrays w); rng := rng w |}).

Section Sampling.
Context {engine : SortEngine}.

(** [arr.sort(cmp)]: sorts the array at [a] in place and returns [a]. *)
Definition sortInPlace (cmp : Plant -> Plant -> Rng -> Q * Rng) (a : nat) : M nat :=
  fun w => match arrays w !! a with
           | Some l =>
               let '(l', g') := array_sort Plant cmp l (rng w) in
               Ok (a, {| arrays := <[a := l']> (arrays w); rng := g' |})
           | None => Throw Unmodelled
           end.

(** [strings.sort(cmp)] on an array no one else holds. *)
Definition sortStrings (cmp : string -> string -> Rng -> Q * Rng) (l : list string)
  : M (list string) :=
  fun w => let '(l', g') := array_sort string cmp l (rng w) in
           Ok (l', {| arrays := arrays w; rng := g' |}).

(** [getRandomPlantsFromList]:
    [[...sourcePlants].sort(() => 0.5 - Math.random())], then
    [shuffled.slice(0, count)]. *)
Definition getRandomPlantsFromList (sourcePlants : nat) (count : Z) : M nat :=
  do src <- readArray sourcePlants;
  do copy <- newArray src;
  do shuffled <- sortInPlace
       (fun _ _ g => let '(r, g') := Math_random g in ((1 # 2) - r, g')%Q) copy;
  do l <- readArray shuffled;
  newArray (slice0 l count).

(** *** [generateDailyQuiz] *)

Definition quoted (s : string) : string :=
  String Json.dquote (s +:+ String Json.dquote EmptyString).

(** [arr[0]] followed by a property read: [undefined] has no
    properties. *)
Definition first (a : nat) : M Plant :=
  do l <- readArray a;
  match l with
  | p :: _ => ret p
  | [] => throw TypeError
  end.

Definition optionOrder : string -> string -> Rng -> Q * Rng :=
  fun _ _ g => let '(r, g') := Math_random g in (r - (1 # 2), g')%Q.

Definition generateDailyQuiz (plants : nat) : M (list QuizQuestion) :=
  do q1Plant <- getRandomPlantsFromList plants 4;
  do q2Plants <- getRandomPlantsFromList plants 1;
  do q3Plant <- getRandomPlantsFromList plants 4;
  do q1First <- first q1Plant;
  do q1All <- readArray q1Plant;
  do q1Options <- sortStrings optionOrder (map commonName q1All);
  let q1 := {| q_id := 1;
               q_type := SCIENTIFIC_TO_COMMON;
               questionText :=
                 "Qual o nome popular da planta " +:+ quoted (scientificName q1First) +:+ "?";
               q_imageUrl := None;
               options := q1Options;
               correctAnswer := commonName q1First |} in
  do q2Plant <- first q2Plants;
  do q2Options <- sortStrings optionOrder
       [light_value FULL_SUN; light_value PARTIAL_SHADE; light_value SHADE];
  let q2 := {| q_id := 2;
               q_type := COMMON_TO_LIGHT;
               questionText :=
                 "Qual a luminosidade ideal para a planta " +:+ quoted (commonName q2Plant) +:+ "?";
               q_imageUrl := None;
               options := q2Options;
               correctAnswer := light_value (light q2Plant) |} in
  do q3First <- first q3Plant;
  do q3All <- readArray q3Plant;
  do q3Options <- sortStrings optionOrder (map commonName q3All);
  let q3 := {| q_id := 3;
               q_type := PHOTO_TO_COMMON;
               questionText := "Qual o nome desta planta?";
               q_imageUrl := Some (imageUrl q3First);
               options := q3Options;
               correctAnswer := commonName q3First |} in
  ret [q1; q2; q3].

End Sampling.

(** ** [CyclePage]

    React runs a component as a loop: an event handler or an effect sets
    state, the component renders again, and the effects whose dependencies
    changed run after the render.  The instance keeps, next to the state,
    the dependency values the timer effect last ran with and whether the
    interval it scheduled is still pending. *)

Module CyclePage.

Record State : Type := {
  sessionPlants : list Plant;
  currentIndex : Z;
  showDetails : bool;
  timeLeft : Z;
  isActive : bool;
  isFinished : bool
}.

(** The streak after a completed cycle ([// Check streak]).  The clock is
    read once: the two [new Date()] of the source are taken at the same
    instant [now]. *)
Definition nextStreak (currentProgress : UserProgress) (now : Z) : Z :=
  let today := JsDate.toISODate now in
  let streak := streakDays currentProgress in
  match lastStudyDate currentProgress with
  | Some lastStudyDate =>
      if truthy lastStudyDate then
        match JsDate.parse lastStudyDate with
        | Some last =>
            let diffTime := Z.abs (now - last) in
            match js_div diffTime JsDate.msPerDay with
            | Some quotient =>
                let diffDays := Math_ceil quotient in
                if Float64.eqb diffDays (Float64.ofZ 1) then streak + 1
                else if Float64.ltb (Float64.ofZ 1) diffDays
                        && negb (String.eqb today lastStudyDate) then 1
                else streak
            | None => streak
            end
        | None => streak      (* NaN equals nothing and exceeds nothing *)
        end
      else 1
  | None => 1
  end.

Definition handleFinish (now : Z) (s : State) (localStorage : gmap string string)
  : result (State * gmap string string) :=
  let s' := {| sessionPlants := sessionPlants s; currentIndex := currentIndex s;
               showDetails := showDetails s; timeLeft := timeLeft s;
               isActive := false; isFinished := true |} in
  let* currentProgress := getInitialProgress localStorage in
  let today := JsDate.toISODate now in
  let streak := nextStreak currentProgress now in
  let newProgress :=
    {| plantsStudiedCount :=
         plantsStudiedCount currentProgress + Z.of_nat (length (sessionPlants s));
       lastStudyDate := Some today;
       streakDays := streak;
       quizTotalQuestions := quizTotalQuestions currentProgress;
       quizCorrectAnswers := quizCorrectAnswers currentProgress;
       history := history currentProgress
                  ++ [{| date := today; type := CYCLE; score := None |}] |} in
  Ok (s', saveProgress newProgress localStorage).

Record Instance : Type := {
  state : State;
  timerDeps : option (bool * Z);   (* [isActive, timeLeft] at the last run *)
  intervalPending : bool
}.

(** The state of [useState] at the first render; the timer effect has
    not run yet. *)
Definition mount : Instance :=
  {| state := {| sessionPlants := []; currentIndex := 0; showDetails := false;
                 timeLeft := 180; isActive := false; isFinished := false |};
     timerDeps := None;
     intervalPending := false |}.

Definition depsOf (s : State) : bool * Z := (isActive s, timeLeft s).

Definition depsChanged (c : Instance) : bool :=
  match timerDeps c with
  | Some (a, t) => negb (Bool.eqb a (isActive (state c)) && (t =? timeLeft (state c)))
  | None => true
  end.

(** One run of the timer effect.  The clean-up of the previous run
    clears its interval first. *)
Definition timerEffect (now : Z) (c : Instance) (localStorage : gmap string string)
  : result (Instance * gmap string string) :=
  let s := state c in
  if isActive s && (0 <? timeLeft s) then
    Ok ({| state := s; timerDeps := Some (depsOf s); intervalPending := true |},
        localStorage)
  else if timeLeft s =? 0 then
    let* (s', localStorage') := handleFinish now s localStorage in
    Ok ({| state := s'; timerDeps := Some (depsOf s); intervalPending := false |},
        localStorage')
  else
    Ok ({| state := s; timerDeps := Some (depsOf s); intervalPending := false |},
        localStorage).

(** After a render: the effect runs if its dependencies changed. *)
Definition afterRender (now : Z) (c : Instance) (localStorage : gmap string string)
  : result (Instance * gmap string string) :=
  if depsChanged c then timerEffect now c localStorage else Ok (c, localStorage).

(** An effect that sets state causes another render.  Three rounds reach
    a render after which no effect runs (lemma [settle_quiescent]). *)
Definition settle (now : Z) (c : Instance) (localStorage : gmap string string)
  : result (Instance * gmap string string) :=
  let* (c1, l1) := afterRender now c localStorage in
  let* (c2, l2) := afterRender now c1 l1 in
  afterRender now c2 l2.

Definition withState (c : Instance) (s : State) : Instance :=
  {| state := s; timerDeps := timerDeps c; intervalPending := intervalPending c |}.

(** The initialising effect, given the plants it sampled:
    [setSessionPlants(selected); setIsActive(true)]. *)
Definition initialize (selected : list Plant) (c : Instance) : Instance :=
  let s := state c in
  withState c {| sessionPlants := selected; currentIndex := currentIndex s;
                 showDetails := showDetails s; timeLeft := timeLeft s;
                 isActive := true; isFinished := isFinished s |}.

Inductive Event : Type :=
| Tick            (* the interval's callback *)
| ToggleDetails   (* Mostrar / Ocultar *)
| Next            (* Proxima *)
| Finish.         (* Finalizar *)

(** The card and its buttons are rendered only while there are session
    plants and the cycle is not finished. *)
Definition cardShown (s : State) : bool :=
  negb (length (sessionPlants s) =? 0)%nat && negb (isFinished s).

Definition nextShown (s : State) : bool :=
  currentIndex s <? Z.of_nat (length (sessionPlants s)) - 1.

(** The handler of one event, before the render it causes. *)
Definition handle (now : Z) (ev : Event) (c : Instance) (localStorage : gmap string string)
  : result (Instance * gmap string string) :=
  let s := state c in
  match ev with
  | Tick =>
      if intervalPending c then
        Ok (withState c {| sessionPlants := sessionPlants s; currentIndex := currentIndex s;
                           showDetails := showDetails s; timeLeft := timeLeft s - 1;
                           isActive := isActive s; isFinished := isFinished s |},
            localStorage)
      else Ok (c, localStorage)
  | ToggleDetails =>
      if cardShown s then
        Ok (withState c {| sessionPlants := sessionPlants s; currentIndex := currentIndex s;
                           showDetails := negb (showDetails s); timeLeft := timeLeft s;
                           isActive := isActive s; isFinished := isFinished s |},
            localStorage)
      else Ok (c, localStorage)
  | Next =>
      if cardShown s && nextShown s then
        Ok (withState c {| sessionPlants := sessionPlants s;
                           currentIndex := currentIndex s + 1;
                           showDetails := false; timeLeft := timeLeft s;
                           isActive := isActive s; isFinished := isFinished s |},
            localStorage)
      else Ok (c, localStorage)
  | Finish =>
      if cardShown s && negb (nextShown s) then
        let* (s', localStorage') := handleFinish now s localStorage in
        Ok (withState c s', localStorage')
      else Ok (c, localStorage)
  end.

(** One event, processed to quiescence. *)
Definition step (now : Z) (ev : Event) (c : Instance) (localStorage : gmap string string)
  : result (Instance * gmap string string) :=
  let* (c', l') := handle now ev c localStorage in
  settle now c' l'.

(** A sequence of events, each paired with the instant it is processed at. *)
Fixpoint run (evs : list (Z * Event)) (c : Instance) (localStorage : gmap string string)
  : result (Instance * gmap string string) :=
  match evs with
  | [] => Ok (c, localStorage)
  | (now, ev) :: evs' =>
      let* (c', l') := step now ev c localStorage in
      run evs' c' l'
  end.

(** A session from its start: mount, first effects, initialisation with
    the sampled plants, render. *)
Definition start (now : Z) (selected : list Plant) (localStorage : gmap string string)
  : result (Instance * gmap string string) :=
  let* (c0, l0) := settle now mount localStorage in
  settle now (initialize selected c0) l0.

End CyclePage.

(** ** [QuizPage] *)

Module QuizPage.

Record State : Type := {
  questions : list QuizQuestion;
  currentQIndex : Z;
  score : Z;
  isFinished : bool;
  selectedOption : option string;
  isAnswered : bool
}.

Definition mount : State :=
  {| questions := []; currentQIndex := 0; score := 0; isFinished := false;
     selectedOption := None; isAnswered := false |}.

(** [setQuestions([q1, q2, q3])] *)
Definition setQuestions (qs : list QuizQuestion) (s : State) : State :=
  {| questions := qs; currentQIndex := currentQIndex s; score := score s;
     isFinished := isFinished s; selectedOption := selectedOption s;
     isAnswered := isAnswered s |}.

(** [questions[currentQIndex]]: [None] is [undefined]. *)
Definition currentQuestion (s : State) : option QuizQuestion :=
  if currentQIndex s <? 0 then None
  else questions s !! Z.to_nat (currentQIndex s).

Definition handleAnswer (option : string) (s : State) : result State :=
  if isAnswered s then Ok s
  else
    match currentQuestion s with
    | Some q =>
        Ok {| questions := questions s; currentQIndex := currentQIndex s;
              score := if String.eqb option (correctAnswer q) then score s + 1 else score s;
              isFinished := isFinished s;
              selectedOption := Some option;
              isAnswered := true |}
    | None => Throw TypeError
    end.

Definition finishQuiz (now : Z) (s : State) (localStorage : gmap string string)
  : result (State * gmap string string) :=
  let s' := {| questions := questions s; currentQIndex := currentQIndex s;
               score := score s; isFinished := true;
               selectedOption := selectedOption s; isAnswered := isAnswered s |} in
  let* progress := getInitialProgress localStorage in
  match currentQuestion s with
  | Some q =>
      (* computed by the source and never used *)
      let finalScore :=
        score s + (if match selectedOption s with
                      | Some o => String.eqb o (correctAnswer q)
                      | None => false
                      end then 1 else 0) in
      Ok (s',
          saveProgress
            {| plantsStudiedCount := plantsStudiedCount progress;
               lastStudyDate := lastStudyDate progress;
               streakDays := streakDays progress;
               quizTotalQuestions := quizTotalQuestions progress + 3;
               quizCorrectAnswers := quizCorrectAnswers progress + score s;
               history := history progress
                          ++ [{| Types.date := JsDate.toISODate now;
                                 Types.type := QUIZ;
                                 Types.score := Some (score s) |}] |}
            localStorage)
  | None => Throw TypeError
  end.

Definition nextQuestion (now : Z) (s : State) (localStorage : gmap string string)
  : result (State * gmap string string) :=
  if currentQIndex s <? 2 then
    Ok ({| questions := questions s; currentQIndex := currentQIndex s + 1;
           score := score s; isFinished := isFinished s;
           selectedOption := None; isAnswered := false |},
        localStorage)
  else finishQuiz now s localStorage.

Inductive Event : Type :=
| Answer (option : string)   (* a click on an option button *)
| Advance.                   (* Proxima Pergunta / Ver Resultado *)

(** The question view is rendered once questions exist and the quiz is
    not finished. *)
Definition questionShown (s : State) : bool :=
  negb (length (questions s) =? 0)%nat && negb (isFinished s).

(** The option buttons of the current question; each is disabled once
    the question is answered. *)
Definition optionShown (option : string) (s : State) : bool :=
  questionShown s && negb (isAnswered s) &&
  match currentQuestion s with
  | Some q => bool_decide (option ∈ options q)
  | None => false
  end.

Definition step (now : Z) (ev : Event) (s : State) (localStorage : gmap string string)
  : result (State * gmap string string) :=
  match ev with
  | Answer option =>
      if optionShown option s
      then let* s' := handleAnswer option s in Ok (s', localStorage)
      else Ok (s, localStorage)
  | Advance =>
      if questionShown s && isAnswered s
      then nextQuestion now s localStorage
      else Ok (s, localStorage)
  end.

Fixpoint run (evs : list (Z * Event)) (s : State) (localStorage : gmap string string)
  : result (State * gmap string string) :=
  match evs with
  | [] => Ok (s, localStorage)
  | (now, ev) :: evs' =>
      let* (s', l') := step now ev s localStorage in
      run evs' s' l'
  end.

End QuizPage.

(** ** [ProgressPage] *)

Module ProgressPage.

(** [quizAccuracy]; [None] would be a figure computed by a division by
    zero. *)
Definition quizAccuracy (progress : UserProgress) : option spec_float :=
  if 0 <? quizTotalQuestions progress then
    match js_div (quizCorrectAnswers progress) (quizTotalQuestions progress) with
    | Some q => Some (Math_round (Float64.mul q (Float64.ofZ 100)))
    | None => None
    end
  else Some (Float64.ofZ 0).

End ProgressPage.

(** ** Notions the statements use *)




(** ** Sample data *)

Module Samples.

Definition samambaia : Plant :=
  {| plant_id := "1"; commonName := "Samambaia"; scientificName := "Nephrolepis exaltata";
     light := PARTIAL_SHADE; category := "Folhagem"; trivia := "Gosta de umidade.";
     imageUrl := "https://example.org/1.jpg" |}.

Definition espada : Plant :=
  {| plant_id := "2"; commonName := "Espada-de-Sao-Jorge";
     scientificName := "Sansevieria trifasciata";
     light := FULL_SUN; category := "Suculenta"; trivia := "Tolera pouca rega.";
     imageUrl := "https://example.org/2.jpg" |}.

Definition jiboia : Plant :=
  {| plant_id := "3"; commonName := "Jiboia"; scientificName := "Epipremnum aureum";
     light := PARTIAL_SHADE; category := "Trepadeira"; trivia := "Cresce rapido.";
     imageUrl := "https://example.org/3.jpg" |}.

Definition lirio : Plant :=
  {| plant_id := "4"; commonName := "Lirio-da-paz"; scientificName := "Spathiphyllum wallisii";
     light := SHADE; category := "Florifera"; trivia := "Floresce na sombra.";
     imageUrl := "https://example.org/4.jpg" |}.


Definition catalog : list Plant := [samambaia; espada; jiboia; lirio].


(** A random source that always draws [r]. *)
Definition constant_rng (r : Q) : Rng := {| draws := fun _ => r; cursor := 0 |}.

(** A world whose only array, at address 0, is [l]. *)
Definition world_of (l : list Plant) (r : Q) : World :=
  {| arrays := {[ 0%nat := l ]}; rng := constant_rng r |}.

(** 2024-10-04T01:00:00Z, 2024-10-04T13:00:00Z and 2024-10-05T12:00:00Z. *)
Definition oct4_1am : Z := 1728003600000.
Definition oct4_1pm : Z := 1728046800000.
Definition oct5_noon : Z := 1728129600000.

Definition progress_oct4 : UserProgress :=
  {| plantsStudiedCount := 2; lastStudyDate := Some "2024-10-04"%string; streakDays := 5;
     quizTotalQuestions := 3; quizCorrectAnswers := 2;
     history := [ {| date := "2024-10-04"; type := CYCLE; score := None |};
                  {| date := "2024-10-04"; type := QUIZ; score := Some 2 |} ] |}.

Definition question1 : QuizQuestion :=
  {| q_id := 1; q_type := SCIENTIFIC_TO_COMMON;
     questionText := "Qual o nome popular da planta " +:+ quoted "Epipremnum aureum" +:+ "?";
     q_imageUrl := None;
     options := ["Samambaia"; "Jiboia"; "Lirio-da-paz"; "Espada-de-Sao-Jorge"]%string;
     correctAnswer := "Jiboia" |}.

Definition question2 : QuizQuestion :=
  {| q_id := 2; q_type := COMMON_TO_LIGHT;
     questionText := "Qual a luminosidade ideal para a planta " +:+ quoted "Lirio-da-paz" +:+ "?";
     q_imageUrl := None;
     options := ["Meia-sombra"; "Sombra"; "Sol pleno"]%string;
     correctAnswer := "Sombra" |}.

Definition question3 : QuizQuestion :=
  {| q_id := 3; q_type := PHOTO_TO_COMMON;
     questionText := "Qual o nome desta planta?";
     q_imageUrl := Some "https://example.org/1.jpg"%string;
     options := ["Jiboia"; "Lirio-da-paz"; "Samambaia"; "Espada-de-Sao-Jorge"]%string;
     correctAnswer := "Samambaia" |}.

(** The quiz page on its last question, answered, with two points. *)
Definition quiz_at_last_question : QuizPage.State :=
  {| QuizPage.questions := [question1; question2; question3];
     QuizPage.currentQIndex := 2; QuizPage.score := 2; QuizPage.isFinished := false;
     QuizPage.selectedOption := Some "Jiboia"%string; QuizPage.isAnswered := true |}.

(** A storage that holds [progress_oct4] and one custom image. *)
Definition storage_oct4 : gmap string string :=
  saveProgress progress_oct4 {[ CUSTOM_IMAGES_KEY := "{}"%string ]}.

(** The cycle page with two session plants, on the second one. *)
Definition cycle_on_last_plant : CyclePage.State :=
  {| CyclePage.sessionPlants := [samambaia; espada]; CyclePage.currentIndex := 1;
     CyclePage.showDetails := false; CyclePage.timeLeft := 120;
     CyclePage.isActive := true; CyclePage.isFinished := false |}.

(** One tick per second, [n] of them, the first one second after [t0]. *)
Definition ticks (t0 : Z) (n : nat) : list (Z * CyclePage.Event) :=
  map (fun k => (t0 + 1000 * Z.of_nat k, CyclePage.Tick)) (seq 1 n).

(** An upload: a 1200 by 800 photo, and an encoder that answers a fixed
    payload. *)
Definition photo : Codec.File :=
  Codec.Decodable {| Codec.width := 1200; Codec.height := 800 |}.

Definition fixed_jpeg : Codec.Image -> Codec.Canvas -> string :=
  fun _ _ => "/9j/4AAQSkZJRg=="%string.

Definition photo_blob : string := "data:image/jpeg;base64,/9j/4AAQSkZJRg==".

(** The plant database hook over [catalog] with no custom image. *)
Definition plain_hook : PlantDatabase.Hook := PlantDatabase.setCustomImages catalog ∅.

End Samples.

(** ** Notions for the further properties *)

(** The cycle page while its countdown runs: active, not finished, the
    interval pending, the timer effect up to date. *)
Definition cycle_running (sessionPlants : list Plant) (currentIndex : Z) (showDetails : bool)
    (timeLeft : Z) : CyclePage.Instance :=
  {| CyclePage.state :=
       {| CyclePage.sessionPlants := sessionPlants; CyclePage.currentIndex := currentIndex;
          CyclePage.showDetails := showDetails; CyclePage.timeLeft := timeLeft;
          CyclePage.isActive := true; CyclePage.isFinished := false |};
     CyclePage.timerDeps := Some (true, timeLeft);
     CyclePage.intervalPending := true |}.

(** The cycle page after a completion with [timeLeft] on the clock. *)
Definition cycle_finished (sessionPlants : list Plant) (currentIndex : Z) (showDetails : bool)
    (timeLeft : Z) : CyclePage.Instance :=
  {| CyclePage.state :=
       {| CyclePage.sessionPlants := sessionPlants; CyclePage.currentIndex := currentIndex;
          CyclePage.showDetails := showDetails; CyclePage.timeLeft := timeLeft;
          CyclePage.isActive := false; CyclePage.isFinished := true |};
     CyclePage.timerDeps := Some (false, timeLeft);
     CyclePage.intervalPending := false |}.

(** Ticks at the given instants. *)
Definition ticks_at (instants : list Z) : list (Z * CyclePage.Event) :=
  map (fun t => (t, CyclePage.Tick)) instants.

(** Three instants, one second apart, after 01:00 UTC on 2024-10-04. *)
Definition three_instants : list Z := [1728003601000; 1728003602000; 1728003603000].

(** The position of the cycle page is an index of its session plants. *)
Definition cycle_in_bounds (c : CyclePage.Instance) : Prop :=
  0 <= CyclePage.currentIndex (CyclePage.state c)
     < Z.of_nat (length (CyclePage.sessionPlants (CyclePage.state c))).

(** A short session: show the details, go to the next plant, two ticks,
    finish. *)
Definition short_session : list (Z * CyclePage.Event) :=
  [ (1728003601000, CyclePage.ToggleDetails); (1728003602000, CyclePage.Next);
    (1728003603000, CyclePage.Tick); (1728003604000, CyclePage.Tick);
    (1728003605000, CyclePage.Finish) ].

(** The session plants and the position of the cycle page. *)
Definition cycle_place (c : CyclePage.Instance) : list Plant * Z :=
  (CyclePage.sessionPlants (CyclePage.state c), CyclePage.currentIndex (CyclePage.state c)).

(** The point a pick earns on a question. *)
Definition point_for (pick : string) (q : QuizQuestion) : Z :=
  if String.eqb pick (correctAnswer q) then 1 else 0.

(** The position and the score of the quiz page are in range: the
    position is one of the three questions and the score does not exceed
    the number of questions answered. *)
Definition quiz_in_range (s : QuizPage.State) : Prop :=
  0 <= QuizPage.currentQIndex s <= 2 /\
  0 <= QuizPage.score s
    <= QuizPage.currentQIndex s + (if QuizPage.isAnswered s then 1 else 0).

(** What a finished quiz has written over the record [p]: three more
    questions, [sc] more correct answers, one QUIZ entry. *)
Definition quiz_recorded (p p' : UserProgress) (day : string) (sc : Z) : Prop :=
  plantsStudiedCount p' = plantsStudiedCount p /\
  lastStudyDate p' = lastStudyDate p /\
  streakDays p' = streakDays p /\
  quizTotalQuestions p' = quizTotalQuestions p + 3 /\
  quizCorrectAnswers p' = quizCorrectAnswers p + sc /\
  history p' = history p ++ [ {| date := day; type := QUIZ; score := Some sc |} ].

(** A hurried user: clicks twice on options, advances, and keeps
    clicking after the result is shown. *)
Definition hurried_quiz : list (Z * QuizPage.Event) :=
  [ (1728129600000, QuizPage.Answer "Jiboia"); (1728129601000, QuizPage.Answer "Samambaia");
    (1728129602000, QuizPage.Advance); (1728129603000, QuizPage.Advance);
    (1728129604000, QuizPage.Answer "Sol pleno"); (1728129605000, QuizPage.Advance);
    (1728129606000, QuizPage.Answer "Samambaia"); (1728129607000, QuizPage.Advance);
    (1728129608000, QuizPage.Advance); (1728129609000, QuizPage.Answer "Jiboia") ].

(** ** [usePlantDatabase] from its first render *)

Module PlantHook.
Import PlantDatabase.

(** The members of a parsed object read as a [Record<string, string>]:
  a member written twice keeps its last value.  A member that is not a
  string does not inhabit the type and is answered with [Unmodelled]. *)
Fixpoint record_of_members (kvs : list (string * Json.value)) (acc : gmap string string)
: result (gmap string string) :=
match kvs with
| [] => Ok acc
| (k, Json.JStr s) :: r => record_of_members r (<[k := s]> acc)
| _ :: _ => Throw Unmodelled
end.

Definition images_of_json (v : Json.value) : result (gmap string string) :=
match v with
| Json.JObj kvs => record_of_members kvs ∅
| _ => Throw Unmodelled
end.

Section Dataset.
Variable PLANT_DATABASE : list Plant.

(** The two [useState] cells at the first render. *)
Definition initial : Hook := {| plants := PLANT_DATABASE; customImages := ∅ |}.

(** The first effect: read the stored custom images.  A text that does
not parse is logged and passed over. *)
Definition loadEffect (h : Hook) (localStorage : gmap string string) : result Hook :=
  match localStorage !! CUSTOM_IMAGES_KEY with
  | Some storedImages =>
  if truthy storedImages then
    match Json.parse storedImages with
    | Ok parsed =>
        let* images := images_of_json parsed in
        Ok {| plants := plants h; customImages := images |}
    | Throw SyntaxError => Ok h
    | Throw e => Throw e
    end
  else Ok h
  | None => Ok h
  end.

(** The second effect: [setPlants(mergedPlants)]. *)
Definition mergeEffect (h : Hook) : Hook :=
  {| plants := mergedPlants PLANT_DATABASE (customImages h);
 customImages := customImages h |}.

(** The hook once its effects have run: the merge follows every change
of [customImages], so it is the last to run. *)
Definition usePlantDatabase (localStorage : gmap string string) : result Hook :=
  let* h := loadEffect initial localStorage in
  Ok (mergeEffect h).

End Dataset.
End PlantHook.

(** An image of width [n] does not take the resizing branch of
    [compressImage]. *)
Definition keeps_size (n : nat) : bool :=
  negb (js_lt (js_div Codec.MAX_WIDTH (Z.of_nat n)) (Float64.ofZ 1)).

(** A narrow picture: 480 by 640. *)
Definition narrow_photo : Codec.Image := {| Codec.width := 480; Codec.height := 640 |}.

(** ** [formatTime] of the cycle page *)

(** [Math.floor] as an integer; [None] for NaN and the infinities. *)
Definition Math_floor (x : option spec_float) : option Z :=
  match x with
  | Some q => Float64.floorZ q
  | None => None
  end.

(** An integer number in a template literal. *)
Definition number_text (n : Z) : string := string_of_list_ascii (Json.print_number n).

Definition formatTime (seconds : Z) : option string :=
  match Math_floor (js_div seconds 60) with
  | Some m =>
      let s := Z.rem seconds 60 in
      Some (number_text m +:+ ":" +:+ (if s <? 10 then "0" else "") +:+ number_text s)
  | None => None
  end.

(** The text [m:ss] of a clock. *)
Definition clock_text (m s : Z) : string :=
  String (JsDate.digit_char m) (String ":" (JsDate.pad2 s)).

(** [formatTime] gives the clock text of [n] seconds. *)
Definition clock_checked (n : nat) : bool :=
  match formatTime (Z.of_nat n) with
  | Some text => String.eqb text (clock_text (Z.of_nat n / 60) (Z.of_nat n mod 60))
  | None => false
  end.

(** The clock of the cycle page is between 0 and 180 seconds, and an
    interval is pending only while time is left. *)
Definition clock_in_range (c : CyclePage.Instance) : Prop :=
  0 <= CyclePage.timeLeft (CyclePage.state c) <= 180 /\
  (CyclePage.intervalPending c = true -> 0 < CyclePage.timeLeft (CyclePage.state c)).

(** ** The study page *)

Module StudyPage.
Import PlantDatabase.

(** [s.includes(sub)] *)
Fixpoint includes (s sub : string) : bool :=
String.prefix sub s
|| match s with
   | EmptyString => false
   | String _ s' => includes s' sub
   end.

Section Search.
(** [String.prototype.toLowerCase], a function of the platform. *)
Variable toLowerCase : string -> string.

Definition filteredPlants (plants : list Plant) (searchTerm filterLight : string)
  : list Plant :=
  List.filter
(fun p =>
   let matchesSearch :=
     includes (toLowerCase (commonName p)) (toLowerCase searchTerm)
     || includes (toLowerCase (scientificName p)) (toLowerCase searchTerm) in
   let matchesLight :=
     String.eqb filterLight "all" || String.eqb (light_value (light p)) filterLight in
   matchesSearch && matchesLight)
plants.
End Search.

(** [selectedPlant.imageUrl.startsWith('data:')] *)
Definition hasCustomImage (selectedPlant : Plant) : bool :=
String.prefix "data:" (imageUrl selectedPlant).

Section Dataset.
Variable PLANT_DATABASE : list Plant.

(** [PLANT_DATABASE.find(p => p.id === prev.id)?.imageUrl || ''] *)
Definition originalImage (prev : Plant) : string :=
  match List.find (fun p => String.eqb (plant_id p) (plant_id prev)) PLANT_DATABASE with
  | Some p => imageUrl p
  | None => ""
  end.

(** The click on the restore button, which is rendered while a plant is
selected and its image is a custom one. *)
Definition restoreClick (selectedPlant : option Plant) (h : Hook)
(localStorage : gmap string string)
  : option Plant * Hook * gmap string string :=
  match selectedPlant with
  | Some sel =>
  if hasCustomImage sel then
    let '(h', localStorage') := resetImage PLANT_DATABASE (plant_id sel) h localStorage in
    (Some (withImage sel (originalImage sel)), h', localStorage')
  else (selectedPlant, h, localStorage)
  | None => (None, h, localStorage)
  end.
End Dataset.

End StudyPage.

(** Equality of light requirements. *)
Definition same_light (a b : LightRequirement) : bool :=
  match a, b with
  | FULL_SUN, FULL_SUN | PARTIAL_SHADE, PARTIAL_SHADE | SHADE, SHADE => true
  | _, _ => false
  end.

(** ASCII letters in lower case; other bytes as they are. *)
Definition lower_ascii (s : string) : string :=
  string_of_list_ascii
    (map (fun c => let n := nat_of_ascii c in
                   if ((65 <=? n) && (n <=? 90))%nat then ascii_of_nat (n + 32) else c)
         (list_ascii_of_string s)).

(** ** The weekly ranking of the progress page *)

Module Ranking.

Record Entry : Type := { name : string; points : Z; rank : Z }.

(** [Array.prototype.sort] with a comparator that orders consistently:
  the language fixes the result, which is ordered by the comparator
  and keeps the elements it ranks equal in their original order. *)
Fixpoint insert_stable {A : Type} (cmp : A -> A -> Z) (x : A) (l : list A) : list A :=
match l with
| [] => [x]
| y :: l' => if 0 <? cmp x y then y :: insert_stable cmp x l' else x :: y :: l'
end.

Fixpoint sort_stable {A : Type} (cmp : A -> A -> Z) (l : list A) : list A :=
match l with
| [] => []
| x :: l' => insert_stable cmp x (sort_stable cmp l')
end.

Definition you (progress : UserProgress) : Entry :=
{| name := "Você";
   points := plantsStudiedCount progress * 10 + quizCorrectAnswers progress * 5;
   rank := 2 |}.
Definition carlos : Entry := {| name := "Carlos M."; points := 450; rank := 1 |}.
Definition ana : Entry := {| name := "Ana P."; points := 210; rank := 3 |}.
Definition roberto : Entry := {| name := "Roberto S."; points := 180; rank := 4 |}.

(** The rows of the ranking, each with the position it is shown at
  ([idx + 1]). *)
Definition rows (progress : UserProgress) : list (Z * Entry) :=
imap (fun idx user => (Z.of_nat idx + 1, user))
     (sort_stable (fun a b => points b - points a)
                  [you progress; carlos; ana; roberto]).

End Ranking.
Example toISODate_epoch : JsDate.toISODate 0 = "1970-01-01"%string.
Proof. reflexivity. Qed.

Example toISODate_2024 : JsDate.toISODate 1728003600000 = "2024-10-04"%string.
Proof. reflexivity. Qed.

Example parse_2024 : JsDate.parse "2024-10-04" = Some 1728000000000.
Proof. reflexivity. Qed.

Example parse_leap : JsDate.parse "2024-02-29" = Some 1709164800000.
Proof. reflexivity. Qed.

Example parse_invalid : JsDate.parse "yesterday" = None.
Proof. reflexivity. Qed.

Example stringify_sample :
  Json.stringify (Json.JObj [("a"%string, Json.JArr [Json.JNum 1; Json.JNum (-20); Json.JNull]);
                             ("b"%string, Json.JStr "x")])
  = String "{" (String Json.dquote ("a" +:+ String Json.dquote (":[1,-20,null]," +:+
      String Json.dquote ("b" +:+ String Json.dquote (":" +:+ String Json.dquote ("x" +:+
      String Json.dquote "}")))))).
Proof. reflexivity. Qed.

Example parse_sample :
  Json.parse " [1, -20 ,{ }, true]"
  = Ok (Json.JArr [Json.JNum 1; Json.JNum (-20); Json.JObj []; Json.JBool true]).
Proof. reflexivity. Qed.

Example parse_leading_zero : Json.parse "01" = Throw SyntaxError.
Proof. reflexivity. Qed.

Example parse_fraction : Json.parse "1.5" = Throw Unmodelled.
Proof. reflexivity. Qed.

(** * Facts about the platform model *)

(** ** [JSON.parse] reads back what [JSON.stringify] prints *)

Module JsonFacts.
Import Json.

(** Reading an escaped character yields the character. *)
Lemma parse_escape_char (c : ascii) (k : list ascii) :
  parse_string_body (escape_char c ++ k)
  = let* (s, r) := parse_string_body k in Ok (c :: s, r).
Proof.
  destruct c as [[] [] [] [] [] [] [] []]; reflexivity.
Qed.

Lemma parse_string_body_escaped (s : list ascii) (rest : list ascii) :
  parse_string_body (concat (map escape_char s) ++ dquote :: rest) = Ok (s, rest).
Proof.
  induction s as [|c s IH]; [reflexivity|].
  cbn [map concat]. rewrite <- app_assoc, parse_escape_char, IH. reflexivity.
Qed.

Lemma parse_print_string (s : string) (rest : list ascii) :
  parse_string_body (tail (print_string s) ++ rest) = Ok (list_ascii_of_string s, rest).
Proof.
  unfold print_string. cbn [tail]. rewrite <- app_assoc.
  apply parse_string_body_escaped.
Qed.


Lemma take_digits_rest (rest : list ascii) :
  follows_number rest = true -> take_digits rest = (Nil, rest).
Proof.
  destruct rest as [|c r]; [reflexivity|]. cbn [follows_number take_digits].
  destruct (digit_of c); [discriminate | reflexivity].
Qed.

Lemma take_digits_uint (d : uint) (rest : list ascii) :
  follows_number rest = true -> take_digits (uint_chars d ++ rest) = (d, rest).
Proof.
  intros Hrest.
  induction d; simpl; [apply take_digits_rest; assumption | rewrite IHd; reflexivity ..].
Qed.

Lemma follows_number_no_fraction (rest : list ascii) :
  follows_number rest = true -> starts_fraction rest = false.
Proof.
  destruct rest as [|c r]; [reflexivity|]. cbn [follows_number].
  intros H. apply andb_prop in H as [_ H]. now apply negb_true_iff in H.
Qed.

(** The digits of an integer are in normal form: no leading zero, except
    for zero itself. *)
Lemma to_int_normal (n : Z) : norm (Z.to_int n) = Z.to_int n.
Proof. rewrite <- (DecimalZ.to_of (Z.to_int n)), DecimalZ.of_to. reflexivity. Qed.

Lemma parse_print_number (n : Z) (rest : list ascii) :
  follows_number rest = true ->
  parse_number (print_number n ++ rest) = Ok (n, rest).
Proof.
  intros Hrest. pose proof (to_int_normal n) as Hnorm.
  pose proof (DecimalZ.of_to n) as Hof.
  unfold print_number. destruct (Z.to_int n) as [d|d].
  - (* non-negative *)
    cbn [norm] in Hnorm. injection Hnorm as Hnorm.
    assert (Hnz : d <> Nil) by (rewrite <- Hnorm; apply DecimalFacts.unorm_nonnil).
    assert (Hlead : forall d', d = D0 d' -> d' = Nil).
    { intros d' ->. unfold unorm in Hnorm. cbn [nzhead] in Hnorm.
      destruct (nzhead d') eqn:E; try (exfalso; eapply DecimalFacts.nzhead_nonzero;
        rewrite E; exact Hnorm).
      injection Hnorm as <-. reflexivity. }
    unfold parse_number.
    assert (Hhead : match uint_chars d ++ rest with
                    | c :: r => if Ascii.eqb c "-"%char then (true, r)
                                else (false, uint_chars d ++ rest)
                    | [] => (false, uint_chars d ++ rest)
                    end = (false, uint_chars d ++ rest)).
    { destruct d; try congruence; reflexivity. }
    rewrite Hhead, take_digits_uint by assumption.
    rewrite (follows_number_no_fraction _ Hrest), Hof.
    destruct d as [|d'|d'|d'|d'|d'|d'|d'|d'|d'|d']; try congruence; try reflexivity.
    rewrite (Hlead d' eq_refl). reflexivity.
  - (* negative *)
    cbn [norm] in Hnorm.
    assert (Hnz : nzhead d = d).
    { destruct (nzhead d); congruence. }
    unfold parse_number. cbn [app]. cbn [Ascii.eqb Bool.eqb].
    rewrite take_digits_uint by assumption.
    rewrite (follows_number_no_fraction _ Hrest), Hof.
    destruct d as [|d'|d'|d'|d'|d'|d'|d'|d'|d'|d']; try reflexivity.
    + cbn in Hnorm. discriminate.
    + exfalso. eapply DecimalFacts.nzhead_nonzero. exact Hnz.
Qed.

(** Induction over values, through the lists of a container. *)
Lemma value_nested_ind (P : value -> Prop) :
  P JNull -> (forall b, P (JBool b)) -> (forall n, P (JNum n)) -> (forall s, P (JStr s)) ->
  (forall vs, Forall P vs -> P (JArr vs)) ->
  (forall kvs, Forall (fun kv => P (snd kv)) kvs -> P (JObj kvs)) ->
  forall v, P v.
Proof.
  intros HNull HBool HNum HStr HArr HObj. fix IH 1.
  intros [| b | n | s | vs | kvs]; [exact HNull | apply HBool | apply HNum | apply HStr | |].
  - apply HArr. induction vs as [|x vs IHvs]; constructor; [apply IH | exact IHvs].
  - apply HObj. induction kvs as [|x kvs IHkvs]; constructor; [apply IH | exact IHkvs].
Qed.



Lemma print_number_head (n : Z) :
  exists c tl, print_number n = c :: tl /\
    (c = "-"%char \/ exists mk, digit_of c = Some mk).
Proof.
  pose proof (to_int_normal n) as Hnorm. unfold print_number.
  destruct (Z.to_int n) as [d|d].
  - cbn [norm] in Hnorm. injection Hnorm as Hnorm.
    assert (Hnz : d <> Nil) by (rewrite <- Hnorm; apply DecimalFacts.unorm_nonnil).
    destruct d; try congruence; cbn [uint_chars]; do 2 eexists; split;
      try reflexivity; right; eexists; reflexivity.
  - do 2 eexists. split; [reflexivity | left; reflexivity].
Qed.

Lemma digit_opens (c : ascii) mk : digit_of c = Some mk -> opens_value c = true.
Proof.
  destruct c as [[] [] [] [] [] [] [] []]; cbv; congruence.
Qed.

Lemma print_head (v : value) :
  exists c tl, print v = c :: tl /\ opens_value c = true.
Proof.
  destruct v as [|[]|n|s|vs|kvs]; try (do 2 eexists; split; reflexivity).
  destruct (print_number_head n) as (c & tl & E & [->|[mk H]]).
  - exists "-"%char, tl. split; [exact E | reflexivity].
  - exists c, tl. split; [exact E | eapply digit_opens; eassumption].
Qed.

Lemma skip_ws_opens (c : ascii) (r : list ascii) :
  opens_value c = true -> skip_ws (c :: r) = c :: r.
Proof.
  unfold opens_value. intros H. cbn [skip_ws].
  destruct (is_ws c); [discriminate | reflexivity].
Qed.

Lemma skip_ws_print (v : value) (rest : list ascii) :
  skip_ws (print v ++ rest) = print v ++ rest.
Proof.
  destruct (print_head v) as (c & tl & -> & H). now apply skip_ws_opens.
Qed.

(** Unfoldings of the reader, one per opening character. *)
Lemma parse_value_string (fuel : nat) (cs : list ascii) :
  parse_value (S fuel) (dquote :: cs)
  = let* (s, r') := parse_string_body cs in Ok (JStr (string_of_list_ascii s), r').
Proof. reflexivity. Qed.

Lemma parse_value_array (fuel : nat) (cs : list ascii) :
  parse_value (S fuel) ("["%char :: cs)
  = match skip_ws cs with
    | c' :: r' =>
        if Ascii.eqb c' "]"%char then Ok (JArr [], r')
        else let* (vs, r'') := parse_elements fuel cs in Ok (JArr vs, r'')
    | [] => Throw SyntaxError
    end.
Proof. reflexivity. Qed.

Lemma parse_value_object (fuel : nat) (cs : list ascii) :
  parse_value (S fuel) ("{"%char :: cs)
  = match skip_ws cs with
    | c' :: r' =>
        if Ascii.eqb c' "}"%char then Ok (JObj [], r')
        else let* (kvs, r'') := parse_members fuel cs in Ok (JObj kvs, r'')
    | [] => Throw SyntaxError
    end.
Proof. reflexivity. Qed.


Lemma parse_value_number (fuel : nat) (c : ascii) (cs : list ascii) :
  starts_number c = true ->
  parse_value (S fuel) (c :: cs)
  = let* (n, r') := parse_number (c :: cs) in Ok (JNum n, r').
Proof.
  destruct c as [[] [] [] [] [] [] [] []]; intros H; vm_compute in H;
    try discriminate H; reflexivity.
Qed.

Lemma parse_elements_S (fuel : nat) (cs : list ascii) :
  parse_elements (S fuel) cs
  = let* (v, r) := parse_value fuel cs in
    match skip_ws r with
    | c :: r' =>
        if Ascii.eqb c ","%char then
          let* (vs, r'') := parse_elements fuel r' in Ok (v :: vs, r'')
        else if Ascii.eqb c "]"%char then Ok ([v], r')
        else Throw SyntaxError
    | [] => Throw SyntaxError
    end.
Proof. reflexivity. Qed.

Lemma parse_members_S (fuel : nat) (cs : list ascii) :
  parse_members (S fuel) (dquote :: cs)
  = let* (k, r1) := parse_string_body cs in
    match skip_ws r1 with
    | c1 :: r2 =>
        if Ascii.eqb c1 ":"%char then
          let* (v, r3) := parse_value fuel r2 in
          match skip_ws r3 with
          | c :: r' =>
              if Ascii.eqb c ","%char then
                let* (kvs, r'') := parse_members fuel r' in
                Ok ((string_of_list_ascii k, v) :: kvs, r'')
              else if Ascii.eqb c "}"%char then
                Ok ([(string_of_list_ascii k, v)], r')
              else Throw SyntaxError
          | [] => Throw SyntaxError
          end
        else Throw SyntaxError
    | [] => Throw SyntaxError
    end.
Proof. reflexivity. Qed.

Lemma skip_ws_cons (c : ascii) (r : list ascii) :
  is_ws c = false -> skip_ws (c :: r) = c :: r.
Proof. intros H. cbn [skip_ws]. rewrite H. reflexivity. Qed.

(** Decide the comparisons of known characters in the goal. *)
Ltac known_chars :=
  repeat (rewrite skip_ws_cons by reflexivity);
  repeat match goal with
    | |- context [Ascii.eqb ?a ?b] =>
        let r := eval vm_compute in (Ascii.eqb a b) in
        match r with true => idtac | false => idtac end;
        change (Ascii.eqb a b) with r; cbv iota
    end.


Lemma parse_elements_print (vs : list value) :
  vs <> [] -> Forall reads_back vs ->
  forall (fuel : nat) (rest : list ascii),
    (list_sum (map (fun x => S (need x)) vs) <= fuel)%nat ->
    parse_elements fuel (join_comma (map print vs) ++ "]"%char :: rest) = Ok (vs, rest).
Proof.
  induction vs as [|v vs IH]; [congruence|]. intros _ Hall fuel rest Hfuel.
  apply Forall_cons in Hall as [Hv Hall]. simpl in Hfuel.
  destruct fuel as [|fuel]; [lia|]. rewrite parse_elements_S.
  destruct vs as [|v' vs].
  - cbn [map join_comma]. rewrite Hv by (reflexivity || (cbn in Hfuel; lia)).
    cbn [bind]. known_chars. reflexivity.
  - change (join_comma (map print (v :: v' :: vs)))
      with (print v ++ ","%char :: join_comma (map print (v' :: vs))).
    rewrite <- app_assoc. cbn [app].
    rewrite Hv by (reflexivity || lia). cbn [bind]. known_chars.
    rewrite IH by (congruence || assumption || lia). reflexivity.
Qed.


Lemma parse_members_print (kvs : list (string * value)) :
  kvs <> [] -> Forall (fun kv => reads_back (snd kv)) kvs ->
  forall (fuel : nat) (rest : list ascii),
    (list_sum (map (fun kv => S (need (snd kv))) kvs) <= fuel)%nat ->
    parse_members fuel (join_comma (map print_member kvs) ++ "}"%char :: rest)
    = Ok (kvs, rest).
Proof.
  induction kvs as [|[k v] kvs IH]; [congruence|]. intros _ Hall fuel rest Hfuel.
  apply Forall_cons in Hall as [Hv Hall]. simpl in Hfuel, Hv.
  destruct fuel as [|fuel]; [lia|].
  destruct kvs as [|kv' kvs].
  - cbn [map join_comma]. unfold print_member, print_string. cbn [fst snd].
    rewrite <- !app_assoc. cbn [app]. rewrite parse_members_S.
    rewrite <- app_assoc. cbn [app]. rewrite parse_string_body_escaped.
    cbn [bind]. known_chars. rewrite Hv by (reflexivity || (cbn in Hfuel; lia)).
    cbn [bind]. known_chars. rewrite string_of_list_ascii_of_string. reflexivity.
  - change (join_comma (map print_member ((k, v) :: kv' :: kvs)))
      with (print_member (k, v) ++ ","%char :: join_comma (map print_member (kv' :: kvs))).
    unfold print_member at 1, print_string. cbn [fst snd].
    rewrite <- !app_assoc. cbn [app]. rewrite parse_members_S.
    rewrite <- !app_assoc. cbn [app]. rewrite parse_string_body_escaped.
    cbn [bind]. known_chars. rewrite Hv by (reflexivity || lia).
    cbn [bind]. known_chars. rewrite IH by (congruence || assumption || lia).
    cbn [bind]. rewrite string_of_list_ascii_of_string. reflexivity.
Qed.

Lemma join_comma_head (parts : list (list ascii)) (c : ascii) (tl : list ascii)
    (more : list (list ascii)) :
  parts = (c :: tl) :: more -> exists tl', join_comma parts = c :: tl'.
Proof.
  intros ->. destruct more; cbn [join_comma app]; eexists; reflexivity.
Qed.

Lemma print_object_eq (kvs : list (string * value)) :
  print (JObj kvs) = "{"%char :: join_comma (map print_member kvs) ++ ["}"%char].
Proof. reflexivity. Qed.

Theorem print_reads_back (v : value) : reads_back v.
Proof.
  induction v as [| b | n | s | vs IH | kvs IH] using value_nested_ind;
    intros fuel rest Hfuel Hrest; (destruct fuel as [|fuel]; [cbn in Hfuel; lia|]).
  - reflexivity.
  - destruct b; reflexivity.
  - cbn [print]. destruct (print_number_head n) as (c & tl & E & Hc).
    pose proof (parse_print_number n rest Hrest) as Hnum.
    rewrite E in Hnum |- *. cbn [app] in Hnum |- *.
    rewrite parse_value_number, Hnum; [reflexivity|].
    unfold starts_number. destruct Hc as [->|[mk ->]]; [reflexivity|].
    apply orb_true_r.
  - cbn [print]. unfold print_string. cbn [app].
    rewrite parse_value_string, <- app_assoc. cbn [app].
    rewrite parse_string_body_escaped. cbn [bind].
    rewrite string_of_list_ascii_of_string. reflexivity.
  - cbn [print app]. rewrite parse_value_array, <- app_assoc. cbn [app].
    destruct vs as [|v vs]; [reflexivity|].
    destruct (print_head v) as (c & tl & E & Hc).
    destruct (join_comma_head (map print (v :: vs)) c tl (map print vs)) as [tl' Ej].
    { cbn [map]. rewrite E. reflexivity. }
    rewrite parse_elements_print by (congruence || assumption || (simpl in Hfuel |- *; lia)).
    rewrite Ej. cbn [app]. rewrite (skip_ws_opens _ _ Hc).
    unfold opens_value in Hc. apply andb_prop in Hc as [Hc _].
    apply andb_prop in Hc as [_ Hc]. apply negb_true_iff in Hc. rewrite Hc.
    reflexivity.
  - rewrite print_object_eq. cbn [app]. rewrite parse_value_object, <- app_assoc.
    cbn [app]. destruct kvs as [|[k v] kvs]; [reflexivity|].
    rewrite parse_members_print by (congruence || assumption || (simpl in Hfuel |- *; lia)).
    cbn [map]. unfold print_member at 1, print_string. cbn [fst app].
    destruct (map print_member kvs); cbn [join_comma app]; known_chars; reflexivity.
Qed.

Lemma list_sum_cons (a : nat) (l : list nat) :
  list_sum (a :: l) = (a + list_sum l)%nat.
Proof. reflexivity. Qed.

(** The length of a printed value covers the fuel it takes. *)
Lemma length_join_comma (parts : list (list ascii)) :
  (list_sum (map (@length ascii) parts) + length parts
   <= S (length (join_comma parts)))%nat.
Proof.
  induction parts as [|p parts IH]; [cbn; lia|].
  destruct parts as [|p' parts].
  - cbn. lia.
  - change (join_comma (p :: p' :: parts)) with (p ++ ","%char :: join_comma (p' :: parts)).
    rewrite length_app. cbn [length map] in IH |- *.
    rewrite !list_sum_cons in *. lia.
Qed.

Lemma need_le_length (v : value) : (need v <= length (print v))%nat.
Proof.
  induction v as [| b | n | s | vs IH | kvs IH] using value_nested_ind.
  - cbn. lia.
  - destruct b; cbn; lia.
  - cbn [need print]. destruct (print_number_head n) as (c & tl & -> & _). cbn. lia.
  - cbn. lia.
  - cbn [need print length]. rewrite length_app. cbn [length].
    pose proof (length_join_comma (map print vs)) as Hj.
    rewrite length_map in Hj.
    assert (Hs : (list_sum (map (fun x => S (need x)) vs)
                  <= list_sum (map (@length ascii) (map print vs)) + length vs)%nat).
    { clear Hj. induction IH as [|x l Hx Hl IHl]; [cbn; lia|].
      cbn [map length]. rewrite !list_sum_cons. lia. }
    lia.
  - rewrite print_object_eq. cbn [need length]. rewrite length_app. cbn [length].
    pose proof (length_join_comma (map print_member kvs)) as Hj.
    rewrite length_map in Hj.
    assert (Hs : (list_sum (map (fun kv => S (need (snd kv))) kvs)
                  <= list_sum (map (@length ascii) (map print_member kvs)) + length kvs)%nat).
    { clear Hj. induction IH as [|x l Hx Hl IHl]; [cbn; lia|].
      cbn [map length]. rewrite !list_sum_cons.
      unfold print_member at 1. rewrite length_app. cbn [length]. lia. }
    lia.
Qed.

(** [JSON.parse(JSON.stringify(v))] is [v]. *)
Theorem parse_stringify (v : value) : parse (stringify v) = Ok v.
Proof.
  unfold parse, stringify. rewrite list_ascii_of_string_of_list_ascii.
  rewrite <- (app_nil_r (print v)) at 2.
  rewrite print_reads_back by (apply need_le_length || reflexivity).
  reflexivity.
Qed.

(** A printed value is never the empty text. *)
Lemma stringify_truthy (v : value) : truthy (stringify v) = true.
Proof.
  unfold truthy, stringify. destruct (print_head v) as (c & tl & -> & _). reflexivity.
Qed.

End JsonFacts.

(** ** The progress store *)

Lemma session_json_roundtrip (s : StudySession) :
  session_of_json (session_to_json s) = Ok s.
Proof. destruct s as [d [] [n|]]; reflexivity. Qed.

Lemma sessions_json_roundtrip (h : list StudySession) :
  sessions_of_json (map session_to_json h) = Ok h.
Proof.
  induction h as [|s h IH]; [reflexivity|].
  cbn [map sessions_of_json]. rewrite session_json_roundtrip, IH. reflexivity.
Qed.

Lemma progress_json_roundtrip (p : UserProgress) :
  progress_of_json (progress_to_json p) = Ok p.
Proof.
  destruct p as [c [l|] sd qt qc h]; unfold progress_of_json, progress_to_json;
    cbn -[sessions_of_json session_to_json];
    rewrite sessions_json_roundtrip; reflexivity.
Qed.

(** Reading the store after a write finds the record written. *)
Lemma getInitialProgress_saveProgress (p : UserProgress) (localStorage : gmap string string) :
  getInitialProgress (saveProgress p localStorage) = Ok p.
Proof.
  unfold getInitialProgress, saveProgress. rewrite lookup_insert_eq.
  rewrite JsonFacts.stringify_truthy, JsonFacts.parse_stringify. cbn [bind].
  apply progress_json_roundtrip.
Qed.

Lemma getInitialProgress_empty : getInitialProgress ∅ = Ok defaultProgress.
Proof. reflexivity. Qed.

(** A write touches the progress key only. *)
Lemma saveProgress_other_key (p : UserProgress) (localStorage : gmap string string) (k : string) :
  k <> PROGRESS_KEY -> saveProgress p localStorage !! k = localStorage !! k.
Proof. intros H. unfold saveProgress. now rewrite lookup_insert_ne. Qed.

(** ** Sorting and sampling *)

Lemma insert_by_perm {A : Type} (cmp : A -> A -> Rng -> Q * Rng) (x : A) (l : list A) (g : Rng) :
  Permutation (fst (insert_by cmp x l g)) (x :: l).
Proof.
  revert g. induction l as [|y l IH]; intros g; [reflexivity|].
  cbn [insert_by]. destruct (cmp x y g) as [c g1].
  destruct (c ?= 0)%Q; try reflexivity.
  specialize (IH g1). destruct (insert_by cmp x l g1) as [r g2]. cbn [fst] in *.
  rewrite IH. apply perm_swap.
Qed.

Lemma insertion_sort_perm {A : Type} (cmp : A -> A -> Rng -> Q * Rng) (l : list A) (g : Rng) :
  Permutation (fst (insertion_sort cmp l g)) l.
Proof.
  induction l as [|x l IH]; [reflexivity|].
  cbn [insertion_sort]. destruct (insertion_sort cmp l g) as [s g1]. cbn [fst] in IH.
  rewrite insert_by_perm. now apply perm_skip.
Qed.



Lemma permutation_positions {A : Type} (l l' : list A) :
  Permutation l' l -> exists idxs, drawn_from l idxs l'.
Proof.
  intros Hp. apply Permutation_inj in Hp as [Hlen (f & Hinj & Hf)].
  exists (f <$> seq 0 (length l')). split.
  - apply (NoDup_fmap_2 f), NoDup_seq.
  - apply Forall2_same_length_lookup_2.
    + now rewrite length_fmap, length_seq.
    + intros i j x Hi Hx. rewrite list_lookup_fmap in Hi.
      destruct (seq 0 (length l') !! i) as [i'|] eqn:E; [|discriminate].
      apply lookup_seq in E as [-> _]. cbn in Hi. injection Hi as <-.
      now rewrite <- Hf.
Qed.

Lemma drawn_from_take {A : Type} (l : list A) (idxs : list nat) (out : list A) (n : nat) :
  drawn_from l idxs out -> drawn_from l (take n idxs) (take n out).
Proof.
  intros [Hnd Hall]. split.
  - eapply sublist_NoDup; [exact Hnd | apply sublist_take].
  - now apply Forall2_take.
Qed.

Lemma slice0_nonneg {A : Type} (l : list A) (count : Z) :
  0 <= count -> slice0 l count = take (Z.to_nat count) l.
Proof.
  intros H. unfold slice0. destruct (count <? 0) eqn:E; [lia|].
  destruct (Z.min_spec count (Z.of_nat (length l))) as [[_ ->]|[Hle ->]]; [reflexivity|].
  rewrite Nat2Z.id, !take_ge by lia. reflexivity.
Qed.

Lemma length_slice0 {A : Type} (l : list A) (count : Z) :
  0 <= count -> Z.of_nat (length (slice0 l count)) = Z.min count (Z.of_nat (length l)).
Proof.
  intros H. rewrite slice0_nonneg, length_take by assumption. lia.
Qed.

Section SamplingFacts.
Context {engine : SortEngine}.

(** What one call of [getRandomPlantsFromList] does to the store: it
    answers a new array holding a prefix of a rearrangement of the source,
    and every array that existed before, the source among them, is as it
    was. *)
Lemma getRandomPlantsFromList_spec (sourcePlants : nat) (count : Z) (w : World)
    (src : list Plant) :
  arrays w !! sourcePlants = Some src ->
  exists (out : nat) (w' : World) (shuffled : list Plant),
    getRandomPlantsFromList sourcePlants count w = Ok (out, w') /\
    Permutation shuffled src /\
    arrays w' !! out = Some (slice0 shuffled count) /\
    arrays w !! out = None /\
    (forall a l, arrays w !! a = Some l -> arrays w' !! a = Some l).
Proof.
  intros Hsrc. unfold getRandomPlantsFromList, mbind', readArray, newArray, sortInPlace.
  rewrite Hsrc. cbn [arrays rng].
  set (copy := fresh (dom (arrays w))).
  assert (Hcopy : arrays w !! copy = None).
  { apply not_elem_of_dom, is_fresh. }
  rewrite lookup_insert_eq.
  pose proof (array_sort_perm Plant
    (fun _ _ g => let '(r, g') := Math_random g in ((1 # 2) - r, g')%Q) src (rng w)) as Hperm.
  destruct (array_sort Plant _ src (rng w)) as [shuffled g'] eqn:Es.
  cbn [fst] in Hperm. cbn [arrays rng]. rewrite lookup_insert_eq.
  set (store := <[copy := shuffled]> (<[copy := src]> (arrays w))).
  set (out := fresh (dom store)).
  assert (Hout : store !! out = None).
  { apply not_elem_of_dom, is_fresh. }
  assert (Hne : out <> copy).
  { intros E. rewrite E in Hout. unfold store in Hout.
    rewrite lookup_insert_eq in Hout. discriminate. }
  exists out, {| arrays := <[out := slice0 shuffled count]> store; rng := g' |}, shuffled.
  split; [reflexivity|]. split; [exact Hperm|]. cbn [arrays].
  split; [apply lookup_insert_eq|]. split.
  - unfold store in Hout. rewrite !lookup_insert_ne in Hout by congruence. exact Hout.
  - intros a l Ha.
    assert (a <> copy) by congruence.
    assert (a <> out).
    { intros ->. unfold store in Hout. rewrite !lookup_insert_ne in Hout by congruence.
      congruence. }
    unfold store. rewrite !lookup_insert_ne by congruence. exact Ha.
Qed.

Lemma mbind_ok {A B : Type} (m : M A) (k : A -> M B) (w w' : World) (a : A) :
  m w = Ok (a, w') -> mbind' m k w = k a w'.
Proof. unfold mbind'. now intros ->. Qed.

Lemma readArray_ok (a : nat) (w : World) (l : list Plant) :
  arrays w !! a = Some l -> readArray a w = Ok (l, w).
Proof. unfold readArray. now intros ->. Qed.

Lemma first_ok (a : nat) (w : World) (p : Plant) (l : list Plant) :
  arrays w !! a = Some (p :: l) -> first a w = Ok (p, w).
Proof. intros H. unfold first. now rewrite (mbind_ok _ _ _ _ _ (readArray_ok _ _ _ H)). Qed.

Lemma sortStrings_spec (cmp : string -> string -> Rng -> Q * Rng) (l : list string) (w : World) :
  exists (o : list string) (g' : Rng),
    sortStrings cmp l w = Ok (o, {| arrays := arrays w; rng := g' |}) /\ Permutation o l.
Proof.
  unfold sortStrings. pose proof (array_sort_perm string cmp l (rng w)) as Hp.
  destruct (array_sort string cmp l (rng w)) as [o g']. cbn [fst] in Hp.
  exists o, g'. split; [reflexivity | exact Hp].
Qed.

Lemma slice0_cons_of_perm (shuffled src : list Plant) (count : Z) :
  Permutation shuffled src -> src <> [] -> 1 <= count ->
  exists p tl, shuffled = p :: tl /\ slice0 shuffled count = p :: take (Z.to_nat count - 1) tl.
Proof.
  intros Hp Hne Hc. destruct shuffled as [|p tl].
  - apply Permutation_nil in Hp. congruence.
  - exists p, tl. split; [reflexivity|]. rewrite slice0_nonneg by lia.
    destruct (Z.to_nat count) as [|n] eqn:E; [lia|]. cbn [take].
    do 2 f_equal. lia.
Qed.


End SamplingFacts.

(** ** Counting options *)






(** ** The render loop of [CyclePage] *)

Module CycleFacts.
Import CyclePage.

Lemma depsChanged_same (s : State) (pending : bool) :
  depsChanged {| state := s; timerDeps := Some (depsOf s); intervalPending := pending |} = false.
Proof.
  unfold depsChanged, depsOf. cbn. rewrite Z.eqb_refl.
  destruct (isActive s); reflexivity.
Qed.

Lemma afterRender_stable (now : Z) (c : Instance) (localStorage : gmap string string) :
  depsChanged c = false -> afterRender now c localStorage = Ok (c, localStorage).
Proof. unfold afterRender. now intros ->. Qed.

Lemma handleFinish_state (now : Z) (s s' : State) (l l' : gmap string string) :
  handleFinish now s l = Ok (s', l') ->
  isActive s' = false /\ timeLeft s' = timeLeft s.
Proof.
  unfold handleFinish. destruct (getInitialProgress l); cbn [bind]; [|discriminate].
  intros [= <- _]. split; reflexivity.
Qed.

(** After one run of the effect, either nothing is left to do, or the
    run finished an active cycle at time 0. *)
Lemma timerEffect_next (now : Z) (c c1 : Instance) (l l1 : gmap string string) :
  timerEffect now c l = Ok (c1, l1) ->
  depsChanged c1 = false \/
  (isActive (state c1) = false /\ timeLeft (state c1) = 0).
Proof.
  unfold timerEffect.
  destruct (isActive (state c) && (0 <? timeLeft (state c))) eqn:Ea.
  - intros [= <- _]. left. apply depsChanged_same.
  - destruct (Z.eqb_spec (timeLeft (state c)) 0) as [Et|Et].
    + destruct (handleFinish now (state c) l) as [[s' l']|] eqn:Eh; cbn [bind]; [|discriminate].
      intros [= <- _]. right. cbn [state].
      apply handleFinish_state in Eh as [? ?]. split; congruence.
    + intros [= <- _]. left. apply depsChanged_same.
Qed.

(** The effect run on a cycle that is no longer active leaves nothing to
    do. *)
Lemma timerEffect_inactive (now : Z) (c c1 : Instance) (l l1 : gmap string string) :
  isActive (state c) = false ->
  timerEffect now c l = Ok (c1, l1) -> depsChanged c1 = false.
Proof.
  intros Hin. unfold timerEffect. rewrite Hin. cbn [andb].
  destruct (timeLeft (state c) =? 0).
  - destruct (handleFinish now (state c) l) as [[s' l']|] eqn:Eh; cbn [bind]; [|discriminate].
    intros [= <- _]. apply handleFinish_state in Eh as [Ha Ht].
    unfold depsChanged, depsOf. cbn. rewrite Hin, Ha, Ht, Z.eqb_refl. reflexivity.
  - intros [= <- _]. apply depsChanged_same.
Qed.

Lemma afterRender_next (now : Z) (c c1 : Instance) (l l1 : gmap string string) :
  afterRender now c l = Ok (c1, l1) ->
  depsChanged c1 = false \/ isActive (state c1) = false.
Proof.
  unfold afterRender. destruct (depsChanged c) eqn:E.
  - intros H. apply timerEffect_next in H as [H|[H _]]; auto.
  - intros [= <- _]. now left.
Qed.

(** [settle] ends on a render after which no effect runs. *)
Lemma settle_quiescent (now : Z) (c c' : Instance) (l l' : gmap string string) :
  settle now c l = Ok (c', l') -> depsChanged c' = false.
Proof.
  unfold settle.
  destruct (afterRender now c l) as [[c1 l1]|] eqn:E1; cbn [bind]; [|discriminate].
  destruct (afterRender now c1 l1) as [[c2 l2]|] eqn:E2; cbn [bind]; [|discriminate].
  intros E3. apply afterRender_next in E1 as [H1|H1].
  - rewrite (afterRender_stable _ _ _ H1) in E2. injection E2 as <- <-.
    rewrite (afterRender_stable _ _ _ H1) in E3. now injection E3 as <- _.
  - unfold afterRender in E2. destruct (depsChanged c1) eqn:D1.
    + apply (timerEffect_inactive _ _ _ _ _ H1) in E2.
      rewrite (afterRender_stable _ _ _ E2) in E3. now injection E3 as <- _.
    + injection E2 as <- <-. rewrite (afterRender_stable _ _ _ D1) in E3.
      now injection E3 as <- _.
Qed.

(** The last tick of a running countdown, whatever the storage holds:
    the record loaded is written back twice, each time with the session's
    plants added and a CYCLE entry appended. *)
Lemma last_tick_records_twice (now : Z) (s : State) (l : gmap string string) (p : UserProgress) :
  isActive s = true -> timeLeft s = 1 ->
  getInitialProgress l = Ok p ->
  exists (c' : Instance) (l' : gmap string string) (p' : UserProgress),
    step now Tick {| state := s; timerDeps := Some (depsOf s); intervalPending := true |} l
    = Ok (c', l') /\
    isFinished (state c') = true /\
    getInitialProgress l' = Ok p' /\
    plantsStudiedCount p'
    = plantsStudiedCount p + 2 * Z.of_nat (length (sessionPlants s)) /\
    history p'
    = history p ++ [ {| date := JsDate.toISODate now; type := CYCLE; score := None |};
                     {| date := JsDate.toISODate now; type := CYCLE; score := None |} ].
Proof.
  intros Ha Ht Hload.
  unfold step, handle, settle, afterRender, timerEffect, depsChanged, depsOf, withState.
  cbn [intervalPending state timerDeps bind isActive timeLeft].
  rewrite Ha, Ht. change (1 - 1) with 0.
  cbn -[handleFinish getInitialProgress saveProgress JsDate.toISODate].
  unfold handleFinish at 1. cbn [sessionPlants]. rewrite Hload.
  cbn -[handleFinish getInitialProgress saveProgress JsDate.toISODate].
  unfold handleFinish at 1. rewrite getInitialProgress_saveProgress.
  cbn -[handleFinish getInitialProgress saveProgress JsDate.toISODate].
  eexists _, _, _. split; [reflexivity|]. split; [reflexivity|].
  split; [apply getInitialProgress_saveProgress|].
  cbn [plantsStudiedCount history]. split; [lia|]. now rewrite <- app_assoc.
Qed.

End CycleFacts.

(** ** The steps of [QuizPage] *)

Module QuizFacts.
Import QuizPage.

(** A click on the correct option of an open question. *)
Lemma step_answer_correct (now : Z) (s : State) (l : gmap string string) (q : QuizQuestion) :
  questionShown s = true -> isAnswered s = false ->
  currentQuestion s = Some q -> correctAnswer q ∈ options q ->
  step now (Answer (correctAnswer q)) s l
  = Ok ({| questions := questions s; currentQIndex := currentQIndex s;
           score := score s + 1; isFinished := isFinished s;
           selectedOption := Some (correctAnswer q); isAnswered := true |}, l).
Proof.
  intros Hshown Hopen Hq Hin. unfold step, optionShown, handleAnswer.
  rewrite Hshown, Hopen, Hq. cbn [andb negb].
  rewrite (bool_decide_eq_true_2 _ Hin), String.eqb_refl. reflexivity.
Qed.

(** Advancing from an answered question before the last one. *)
Lemma step_advance_next (now : Z) (s : State) (l : gmap string string) :
  questionShown s = true -> isAnswered s = true -> currentQIndex s < 2 ->
  step now Advance s l
  = Ok ({| questions := questions s; currentQIndex := currentQIndex s + 1;
           score := score s; isFinished := isFinished s;
           selectedOption := None; isAnswered := false |}, l).
Proof.
  intros Hshown Hans Hidx. unfold step, nextQuestion. rewrite Hshown, Hans. cbn [andb].
  destruct (Z.ltb_spec (currentQIndex s) 2); [reflexivity | lia].
Qed.

(** Advancing from the answered last question. *)
Lemma step_advance_finish (now : Z) (s : State) (l : gmap string string) :
  questionShown s = true -> isAnswered s = true -> 2 <= currentQIndex s ->
  step now Advance s l = finishQuiz now s l.
Proof.
  intros Hshown Hans Hidx. unfold step, nextQuestion. rewrite Hshown, Hans. cbn [andb].
  destruct (Z.ltb_spec (currentQIndex s) 2); [lia | reflexivity].
Qed.

(** Clicks on an answered question change nothing. *)
Lemma step_answer_locked (now : Z) (option : string) (s : State) (l : gmap string string) :
  isAnswered s = true -> step now (Answer option) s l = Ok (s, l).
Proof.
  intros Hans. unfold step, optionShown. rewrite Hans.
  now rewrite andb_false_r.
Qed.

End QuizFacts.

(** * The claims *)

Section SampleClaim.
Context {engine : SortEngine}.

(** Claim C9.  For a non-negative count, [getRandomPlantsFromList]
    answers a new array whose length is the minimum of the count and the
    source's length, whose elements sit at pairwise distinct positions of
    the source, and it leaves the source array as it was. *)
Theorem C9_sample_distinct_positions (sourcePlants : nat) (count : Z) (w : World)
    (src : list Plant) :
  arrays w !! sourcePlants = Some src ->
  0 <= count ->
  exists (out : nat) (w' : World) (sample : list Plant) (idxs : list nat),
    getRandomPlantsFromList sourcePlants count w = Ok (out, w') /\
    arrays w' !! out = Some sample /\
    Z.of_nat (length sample) = Z.min count (Z.of_nat (length src)) /\
    drawn_from src idxs sample /\
    out <> sourcePlants /\
    arrays w' !! sourcePlants = Some src.
Proof.
  intros Hsrc Hcount.
  destruct (getRandomPlantsFromList_spec sourcePlants count w src Hsrc)
    as (out & w' & shuffled & E & Hperm & Hout & Hnew & Hkeep).
  destruct (permutation_positions src shuffled Hperm) as [idxs Hidx].
  exists out, w', (slice0 shuffled count), (take (Z.to_nat count) idxs).
  split; [exact E|]. split; [exact Hout|]. split.
  - rewrite length_slice0 by assumption.
    now rewrite (Permutation_length Hperm).
  - split.
    + rewrite slice0_nonneg by assumption. now apply drawn_from_take.
    + split; [congruence | now apply Hkeep].
Qed.

End SampleClaim.

Lemma C9_sample_distinct_positions_witness :
  arrays (Samples.world_of Samples.catalog 0) !! 0%nat = Some Samples.catalog /\
  0 <= 2 /\
  exists (out : nat) (w' : World) (sample : list Plant) (idxs : list nat),
    getRandomPlantsFromList (engine := insertion_engine) 0 2 (Samples.world_of Samples.catalog 0)
    = Ok (out, w') /\
    arrays w' !! out = Some sample /\
    Z.of_nat (length sample) = Z.min 2 (Z.of_nat (length Samples.catalog)) /\
    drawn_from Samples.catalog idxs sample /\
    out <> 0%nat /\
    arrays w' !! 0%nat = Some Samples.catalog.
Proof.
  split; [reflexivity|]. split; [lia|].
  apply (C9_sample_distinct_positions (engine := insertion_engine) 0
           2 (Samples.world_of Samples.catalog 0) Samples.catalog); [reflexivity | lia].
Defined.

Section QuizOptionClaim.
Context {engine : SortEngine}.


End QuizOptionClaim.



(** Claim C7.  Saving a progress record and loading it again returns the
    record that was saved: every count, the last study date, the streak
    and every history entry. *)
Theorem C7_save_then_load (p : UserProgress) (localStorage : gmap string string) :
  getInitialProgress (saveProgress p localStorage) = Ok p.
Proof. apply getInitialProgress_saveProgress. Qed.

(** Claim C8.  [finishQuiz] persists a record with the streak, the last
    study date and the studied count of the record it loaded; the two
    quiz totals and the history, which gains one QUIZ entry, are all that
    change, and no other key of the storage is written. *)
Theorem C8_quiz_completion_frame (now : Z) (s : QuizPage.State)
    (localStorage : gmap string string) (p : UserProgress) (q : QuizQuestion) :
  getInitialProgress localStorage = Ok p ->
  QuizPage.currentQuestion s = Some q ->
  exists (s' : QuizPage.State) (localStorage' : gmap string string) (p' : UserProgress),
    QuizPage.finishQuiz now s localStorage = Ok (s', localStorage') /\
    getInitialProgress localStorage' = Ok p' /\
    streakDays p' = streakDays p /\
    lastStudyDate p' = lastStudyDate p /\
    plantsStudiedCount p' = plantsStudiedCount p /\
    quizTotalQuestions p' = quizTotalQuestions p + 3 /\
    quizCorrectAnswers p' = quizCorrectAnswers p + QuizPage.score s /\
    history p' = history p ++ [ {| date := JsDate.toISODate now; type := QUIZ;
                                   score := Some (QuizPage.score s) |} ] /\
    (forall k, k <> PROGRESS_KEY -> localStorage' !! k = localStorage !! k).
Proof.
  intros Hload Hq. unfold QuizPage.finishQuiz. rewrite Hload, Hq. cbn [bind].
  eexists _, _, _. split; [reflexivity|].
  split; [apply getInitialProgress_saveProgress|].
  repeat (split; [reflexivity|]).
  intros k Hk. apply saveProgress_other_key. exact Hk.
Qed.

Lemma C8_quiz_completion_frame_witness :
  getInitialProgress Samples.storage_oct4 = Ok Samples.progress_oct4 /\
  QuizPage.currentQuestion Samples.quiz_at_last_question = Some Samples.question3 /\
  exists (s' : QuizPage.State) (localStorage' : gmap string string) (p' : UserProgress),
    QuizPage.finishQuiz Samples.oct5_noon Samples.quiz_at_last_question Samples.storage_oct4
    = Ok (s', localStorage') /\
    getInitialProgress localStorage' = Ok p' /\
    streakDays p' = streakDays Samples.progress_oct4 /\
    lastStudyDate p' = lastStudyDate Samples.progress_oct4 /\
    plantsStudiedCount p' = plantsStudiedCount Samples.progress_oct4 /\
    quizTotalQuestions p' = quizTotalQuestions Samples.progress_oct4 + 3 /\
    quizCorrectAnswers p' = quizCorrectAnswers Samples.progress_oct4
                            + QuizPage.score Samples.quiz_at_last_question /\
    history p' = history Samples.progress_oct4
                 ++ [ {| date := JsDate.toISODate Samples.oct5_noon; type := QUIZ;
                         score := Some (QuizPage.score Samples.quiz_at_last_question) |} ] /\
    (forall k, k <> PROGRESS_KEY -> localStorage' !! k = Samples.storage_oct4 !! k).
Proof.
  split; [vm_compute; reflexivity|]. split; [reflexivity|].
  apply (C8_quiz_completion_frame Samples.oct5_noon Samples.quiz_at_last_question
           Samples.storage_oct4 Samples.progress_oct4 Samples.question3);
    [vm_compute; reflexivity | reflexivity].
Defined.



(** Two of three correct answers are shown as 67 per cent. *)
Example quizAccuracy_two_of_three :
  ProgressPage.quizAccuracy Samples.progress_oct4 = Some (Float64.ofZ 67).
Proof. vm_compute. reflexivity. Qed.

(** Claim C3.  When the user picks the correct answer of each of the
    three questions and advances after each, the quiz finishes with score
    3 and the stored record has both quiz totals raised by 3 and one more
    history entry, a QUIZ entry with score 3. *)
Theorem C3_all_correct_quiz_persists_three (t1 t2 t3 t4 t5 t6 : Z)
    (q1 q2 q3 : QuizQuestion) (localStorage : gmap string string) (p : UserProgress) :
  getInitialProgress localStorage = Ok p ->
  correctAnswer q1 ∈ options q1 ->
  correctAnswer q2 ∈ options q2 ->
  correctAnswer q3 ∈ options q3 ->
  exists (s' : QuizPage.State) (localStorage' : gmap string string) (p' : UserProgress),
    QuizPage.run
      [ (t1, QuizPage.Answer (correctAnswer q1)); (t2, QuizPage.Advance);
        (t3, QuizPage.Answer (correctAnswer q2)); (t4, QuizPage.Advance);
        (t5, QuizPage.Answer (correctAnswer q3)); (t6, QuizPage.Advance) ]
      (QuizPage.setQuestions [q1; q2; q3] QuizPage.mount) localStorage
    = Ok (s', localStorage') /\
    QuizPage.isFinished s' = true /\
    QuizPage.score s' = 3 /\
    getInitialProgress localStorage' = Ok p' /\
    quizCorrectAnswers p' = quizCorrectAnswers p + 3 /\
    quizTotalQuestions p' = quizTotalQuestions p + 3 /\
    history p' = history p ++ [ {| date := JsDate.toISODate t6; type := QUIZ;
                                   score := Some 3 |} ].
Proof.
  intros Hload H1 H2 H3. cbn [QuizPage.run].
  rewrite (QuizFacts.step_answer_correct t1 _ _ q1) by (reflexivity || assumption).
  cbn [bind QuizPage.questions QuizPage.currentQIndex QuizPage.score QuizPage.isFinished
       QuizPage.setQuestions QuizPage.mount].
  rewrite QuizFacts.step_advance_next by (reflexivity || (cbn; lia)).
  cbn [bind QuizPage.questions QuizPage.currentQIndex QuizPage.score QuizPage.isFinished].
  rewrite (QuizFacts.step_answer_correct t3 _ _ q2) by (reflexivity || assumption).
  cbn [bind QuizPage.questions QuizPage.currentQIndex QuizPage.score QuizPage.isFinished].
  rewrite QuizFacts.step_advance_next by (reflexivity || (cbn; lia)).
  cbn [bind QuizPage.questions QuizPage.currentQIndex QuizPage.score QuizPage.isFinished].
  rewrite (QuizFacts.step_answer_correct t5 _ _ q3) by (reflexivity || assumption).
  cbn [bind QuizPage.questions QuizPage.currentQIndex QuizPage.score QuizPage.isFinished].
  rewrite QuizFacts.step_advance_finish by (reflexivity || (cbn; lia)).
  unfold QuizPage.finishQuiz. rewrite Hload. cbn [bind].
  change (QuizPage.currentQuestion _) with (Some q3).
  cbn [QuizPage.score QuizPage.questions QuizPage.currentQIndex QuizPage.isFinished
       QuizPage.selectedOption QuizPage.isAnswered].
  change (0 + 1 + 1 + 1) with 3.
  eexists _, _, _. split; [reflexivity|]. split; [reflexivity|]. split; [reflexivity|].
  split; [apply getInitialProgress_saveProgress|].
  repeat split.
Qed.

Lemma C3_all_correct_quiz_persists_three_witness :
  getInitialProgress Samples.storage_oct4 = Ok Samples.progress_oct4 /\
  correctAnswer Samples.question1 ∈ options Samples.question1 /\
  correctAnswer Samples.question2 ∈ options Samples.question2 /\
  correctAnswer Samples.question3 ∈ options Samples.question3 /\
  exists (s' : QuizPage.State) (localStorage' : gmap string string) (p' : UserProgress),
    QuizPage.run
      [ (Samples.oct5_noon, QuizPage.Answer (correctAnswer Samples.question1));
        (Samples.oct5_noon + 1000, QuizPage.Advance);
        (Samples.oct5_noon + 2000, QuizPage.Answer (correctAnswer Samples.question2));
        (Samples.oct5_noon + 3000, QuizPage.Advance);
        (Samples.oct5_noon + 4000, QuizPage.Answer (correctAnswer Samples.question3));
        (Samples.oct5_noon + 5000, QuizPage.Advance) ]
      (QuizPage.setQuestions [Samples.question1; Samples.question2; Samples.question3]
         QuizPage.mount) Samples.storage_oct4
    = Ok (s', localStorage') /\
    QuizPage.isFinished s' = true /\
    QuizPage.score s' = 3 /\
    getInitialProgress localStorage' = Ok p' /\
    quizCorrectAnswers p' = quizCorrectAnswers Samples.progress_oct4 + 3 /\
    quizTotalQuestions p' = quizTotalQuestions Samples.progress_oct4 + 3 /\
    history p' = history Samples.progress_oct4
                 ++ [ {| date := JsDate.toISODate (Samples.oct5_noon + 5000); type := QUIZ;
                         score := Some 3 |} ].
Proof.
  assert (M1 : correctAnswer Samples.question1 ∈ options Samples.question1)
    by (apply (bool_decide_unpack _); vm_compute; exact I).
  assert (M2 : correctAnswer Samples.question2 ∈ options Samples.question2)
    by (apply (bool_decide_unpack _); vm_compute; exact I).
  assert (M3 : correctAnswer Samples.question3 ∈ options Samples.question3)
    by (apply (bool_decide_unpack _); vm_compute; exact I).
  split; [vm_compute; reflexivity|]. do 3 (split; [assumption|]).
  apply (C3_all_correct_quiz_persists_three _ _ _ _ _ _ Samples.question1 Samples.question2
           Samples.question3 Samples.storage_oct4 Samples.progress_oct4);
    [vm_compute; reflexivity | assumption ..].
Defined.

(** ** The streak *)

(** Without a last study date the streak becomes 1. *)
Lemma nextStreak_first_cycle (p : UserProgress) (now : Z) :
  lastStudyDate p = None -> CyclePage.nextStreak p now = 1.
Proof. unfold CyclePage.nextStreak. now intros ->. Qed.

(** A cycle at noon of the day after the last study date: the elapsed
    time is 36 hours, two days after rounding up, and the streak of 5
    starts over at 1. *)
Example nextStreak_following_day :
  CyclePage.nextStreak Samples.progress_oct4 Samples.oct5_noon = 1.
Proof. vm_compute. reflexivity. Qed.

(** Claim C1, where the code departs from it.  The stored last study
    date is 2024-10-04 and the streak is 5; a cycle completed at 13:00
    UTC on that same day stores a streak of 6. *)
Theorem C1_same_day_completion_raises_streak :
  lastStudyDate Samples.progress_oct4 = Some "2024-10-04"%string /\
  streakDays Samples.progress_oct4 = 5 /\
  JsDate.toISODate Samples.oct4_1pm = "2024-10-04"%string /\
  exists (s' : CyclePage.State) (localStorage' : gmap string string) (p' : UserProgress),
    CyclePage.handleFinish Samples.oct4_1pm Samples.cycle_on_last_plant Samples.storage_oct4
    = Ok (s', localStorage') /\
    getInitialProgress localStorage' = Ok p' /\
    lastStudyDate p' = Some "2024-10-04"%string /\
    streakDays p' = 6.
Proof.
  split; [reflexivity|]. split; [reflexivity|]. split; [reflexivity|].
  eexists _, _, _. split; [vm_compute; reflexivity|].
  split; [vm_compute; reflexivity|]. split; reflexivity.
Qed.

(** ** The cycle timer *)

(** A press on Finalizar with time left records the cycle once. *)
Example manual_finish_records_once :
  exists (c0 c' : CyclePage.Instance) (l0 localStorage' : gmap string string) (p' : UserProgress),
    CyclePage.start 1728003600000 [Samples.samambaia; Samples.espada] ∅ = Ok (c0, l0) /\
    CyclePage.run [ (1728003605000, CyclePage.Next); (1728003609000, CyclePage.Finish) ] c0 l0
    = Ok (c', localStorage') /\
    CyclePage.isFinished (CyclePage.state c') = true /\
    getInitialProgress localStorage' = Ok p' /\
    plantsStudiedCount p' = 2 /\
    length (history p') = 1%nat.
Proof.
  eexists _, _, _, _, _. split; [vm_compute; reflexivity|].
  split; [vm_compute; reflexivity|]. split; [reflexivity|].
  split; [vm_compute; reflexivity|]. split; reflexivity.
Qed.

(** Claim C2, where the code departs from it.  A cycle of two plants
    starts on an empty storage at 01:00 UTC and the countdown runs out
    after 180 ticks without interaction.  The timer effect then calls
    [handleFinish], runs again because [isActive] changed while
    [timeLeft] is still 0, and calls it a second time: the stored record
    counts four plants, has two CYCLE entries and a streak of 2. *)
Theorem C2_timer_expiry_records_cycle_twice :
  exists (c0 c' : CyclePage.Instance) (l0 localStorage' : gmap string string) (p' : UserProgress),
    CyclePage.start Samples.oct4_1am [Samples.samambaia; Samples.espada] ∅ = Ok (c0, l0) /\
    CyclePage.run (Samples.ticks Samples.oct4_1am 180) c0 l0 = Ok (c', localStorage') /\
    CyclePage.isFinished (CyclePage.state c') = true /\
    CyclePage.timeLeft (CyclePage.state c') = 0 /\
    getInitialProgress localStorage' = Ok p' /\
    plantsStudiedCount p' = 4 /\
    streakDays p' = 2 /\
    history p' = [ {| date := "2024-10-04"; type := CYCLE; score := None |};
                   {| date := "2024-10-04"; type := CYCLE; score := None |} ].
Proof.
  eexists _, _, _, _, _. split; [vm_compute; reflexivity|].
  split; [vm_compute; reflexivity|]. split; [reflexivity|]. split; [reflexivity|].
  split; [vm_compute; reflexivity|]. repeat split.
Qed.

(** ** The catalog merge *)

Section CatalogClaim.
Variable PLANT_DATABASE : list Plant.
Variable jpegBase64 : Codec.Image -> Codec.Canvas -> string.

(** What the codec resolves to is never the empty text. *)
Lemma compressImage_truthy (file : Codec.File) (blob : string) :
  Codec.compressImage jpegBase64 file = Codec.Resolved blob -> truthy blob = true.
Proof.
  destruct file as [img|]; [|discriminate]. cbn [Codec.compressImage].
  intros [= <-]. unfold Codec.toDataURL.
  destruct ((_ =? 0)%N || (_ =? 0)%N); reflexivity.
Qed.

Lemma mergedPlants_lookup (m : gmap string string) (i : nat) :
  PlantDatabase.mergedPlants PLANT_DATABASE m !! i
  = (fun p => PlantDatabase.withImage p (PlantDatabase.effectiveImage m p))
      <$> PLANT_DATABASE !! i.
Proof. unfold PlantDatabase.mergedPlants. apply list_lookup_fmap. Qed.

(** Claim C5.  For the plant at any position of the base dataset: with
    no custom image under its identifier the merged record carries the
    base image reference; after [updatePlantImage] with a file the codec
    resolves to [blob], the merged record carries [blob]; after a
    following [resetImage] it carries the base reference again.  Every
    merge has the length and the order of the base dataset, and a merged
    record differs from the base record at its position in the image
    reference at most. *)
Theorem C5_catalog_merge_overlay (i : nat) (p : Plant) (h : PlantDatabase.Hook)
    (localStorage : gmap string string) (file : Codec.File) (blob : string) :
  PLANT_DATABASE !! i = Some p ->
  Codec.compressImage jpegBase64 file = Codec.Resolved blob ->
  (forall m : gmap string string,
      m !! plant_id p = None ->
      imageUrl <$> PlantDatabase.mergedPlants PLANT_DATABASE m !! i = Some (imageUrl p)) /\
  (exists (h1 h2 : PlantDatabase.Hook) (l1 l2 : gmap string string),
      PlantDatabase.updatePlantImage PLANT_DATABASE (plant_id p)
        (Codec.compressImage jpegBase64 file) h localStorage = (true, h1, l1) /\
      imageUrl <$> PlantDatabase.plants h1 !! i = Some blob /\
      PlantDatabase.resetImage PLANT_DATABASE (plant_id p) h1 l1 = (h2, l2) /\
      imageUrl <$> PlantDatabase.plants h2 !! i = Some (imageUrl p)) /\
  (forall m : gmap string string,
      length (PlantDatabase.mergedPlants PLANT_DATABASE m) = length PLANT_DATABASE /\
      forall (j : nat) (q : Plant),
        PlantDatabase.mergedPlants PLANT_DATABASE m !! j = Some q ->
        exists b : Plant,
          PLANT_DATABASE !! j = Some b /\ q = PlantDatabase.withImage b (imageUrl q)).
Proof.
  intros Hp Hblob. split; [|split].
  - intros m Hm. rewrite mergedPlants_lookup, Hp. cbn.
    unfold PlantDatabase.effectiveImage. now rewrite Hm.
  - rewrite Hblob. cbn [PlantDatabase.updatePlantImage]. eexists _, _, _, _.
    split; [reflexivity|]. split; [|split; [reflexivity|]].
    + cbn [PlantDatabase.plants PlantDatabase.setCustomImages].
      rewrite mergedPlants_lookup, Hp. cbn.
      unfold PlantDatabase.effectiveImage. rewrite lookup_insert_eq.
      now rewrite (compressImage_truthy _ _ Hblob).
    + cbn [PlantDatabase.plants PlantDatabase.setCustomImages PlantDatabase.customImages].
      rewrite mergedPlants_lookup, Hp. cbn.
      unfold PlantDatabase.effectiveImage. now rewrite lookup_delete_eq.
  - intros m. split; [apply length_map|].
    intros j q Hq. rewrite mergedPlants_lookup in Hq.
    destruct (PLANT_DATABASE !! j) as [b|]; [|discriminate].
    exists b. split; [reflexivity|]. cbn in Hq. injection Hq as <-. reflexivity.
Qed.

End CatalogClaim.

Lemma C5_catalog_merge_overlay_witness :
  Samples.catalog !! 2%nat = Some Samples.jiboia /\
  Codec.compressImage Samples.fixed_jpeg Samples.photo = Codec.Resolved Samples.photo_blob /\
  (forall m : gmap string string,
      m !! plant_id Samples.jiboia = None ->
      imageUrl <$> PlantDatabase.mergedPlants Samples.catalog m !! 2%nat
      = Some (imageUrl Samples.jiboia)) /\
  (exists (h1 h2 : PlantDatabase.Hook) (l1 l2 : gmap string string),
      PlantDatabase.updatePlantImage Samples.catalog (plant_id Samples.jiboia)
        (Codec.compressImage Samples.fixed_jpeg Samples.photo) Samples.plain_hook ∅
      = (true, h1, l1) /\
      imageUrl <$> PlantDatabase.plants h1 !! 2%nat = Some Samples.photo_blob /\
      PlantDatabase.resetImage Samples.catalog (plant_id Samples.jiboia) h1 l1 = (h2, l2) /\
      imageUrl <$> PlantDatabase.plants h2 !! 2%nat = Some (imageUrl Samples.jiboia)) /\
  (forall m : gmap string string,
      length (PlantDatabase.mergedPlants Samples.catalog m) = length Samples.catalog /\
      forall (j : nat) (q : Plant),
        PlantDatabase.mergedPlants Samples.catalog m !! j = Some q ->
        exists b : Plant,
          Samples.catalog !! j = Some b /\ q = PlantDatabase.withImage b (imageUrl q)).
Proof.
  split; [reflexivity|]. split; [vm_compute; reflexivity|].
  apply (C5_catalog_merge_overlay Samples.catalog Samples.fixed_jpeg 2 Samples.jiboia
           Samples.plain_hook ∅ Samples.photo Samples.photo_blob);
    [reflexivity | vm_compute; reflexivity].
Defined.

(** An empty text stored as a custom image is passed over by the merge:
    [||] takes the base reference. *)
Example merge_skips_empty_override :
  imageUrl <$> PlantDatabase.mergedPlants Samples.catalog
                 {[ plant_id Samples.jiboia := ""%string ]} !! 2%nat
  = Some (imageUrl Samples.jiboia).
Proof. vm_compute. reflexivity. Qed.

(** * Further properties of the code *)

(** ** Cycle completion *)

(** [handleFinish] on a stored record: the cycle page is marked finished
    and inactive and keeps its plants, position and time; the record
    written back counts the session's plants, is dated today, keeps both
    quiz totals and gains one CYCLE entry dated today after the entries
    it had; no other key of the storage is written. *)
Theorem handleFinish_records_cycle (now : Z) (s : CyclePage.State)
    (localStorage : gmap string string) (p : UserProgress) :
  getInitialProgress localStorage = Ok p ->
  exists (s' : CyclePage.State) (localStorage' : gmap string string) (p' : UserProgress),
    CyclePage.handleFinish now s localStorage = Ok (s', localStorage') /\
    CyclePage.isActive s' = false /\ CyclePage.isFinished s' = true /\
    CyclePage.sessionPlants s' = CyclePage.sessionPlants s /\
    CyclePage.currentIndex s' = CyclePage.currentIndex s /\
    CyclePage.timeLeft s' = CyclePage.timeLeft s /\
    getInitialProgress localStorage' = Ok p' /\
    plantsStudiedCount p'
    = plantsStudiedCount p + Z.of_nat (length (CyclePage.sessionPlants s)) /\
    lastStudyDate p' = Some (JsDate.toISODate now) /\
    quizTotalQuestions p' = quizTotalQuestions p /\
    quizCorrectAnswers p' = quizCorrectAnswers p /\
    history p' = history p ++ [ {| date := JsDate.toISODate now; type := CYCLE;
                                   score := None |} ] /\
    (forall k, k <> PROGRESS_KEY -> localStorage' !! k = localStorage !! k).
Proof.
  intros Hload. unfold CyclePage.handleFinish. rewrite Hload. cbn [bind].
  eexists _, _, _. split; [reflexivity|].
  do 5 (split; [reflexivity|]).
  split; [apply getInitialProgress_saveProgress|].
  do 5 (split; [reflexivity|]).
  intros k Hk. apply saveProgress_other_key. exact Hk.
Qed.

Lemma handleFinish_records_cycle_witness :
  getInitialProgress Samples.storage_oct4 = Ok Samples.progress_oct4 /\
  exists (s' : CyclePage.State) (localStorage' : gmap string string) (p' : UserProgress),
    CyclePage.handleFinish Samples.oct5_noon Samples.cycle_on_last_plant Samples.storage_oct4
    = Ok (s', localStorage') /\
    CyclePage.isActive s' = false /\ CyclePage.isFinished s' = true /\
    CyclePage.sessionPlants s' = CyclePage.sessionPlants Samples.cycle_on_last_plant /\
    CyclePage.currentIndex s' = CyclePage.currentIndex Samples.cycle_on_last_plant /\
    CyclePage.timeLeft s' = CyclePage.timeLeft Samples.cycle_on_last_plant /\
    getInitialProgress localStorage' = Ok p' /\
    plantsStudiedCount p'
    = plantsStudiedCount Samples.progress_oct4
      + Z.of_nat (length (CyclePage.sessionPlants Samples.cycle_on_last_plant)) /\
    lastStudyDate p' = Some (JsDate.toISODate Samples.oct5_noon) /\
    quizTotalQuestions p' = quizTotalQuestions Samples.progress_oct4 /\
    quizCorrectAnswers p' = quizCorrectAnswers Samples.progress_oct4 /\
    history p' = history Samples.progress_oct4
                 ++ [ {| date := JsDate.toISODate Samples.oct5_noon; type := CYCLE;
                         score := None |} ] /\
    (forall k, k <> PROGRESS_KEY -> localStorage' !! k = Samples.storage_oct4 !! k).
Proof.
  split; [vm_compute; reflexivity|].
  apply (handleFinish_records_cycle Samples.oct5_noon Samples.cycle_on_last_plant
           Samples.storage_oct4 Samples.progress_oct4).
  vm_compute; reflexivity.
Defined.

(** The first cycle ever: with nothing stored under the progress key,
    [handleFinish] writes a record that counts the session's plants, is
    dated today, has a streak of 1, no quiz totals, and one CYCLE entry. *)
Theorem handleFinish_first_cycle (now : Z) (s : CyclePage.State)
    (localStorage : gmap string string) :
  localStorage !! PROGRESS_KEY = None ->
  exists (s' : CyclePage.State) (localStorage' : gmap string string),
    CyclePage.handleFinish now s localStorage = Ok (s', localStorage') /\
    getInitialProgress localStorage'
    = Ok {| plantsStudiedCount := Z.of_nat (length (CyclePage.sessionPlants s));
            lastStudyDate := Some (JsDate.toISODate now);
            streakDays := 1;
            quizTotalQuestions := 0;
            quizCorrectAnswers := 0;
            history := [ {| date := JsDate.toISODate now; type := CYCLE; score := None |} ] |}.
Proof.
  intros Hnone. unfold CyclePage.handleFinish, getInitialProgress at 1. rewrite Hnone.
  cbn [bind]. eexists _, _. split; [reflexivity|].
  rewrite getInitialProgress_saveProgress. reflexivity.
Qed.

Lemma handleFinish_first_cycle_witness :
  ({[ CUSTOM_IMAGES_KEY := "{}"%string ]} : gmap string string) !! PROGRESS_KEY = None /\
  exists (s' : CyclePage.State) (localStorage' : gmap string string),
    CyclePage.handleFinish Samples.oct4_1am Samples.cycle_on_last_plant
      {[ CUSTOM_IMAGES_KEY := "{}"%string ]} = Ok (s', localStorage') /\
    getInitialProgress localStorage'
    = Ok {| plantsStudiedCount :=
              Z.of_nat (length (CyclePage.sessionPlants Samples.cycle_on_last_plant));
            lastStudyDate := Some (JsDate.toISODate Samples.oct4_1am);
            streakDays := 1;
            quizTotalQuestions := 0;
            quizCorrectAnswers := 0;
            history := [ {| date := JsDate.toISODate Samples.oct4_1am; type := CYCLE;
                            score := None |} ] |}.
Proof.
  split; [vm_compute; reflexivity|].
  apply (handleFinish_first_cycle Samples.oct4_1am Samples.cycle_on_last_plant
           {[ CUSTOM_IMAGES_KEY := "{}"%string ]}).
  vm_compute; reflexivity.
Defined.

(** ** The cycle page as a state machine *)

Module CycleSteps.
Import CyclePage.

Lemma start_running (now : Z) (selected : list Plant) (l : gmap string string) :
  start now selected l = Ok (cycle_running selected 0 false 180, l).
Proof. reflexivity. Qed.

Lemma settle_stable (now : Z) (c : Instance) (l : gmap string string) :
  depsChanged c = false -> settle now c l = Ok (c, l).
Proof.
  intros H. unfold settle. rewrite (CycleFacts.afterRender_stable _ _ _ H). cbn [bind].
  rewrite (CycleFacts.afterRender_stable _ _ _ H). cbn [bind].
  now apply CycleFacts.afterRender_stable.
Qed.

Lemma afterRender_run (now : Z) (c : Instance) (l : gmap string string) :
  depsChanged c = true -> afterRender now c l = timerEffect now c l.
Proof. unfold afterRender. now intros ->. Qed.

(** A tick with more than one second left. *)
Lemma tick_running (now : Z) (plants : list Plant) (i : Z) (d : bool) (t : Z)
    (l : gmap string string) :
  2 <= t ->
  step now Tick (cycle_running plants i d t) l = Ok (cycle_running plants i d (t - 1), l).
Proof.
  intros Ht. unfold step, handle, cycle_running, withState.
  cbn [intervalPending state bind timerDeps sessionPlants currentIndex showDetails
       timeLeft isActive isFinished].
  unfold settle. rewrite afterRender_run.
  - unfold timerEffect. cbn [state isActive timeLeft andb].
    destruct (Z.ltb_spec 0 (t - 1)) as [_|E]; [|lia].
    cbn [bind]. rewrite CycleFacts.afterRender_stable by apply CycleFacts.depsChanged_same.
    cbn [bind]. rewrite CycleFacts.afterRender_stable by apply CycleFacts.depsChanged_same.
    reflexivity.
  - unfold depsChanged. cbn [timerDeps state isActive timeLeft Bool.eqb andb].
    destruct (Z.eqb_spec t (t - 1)) as [E|_]; [lia | reflexivity].
Qed.

Lemma ticks_running (instants : list Z) (plants : list Plant) (i : Z) (d : bool) (t : Z)
    (l : gmap string string) :
  Z.of_nat (length instants) < t ->
  run (ticks_at instants) (cycle_running plants i d t) l
  = Ok (cycle_running plants i d (t - Z.of_nat (length instants)), l).
Proof.
  revert t. induction instants as [|now instants IH]; intros t Ht.
  - cbn. now rewrite Z.sub_0_r.
  - cbn [ticks_at map run] in *. cbn [length] in Ht.
    rewrite tick_running by lia. cbn [bind]. rewrite IH by lia.
    do 2 f_equal. cbn [length]. f_equal. lia.
Qed.

End CycleSteps.

(** While the countdown runs nothing is written: after fewer than 180
    ticks from the start of a session, whatever the storage holds, the
    page is still active with the interval pending, the time left is 180
    minus the number of ticks, and the storage is as it was. *)
Theorem countdown_writes_nothing (now : Z) (selected : list Plant)
    (localStorage : gmap string string) (instants : list Z) :
  (length instants < 180)%nat ->
  CyclePage.start now selected localStorage
  = Ok (cycle_running selected 0 false 180, localStorage) /\
  CyclePage.run (ticks_at instants) (cycle_running selected 0 false 180) localStorage
  = Ok (cycle_running selected 0 false (180 - Z.of_nat (length instants)), localStorage).
Proof.
  intros Hlen. split; [apply CycleSteps.start_running|].
  apply CycleSteps.ticks_running. lia.
Qed.

Lemma countdown_writes_nothing_witness :
  (length three_instants < 180)%nat /\
  CyclePage.start Samples.oct4_1am [Samples.samambaia; Samples.espada] Samples.storage_oct4
  = Ok (cycle_running [Samples.samambaia; Samples.espada] 0 false 180, Samples.storage_oct4) /\
  CyclePage.run (ticks_at three_instants)
    (cycle_running [Samples.samambaia; Samples.espada] 0 false 180) Samples.storage_oct4
  = Ok (cycle_running [Samples.samambaia; Samples.espada] 0 false
          (180 - Z.of_nat (length three_instants)),
        Samples.storage_oct4).
Proof.
  split; [cbn; lia|].
  apply (countdown_writes_nothing Samples.oct4_1am [Samples.samambaia; Samples.espada]
           Samples.storage_oct4 three_instants).
  cbn; lia.
Defined.

(** A press on Finalizar while time is left, on the last plant of the
    session: the cycle is recorded once (the session's plants added, one
    CYCLE entry appended) and the interval is cleared. *)
Theorem manual_finish_records_cycle_once (now : Z) (plants : list Plant) (i : Z) (d : bool)
    (t : Z) (localStorage : gmap string string) (p : UserProgress) :
  plants <> [] -> Z.of_nat (length plants) - 1 <= i -> 1 <= t ->
  getInitialProgress localStorage = Ok p ->
  exists (localStorage' : gmap string string) (p' : UserProgress),
    CyclePage.step now CyclePage.Finish (cycle_running plants i d t) localStorage
    = Ok (cycle_finished plants i d t, localStorage') /\
    getInitialProgress localStorage' = Ok p' /\
    plantsStudiedCount p' = plantsStudiedCount p + Z.of_nat (length plants) /\
    history p' = history p ++ [ {| date := JsDate.toISODate now; type := CYCLE;
                                   score := None |} ].
Proof.
  intros Hne Hlast Ht Hload.
  unfold CyclePage.step, CyclePage.handle, cycle_running, CyclePage.cardShown,
    CyclePage.nextShown.
  cbn [CyclePage.state CyclePage.sessionPlants CyclePage.isFinished CyclePage.currentIndex].
  destruct plants as [|x plants]; [congruence|]. cbn [length Nat.eqb negb andb].
  destruct (Z.ltb_spec i (Z.of_nat (S (length plants)) - 1)) as [E|_];
    [cbn [length] in Hlast; lia|]. cbn [negb].
  unfold CyclePage.handleFinish, CyclePage.withState. rewrite Hload.
  cbn [bind CyclePage.timerDeps CyclePage.intervalPending CyclePage.sessionPlants
       CyclePage.currentIndex CyclePage.showDetails CyclePage.timeLeft CyclePage.state].
  unfold CyclePage.settle. rewrite CycleSteps.afterRender_run by reflexivity.
  unfold CyclePage.timerEffect. cbn [CyclePage.state CyclePage.isActive CyclePage.timeLeft andb].
  destruct (Z.eqb_spec t 0) as [E|_]; [lia|]. cbn [bind].
  rewrite CycleFacts.afterRender_stable by apply CycleFacts.depsChanged_same. cbn [bind].
  rewrite CycleFacts.afterRender_stable by apply CycleFacts.depsChanged_same.
  eexists _, _. split; [reflexivity|].
  split; [apply getInitialProgress_saveProgress|]. split; reflexivity.
Qed.

Lemma manual_finish_records_cycle_once_witness :
  [Samples.samambaia; Samples.espada] <> [] /\
  Z.of_nat (length [Samples.samambaia; Samples.espada]) - 1 <= 1 /\
  1 <= 120 /\
  getInitialProgress Samples.storage_oct4 = Ok Samples.progress_oct4 /\
  exists (localStorage' : gmap string string) (p' : UserProgress),
    CyclePage.step Samples.oct5_noon CyclePage.Finish
      (cycle_running [Samples.samambaia; Samples.espada] 1 false 120) Samples.storage_oct4
    = Ok (cycle_finished [Samples.samambaia; Samples.espada] 1 false 120, localStorage') /\
    getInitialProgress localStorage' = Ok p' /\
    plantsStudiedCount p'
    = plantsStudiedCount Samples.progress_oct4
      + Z.of_nat (length [Samples.samambaia; Samples.espada]) /\
    history p' = history Samples.progress_oct4
                 ++ [ {| date := JsDate.toISODate Samples.oct5_noon; type := CYCLE;
                         score := None |} ].
Proof.
  split; [discriminate|]. split; [cbn; lia|]. split; [lia|].
  split; [vm_compute; reflexivity|].
  apply (manual_finish_records_cycle_once Samples.oct5_noon
           [Samples.samambaia; Samples.espada] 1 false 120 Samples.storage_oct4
           Samples.progress_oct4);
    [discriminate | cbn; lia | lia | vm_compute; reflexivity].
Defined.

(** A finished cycle is final: once the page is finished, with no
    interval pending and no effect left to run, no tick and no click
    changes the page or the storage. *)
Theorem finished_cycle_is_final (now : Z) (ev : CyclePage.Event) (c : CyclePage.Instance)
    (localStorage : gmap string string) :
  CyclePage.isFinished (CyclePage.state c) = true ->
  CyclePage.intervalPending c = false ->
  CyclePage.depsChanged c = false ->
  CyclePage.step now ev c localStorage = Ok (c, localStorage).
Proof.
  intros Hfin Hpend Hdeps. unfold CyclePage.step, CyclePage.handle, CyclePage.cardShown.
  rewrite Hfin, Hpend, andb_false_r. cbn [andb].
  destruct ev; cbn [bind]; now apply CycleSteps.settle_stable.
Qed.

Lemma finished_cycle_is_final_witness :
  CyclePage.isFinished
    (CyclePage.state (cycle_finished [Samples.samambaia; Samples.espada] 1 false 120)) = true /\
  CyclePage.intervalPending (cycle_finished [Samples.samambaia; Samples.espada] 1 false 120)
  = false /\
  CyclePage.depsChanged (cycle_finished [Samples.samambaia; Samples.espada] 1 false 120)
  = false /\
  CyclePage.step Samples.oct5_noon CyclePage.Finish
    (cycle_finished [Samples.samambaia; Samples.espada] 1 false 120) Samples.storage_oct4
  = Ok (cycle_finished [Samples.samambaia; Samples.espada] 1 false 120, Samples.storage_oct4).
Proof.
  split; [reflexivity|]. split; [reflexivity|]. split; [reflexivity|].
  apply (finished_cycle_is_final Samples.oct5_noon CyclePage.Finish
           (cycle_finished [Samples.samambaia; Samples.espada] 1 false 120)
           Samples.storage_oct4); reflexivity.
Defined.

Module CycleInvariant.
Import CyclePage.

Lemma timerEffect_place (now : Z) (c c' : Instance) (l l' : gmap string string) :
  timerEffect now c l = Ok (c', l') -> cycle_place c' = cycle_place c.
Proof.
  unfold timerEffect, handleFinish.
  destruct (isActive (state c) && (0 <? timeLeft (state c))); [now intros [= <- _]|].
  destruct (timeLeft (state c) =? 0); [|now intros [= <- _]].
  destruct (getInitialProgress l); cbn [bind]; [|discriminate]. now intros [= <- _].
Qed.

Lemma afterRender_place (now : Z) (c c' : Instance) (l l' : gmap string string) :
  afterRender now c l = Ok (c', l') -> cycle_place c' = cycle_place c.
Proof.
  unfold afterRender. destruct (depsChanged c); [apply timerEffect_place|].
  now intros [= <- _].
Qed.

Lemma settle_place (now : Z) (c c' : Instance) (l l' : gmap string string) :
  settle now c l = Ok (c', l') -> cycle_place c' = cycle_place c.
Proof.
  unfold settle.
  destruct (afterRender now c l) as [[c1 l1]|] eqn:E1; cbn [bind]; [|discriminate].
  destruct (afterRender now c1 l1) as [[c2 l2]|] eqn:E2; cbn [bind]; [|discriminate].
  intros E3. apply afterRender_place in E1, E2, E3. congruence.
Qed.

Lemma handle_in_bounds (now : Z) (ev : Event) (c c' : Instance) (l l' : gmap string string) :
  handle now ev c l = Ok (c', l') ->
  cycle_in_bounds c ->
  cycle_in_bounds c' /\ sessionPlants (state c') = sessionPlants (state c).
Proof.
  unfold handle, cycle_in_bounds, handleFinish, nextShown. intros H Hb.
  destruct ev.
  - destruct (intervalPending c); injection H as <- _; cbn; auto.
  - destruct (cardShown (state c)); injection H as <- _; cbn; auto.
  - destruct (cardShown (state c)); cbn [andb] in H; [|injection H as <- _; now auto].
    destruct (Z.ltb_spec (currentIndex (state c))
                (Z.of_nat (length (sessionPlants (state c))) - 1));
      injection H as <- _; cbn; split; auto; lia.
  - destruct (cardShown (state c) && _); [|injection H as <- _; now auto].
    destruct (getInitialProgress l); cbn [bind] in H; [|discriminate].
    injection H as <- _; cbn; auto.
Qed.

Lemma step_in_bounds (now : Z) (ev : Event) (c c' : Instance) (l l' : gmap string string) :
  step now ev c l = Ok (c', l') ->
  cycle_in_bounds c ->
  cycle_in_bounds c' /\ sessionPlants (state c') = sessionPlants (state c).
Proof.
  unfold step. destruct (handle now ev c l) as [[c1 l1]|] eqn:E; cbn [bind]; [|discriminate].
  intros Hs Hb. destruct (handle_in_bounds _ _ _ _ _ _ E Hb) as [Hb1 Hp1].
  apply settle_place in Hs. unfold cycle_place in Hs. injection Hs as Hp Hi.
  unfold cycle_in_bounds in *. rewrite Hp, Hi. split; [exact Hb1 | congruence].
Qed.

Lemma run_in_bounds (evs : list (Z * Event)) (c c' : Instance) (l l' : gmap string string) :
  run evs c l = Ok (c', l') ->
  cycle_in_bounds c ->
  cycle_in_bounds c' /\ sessionPlants (state c') = sessionPlants (state c).
Proof.
  revert c l. induction evs as [|[now ev] evs IH]; intros c l.
  - intros [= <- _]. auto.
  - cbn [run]. destruct (step now ev c l) as [[c1 l1]|] eqn:E; cbn [bind]; [|discriminate].
    intros Hr Hb. destruct (step_in_bounds _ _ _ _ _ _ E Hb) as [Hb1 Hp1].
    destruct (IH _ _ Hr Hb1) as [Hb2 Hp2]. split; [exact Hb2 | congruence].
Qed.

End CycleInvariant.

(** The card always has a plant to show: from the start of a session
    with at least one plant, after any ticks and clicks, the session
    plants are the ones sampled and the position is the index of one of
    them. *)
Theorem current_plant_always_defined (now : Z) (selected : list Plant)
    (evs : list (Z * CyclePage.Event)) (c0 c' : CyclePage.Instance)
    (l l0 l' : gmap string string) :
  selected <> [] ->
  CyclePage.start now selected l = Ok (c0, l0) ->
  CyclePage.run evs c0 l0 = Ok (c', l') ->
  CyclePage.sessionPlants (CyclePage.state c') = selected /\
  0 <= CyclePage.currentIndex (CyclePage.state c') /\
  exists plant : Plant,
    selected !! Z.to_nat (CyclePage.currentIndex (CyclePage.state c')) = Some plant.
Proof.
  intros Hne Hstart Hrun. rewrite CycleSteps.start_running in Hstart.
  injection Hstart as <- <-.
  destruct (CycleInvariant.run_in_bounds _ _ _ _ _ Hrun) as [Hb Hp].
  { unfold cycle_in_bounds, cycle_running. cbn. destruct selected; [congruence|].
    cbn [length]. lia. }
  cbn in Hp. split; [exact Hp|]. unfold cycle_in_bounds in Hb. rewrite Hp in Hb.
  split; [lia|]. apply lookup_lt_is_Some_2. lia.
Qed.

Lemma current_plant_always_defined_witness :
  [Samples.samambaia; Samples.espada] <> [] /\
  CyclePage.start Samples.oct4_1am [Samples.samambaia; Samples.espada] Samples.storage_oct4
  = Ok (cycle_running [Samples.samambaia; Samples.espada] 0 false 180, Samples.storage_oct4) /\
  CyclePage.run short_session
    (cycle_running [Samples.samambaia; Samples.espada] 0 false 180) Samples.storage_oct4
  = Ok (cycle_finished [Samples.samambaia; Samples.espada] 1 false 178,
        saveProgress
          {| plantsStudiedCount := 4; lastStudyDate := Some "2024-10-04"%string;
             streakDays := 6; quizTotalQuestions := 3; quizCorrectAnswers := 2;
             history := history Samples.progress_oct4
                        ++ [ {| date := "2024-10-04"; type := CYCLE; score := None |} ] |}
          Samples.storage_oct4) /\
  CyclePage.sessionPlants
    (CyclePage.state (cycle_finished [Samples.samambaia; Samples.espada] 1 false 178))
  = [Samples.samambaia; Samples.espada] /\
  0 <= CyclePage.currentIndex
         (CyclePage.state (cycle_finished [Samples.samambaia; Samples.espada] 1 false 178)) /\
  exists plant : Plant,
    [Samples.samambaia; Samples.espada]
      !! Z.to_nat (CyclePage.currentIndex
                     (CyclePage.state
                        (cycle_finished [Samples.samambaia; Samples.espada] 1 false 178)))
    = Some plant.
Proof.
  assert (Hrun : CyclePage.run short_session
            (cycle_running [Samples.samambaia; Samples.espada] 0 false 180)
            Samples.storage_oct4
          = Ok (cycle_finished [Samples.samambaia; Samples.espada] 1 false 178,
                saveProgress
                  {| plantsStudiedCount := 4; lastStudyDate := Some "2024-10-04"%string;
                     streakDays := 6; quizTotalQuestions := 3; quizCorrectAnswers := 2;
                     history := history Samples.progress_oct4
                                ++ [ {| date := "2024-10-04"; type := CYCLE;
                                        score := None |} ] |}
                  Samples.storage_oct4))
    by (vm_compute; reflexivity).
  split; [discriminate|]. split; [reflexivity|]. split; [exact Hrun|].
  apply (current_plant_always_defined Samples.oct4_1am [Samples.samambaia; Samples.espada]
           short_session
           (cycle_running [Samples.samambaia; Samples.espada] 0 false 180)
           (cycle_finished [Samples.samambaia; Samples.espada] 1 false 178)
           Samples.storage_oct4 Samples.storage_oct4
           (saveProgress
              {| plantsStudiedCount := 4; lastStudyDate := Some "2024-10-04"%string;
                 streakDays := 6; quizTotalQuestions := 3; quizCorrectAnswers := 2;
                 history := history Samples.progress_oct4
                            ++ [ {| date := "2024-10-04"; type := CYCLE; score := None |} ] |}
              Samples.storage_oct4));
    [discriminate | reflexivity | exact Hrun].
Defined.

(** ** The quiz page as a state machine *)

Module QuizSteps.
Import QuizPage.

(** A click on any option of an open question. *)
Lemma step_answer (now : Z) (pick : string) (s : State) (l : gmap string string)
    (q : QuizQuestion) :
  questionShown s = true -> isAnswered s = false ->
  currentQuestion s = Some q -> pick ∈ options q ->
  step now (Answer pick) s l
  = Ok ({| questions := questions s; currentQIndex := currentQIndex s;
           score := score s + point_for pick q; isFinished := isFinished s;
           selectedOption := Some pick; isAnswered := true |}, l).
Proof.
  intros Hshown Hopen Hq Hin. unfold step, optionShown, handleAnswer, point_for.
  rewrite Hshown, Hopen, Hq. cbn [andb negb].
  rewrite (bool_decide_eq_true_2 _ Hin). cbn [bind].
  destruct (String.eqb pick (correctAnswer q)); [reflexivity|].
  now rewrite Z.add_0_r.
Qed.

(** Nothing happens on a finished quiz. *)
Lemma step_finished (now : Z) (ev : Event) (s : State) (l : gmap string string) :
  isFinished s = true -> step now ev s l = Ok (s, l).
Proof.
  intros Hfin. unfold step, optionShown, questionShown. rewrite Hfin, andb_false_r.
  destruct ev; reflexivity.
Qed.

Lemma run_finished (evs : list (Z * Event)) (s : State) (l : gmap string string) :
  isFinished s = true -> run evs s l = Ok (s, l).
Proof.
  intros Hfin. induction evs as [|[now ev] evs IH]; [reflexivity|].
  cbn [run]. now rewrite step_finished.
Qed.

(** One step of an unfinished quiz either keeps the storage, or finishes
    the quiz with one write. *)
Lemma step_unfinished (now : Z) (ev : Event) (s s' : State) (l l' : gmap string string)
    (p : UserProgress) :
  isFinished s = false -> quiz_in_range s -> getInitialProgress l = Ok p ->
  step now ev s l = Ok (s', l') ->
  (isFinished s' = false /\ quiz_in_range s' /\ l' = l) \/
  (isFinished s' = true /\
   exists (sc : Z) (p' : UserProgress),
     0 <= sc <= 3 /\ getInitialProgress l' = Ok p' /\
     quiz_recorded p p' (JsDate.toISODate now) sc).
Proof.
  intros Hfin [Hidx Hsc] Hload. unfold step. destruct ev as [pick|].
  - destruct (optionShown pick s) eqn:Eshown.
    + unfold handleAnswer. unfold optionShown in Eshown.
      destruct (isAnswered s) eqn:Eans; [now rewrite andb_false_r in Eshown|].
      destruct (currentQuestion s) as [q|]; cbn [bind]; [|discriminate].
      intros [= <- <-]. left. split; [exact Hfin|]. split; [|reflexivity].
      unfold quiz_in_range. cbn. split; [exact Hidx|].
      destruct (String.eqb pick (correctAnswer q)); lia.
    + intros [= <- <-]. left. unfold quiz_in_range. auto.
  - destruct (questionShown s && isAnswered s) eqn:Eadv.
    + apply andb_prop in Eadv as [_ Eans]. rewrite Eans in Hsc.
      unfold nextQuestion, finishQuiz.
      destruct (Z.ltb_spec (currentQIndex s) 2) as [Hlt|Hge].
      * intros [= <- <-]. left. split; [exact Hfin|]. split; [|reflexivity].
        unfold quiz_in_range. cbn. lia.
      * rewrite Hload. cbn [bind].
        destruct (currentQuestion s) as [q|]; [|discriminate].
        intros [= <- <-]. right. split; [reflexivity|].
        eexists (score s), _. split; [lia|].
        split; [apply getInitialProgress_saveProgress|].
        unfold quiz_recorded. cbn. repeat split.
    + intros [= <- <-]. left. unfold quiz_in_range. auto.
Qed.

Lemma run_unfinished (evs : list (Z * Event)) (s s' : State) (l l' : gmap string string)
    (p : UserProgress) :
  isFinished s = false -> quiz_in_range s -> getInitialProgress l = Ok p ->
  run evs s l = Ok (s', l') ->
  (isFinished s' = false /\ l' = l) \/
  (isFinished s' = true /\
   exists (day : string) (sc : Z) (p' : UserProgress),
     0 <= sc <= 3 /\ getInitialProgress l' = Ok p' /\ quiz_recorded p p' day sc).
Proof.
  revert s l. induction evs as [|[now ev] evs IH]; intros s l Hfin Hr Hload.
  - intros [= <- <-]. now left.
  - cbn [run]. destruct (step now ev s l) as [[s1 l1]|] eqn:E; cbn [bind]; [|discriminate].
    intros Hrun.
    destruct (step_unfinished _ _ _ _ _ _ _ Hfin Hr Hload E)
      as [(Hfin1 & Hr1 & ->)|(Hfin1 & sc & p' & Hsc & Hp' & Hrec)].
    + now apply (IH s1 l).
    + rewrite (run_finished _ _ _ Hfin1) in Hrun. injection Hrun as <- <-.
      right. split; [exact Hfin1|]. now exists (JsDate.toISODate now), sc, p'.
Qed.

End QuizSteps.

(** Whatever the user clicks, and however often, a quiz records its
    result at most once: after any clicks on a freshly generated quiz the
    storage is either untouched (the quiz is not finished), or the quiz
    is finished and the stored record has three more questions, between 0
    and 3 more correct answers, one more QUIZ entry carrying that score,
    and the streak, last study date and studied count it had. *)
Theorem quiz_records_at_most_once (evs : list (Z * QuizPage.Event)) (qs : list QuizQuestion)
    (localStorage localStorage' : gmap string string) (s' : QuizPage.State)
    (p : UserProgress) :
  getInitialProgress localStorage = Ok p ->
  QuizPage.run evs (QuizPage.setQuestions qs QuizPage.mount) localStorage
  = Ok (s', localStorage') ->
  (QuizPage.isFinished s' = false /\ localStorage' = localStorage) \/
  (QuizPage.isFinished s' = true /\
   exists (day : string) (sc : Z) (p' : UserProgress),
     0 <= sc <= 3 /\ getInitialProgress localStorage' = Ok p' /\
     quiz_recorded p p' day sc).
Proof.
  intros Hload Hrun.
  apply (QuizSteps.run_unfinished evs (QuizPage.setQuestions qs QuizPage.mount) s'
           localStorage localStorage' p);
    [reflexivity | | exact Hload | exact Hrun].
  unfold quiz_in_range. cbn. lia.
Qed.

Lemma quiz_records_at_most_once_witness :
  getInitialProgress Samples.storage_oct4 = Ok Samples.progress_oct4 /\
  QuizPage.run hurried_quiz
    (QuizPage.setQuestions [Samples.question1; Samples.question2; Samples.question3]
       QuizPage.mount) Samples.storage_oct4
  = Ok ({| QuizPage.questions := [Samples.question1; Samples.question2; Samples.question3];
           QuizPage.currentQIndex := 2; QuizPage.score := 2; QuizPage.isFinished := true;
           QuizPage.selectedOption := Some "Samambaia"%string;
           QuizPage.isAnswered := true |},
        saveProgress
          {| plantsStudiedCount := 2; lastStudyDate := Some "2024-10-04"%string;
             streakDays := 5; quizTotalQuestions := 6; quizCorrectAnswers := 4;
             history := history Samples.progress_oct4
                        ++ [ {| date := "2024-10-05"; type := QUIZ; score := Some 2 |} ] |}
          Samples.storage_oct4) /\
  ((QuizPage.isFinished
      {| QuizPage.questions := [Samples.question1; Samples.question2; Samples.question3];
         QuizPage.currentQIndex := 2; QuizPage.score := 2; QuizPage.isFinished := true;
         QuizPage.selectedOption := Some "Samambaia"%string;
         QuizPage.isAnswered := true |} = false /\
    saveProgress
      {| plantsStudiedCount := 2; lastStudyDate := Some "2024-10-04"%string;
         streakDays := 5; quizTotalQuestions := 6; quizCorrectAnswers := 4;
         history := history Samples.progress_oct4
                    ++ [ {| date := "2024-10-05"; type := QUIZ; score := Some 2 |} ] |}
      Samples.storage_oct4 = Samples.storage_oct4) \/
   (QuizPage.isFinished
      {| QuizPage.questions := [Samples.question1; Samples.question2; Samples.question3];
         QuizPage.currentQIndex := 2; QuizPage.score := 2; QuizPage.isFinished := true;
         QuizPage.selectedOption := Some "Samambaia"%string;
         QuizPage.isAnswered := true |} = true /\
    exists (day : string) (sc : Z) (p' : UserProgress),
      0 <= sc <= 3 /\
      getInitialProgress
        (saveProgress
           {| plantsStudiedCount := 2; lastStudyDate := Some "2024-10-04"%string;
              streakDays := 5; quizTotalQuestions := 6; quizCorrectAnswers := 4;
              history := history Samples.progress_oct4
                         ++ [ {| date := "2024-10-05"; type := QUIZ; score := Some 2 |} ] |}
           Samples.storage_oct4) = Ok p' /\
      quiz_recorded Samples.progress_oct4 p' day sc)).
Proof.
  assert (Hload : getInitialProgress Samples.storage_oct4 = Ok Samples.progress_oct4)
    by (vm_compute; reflexivity).
  assert (Hrun : QuizPage.run hurried_quiz
            (QuizPage.setQuestions [Samples.question1; Samples.question2; Samples.question3]
               QuizPage.mount) Samples.storage_oct4
          = Ok ({| QuizPage.questions :=
                     [Samples.question1; Samples.question2; Samples.question3];
                   QuizPage.currentQIndex := 2; QuizPage.score := 2;
                   QuizPage.isFinished := true;
                   QuizPage.selectedOption := Some "Samambaia"%string;
                   QuizPage.isAnswered := true |},
                saveProgress
                  {| plantsStudiedCount := 2; lastStudyDate := Some "2024-10-04"%string;
                     streakDays := 5; quizTotalQuestions := 6; quizCorrectAnswers := 4;
                     history := history Samples.progress_oct4
                                ++ [ {| date := "2024-10-05"; type := QUIZ;
                                        score := Some 2 |} ] |}
                  Samples.storage_oct4))
    by (vm_compute; reflexivity).
  split; [exact Hload|]. split; [exact Hrun|].
  exact (quiz_records_at_most_once hurried_quiz
           [Samples.question1; Samples.question2; Samples.question3]
           Samples.storage_oct4 _ _ Samples.progress_oct4 Hload Hrun).
Defined.

(** The score that a quiz stores is the number of correct picks: for any
    option picked on each of the three questions, with an advance after
    each pick, the stored record gains three questions, one correct
    answer per pick that equals the question's correct answer, and a QUIZ
    entry with that number as its score. *)
Theorem quiz_stores_number_of_correct_picks (t1 t2 t3 t4 t5 t6 : Z)
    (q1 q2 q3 : QuizQuestion) (a1 a2 a3 : string)
    (localStorage : gmap string string) (p : UserProgress) :
  getInitialProgress localStorage = Ok p ->
  a1 ∈ options q1 -> a2 ∈ options q2 -> a3 ∈ options q3 ->
  exists (s' : QuizPage.State) (localStorage' : gmap string string) (p' : UserProgress),
    QuizPage.run
      [ (t1, QuizPage.Answer a1); (t2, QuizPage.Advance);
        (t3, QuizPage.Answer a2); (t4, QuizPage.Advance);
        (t5, QuizPage.Answer a3); (t6, QuizPage.Advance) ]
      (QuizPage.setQuestions [q1; q2; q3] QuizPage.mount) localStorage
    = Ok (s', localStorage') /\
    QuizPage.isFinished s' = true /\
    QuizPage.score s' = point_for a1 q1 + point_for a2 q2 + point_for a3 q3 /\
    getInitialProgress localStorage' = Ok p' /\
    quiz_recorded p p' (JsDate.toISODate t6)
      (point_for a1 q1 + point_for a2 q2 + point_for a3 q3).
Proof.
  intros Hload H1 H2 H3. cbn [QuizPage.run].
  rewrite (QuizSteps.step_answer t1 a1 _ _ q1) by (reflexivity || assumption).
  cbn [bind QuizPage.questions QuizPage.currentQIndex QuizPage.score QuizPage.isFinished
       QuizPage.setQuestions QuizPage.mount].
  rewrite QuizFacts.step_advance_next by (reflexivity || (cbn; lia)).
  cbn [bind QuizPage.questions QuizPage.currentQIndex QuizPage.score QuizPage.isFinished].
  rewrite (QuizSteps.step_answer t3 a2 _ _ q2) by (reflexivity || assumption).
  cbn [bind QuizPage.questions QuizPage.currentQIndex QuizPage.score QuizPage.isFinished].
  rewrite QuizFacts.step_advance_next by (reflexivity || (cbn; lia)).
  cbn [bind QuizPage.questions QuizPage.currentQIndex QuizPage.score QuizPage.isFinished].
  rewrite (QuizSteps.step_answer t5 a3 _ _ q3) by (reflexivity || assumption).
  cbn [bind QuizPage.questions QuizPage.currentQIndex QuizPage.score QuizPage.isFinished].
  rewrite QuizFacts.step_advance_finish by (reflexivity || (cbn; lia)).
  unfold QuizPage.finishQuiz. rewrite Hload. cbn [bind].
  change (QuizPage.currentQuestion _) with (Some q3).
  cbn [QuizPage.score QuizPage.questions QuizPage.currentQIndex QuizPage.isFinished
       QuizPage.selectedOption QuizPage.isAnswered].
  rewrite Z.add_0_l.
  eexists _, _, _. split; [reflexivity|]. split; [reflexivity|]. split; [reflexivity|].
  split; [apply getInitialProgress_saveProgress|].
  unfold quiz_recorded. cbn. repeat split.
Qed.

Lemma quiz_stores_number_of_correct_picks_witness :
  getInitialProgress Samples.storage_oct4 = Ok Samples.progress_oct4 /\
  "Jiboia"%string ∈ options Samples.question1 /\
  "Sol pleno"%string ∈ options Samples.question2 /\
  "Samambaia"%string ∈ options Samples.question3 /\
  exists (s' : QuizPage.State) (localStorage' : gmap string string) (p' : UserProgress),
    QuizPage.run
      [ (Samples.oct5_noon, QuizPage.Answer "Jiboia");
        (Samples.oct5_noon + 1000, QuizPage.Advance);
        (Samples.oct5_noon + 2000, QuizPage.Answer "Sol pleno");
        (Samples.oct5_noon + 3000, QuizPage.Advance);
        (Samples.oct5_noon + 4000, QuizPage.Answer "Samambaia");
        (Samples.oct5_noon + 5000, QuizPage.Advance) ]
      (QuizPage.setQuestions [Samples.question1; Samples.question2; Samples.question3]
         QuizPage.mount) Samples.storage_oct4
    = Ok (s', localStorage') /\
    QuizPage.isFinished s' = true /\
    QuizPage.score s'
    = point_for "Jiboia" Samples.question1 + point_for "Sol pleno" Samples.question2
      + point_for "Samambaia" Samples.question3 /\
    getInitialProgress localStorage' = Ok p' /\
    quiz_recorded Samples.progress_oct4 p' (JsDate.toISODate (Samples.oct5_noon + 5000))
      (point_for "Jiboia" Samples.question1 + point_for "Sol pleno" Samples.question2
       + point_for "Samambaia" Samples.question3).
Proof.
  assert (M1 : "Jiboia"%string ∈ options Samples.question1)
    by (apply (bool_decide_unpack _); vm_compute; exact I).
  assert (M2 : "Sol pleno"%string ∈ options Samples.question2)
    by (apply (bool_decide_unpack _); vm_compute; exact I).
  assert (M3 : "Samambaia"%string ∈ options Samples.question3)
    by (apply (bool_decide_unpack _); vm_compute; exact I).
  split; [vm_compute; reflexivity|]. do 3 (split; [assumption|]).
  apply (quiz_stores_number_of_correct_picks _ _ _ _ _ _ Samples.question1 Samples.question2
           Samples.question3 "Jiboia" "Sol pleno" "Samambaia" Samples.storage_oct4
           Samples.progress_oct4);
    [vm_compute; reflexivity | assumption ..].
Defined.

(** ** The quiz generator *)

Section GeneratorFacts.
Context {engine : SortEngine}.

(** The three samplings of [generateDailyQuiz], on any catalog: three new
    arrays, each a prefix of a rearrangement of the catalog, and the store
    otherwise as it was. *)
Lemma three_samples (plants : nat) (w : World) (catalog : list Plant) :
  arrays w !! plants = Some catalog ->
  exists (a1 a2 a3 : nat) (w1 w2 w3 : World) (s1 s2 s3 : list Plant),
    getRandomPlantsFromList plants 4 w = Ok (a1, w1) /\
    getRandomPlantsFromList plants 1 w1 = Ok (a2, w2) /\
    getRandomPlantsFromList plants 4 w2 = Ok (a3, w3) /\
    Permutation s1 catalog /\ Permutation s2 catalog /\ Permutation s3 catalog /\
    arrays w3 !! a1 = Some (slice0 s1 4) /\
    arrays w3 !! a2 = Some (slice0 s2 1) /\
    arrays w3 !! a3 = Some (slice0 s3 4) /\
    (forall a l, arrays w !! a = Some l -> arrays w3 !! a = Some l).
Proof.
  intros Hcat.
  destruct (getRandomPlantsFromList_spec plants 4 w catalog Hcat)
    as (a1 & w1 & s1 & E1 & Hp1 & Ha1 & _ & Hk1).
  destruct (getRandomPlantsFromList_spec plants 1 w1 catalog (Hk1 _ _ Hcat))
    as (a2 & w2 & s2 & E2 & Hp2 & Ha2 & _ & Hk2).
  destruct (getRandomPlantsFromList_spec plants 4 w2 catalog (Hk2 _ _ (Hk1 _ _ Hcat)))
    as (a3 & w3 & s3 & E3 & Hp3 & Ha3 & _ & Hk3).
  exists a1, a2, a3, w1, w2, w3, s1, s2, s3. repeat (split; [assumption|]).
  split; [now apply Hk3, Hk2|]. split; [now apply Hk3|]. split; [assumption|].
  intros a l Ha. now apply Hk3, Hk2, Hk1.
Qed.

(** What [generateDailyQuiz] builds from a non-empty catalog, with the
    store it leaves. *)
Lemma generateDailyQuiz_trace (plants : nat) (w : World) (catalog : list Plant) :
  arrays w !! plants = Some catalog -> catalog <> [] ->
  exists (s1 s2 s3 : list Plant) (p1 p2 p3 : Plant) (o1 o2 o3 : list string) (w' : World),
    Permutation s1 catalog /\ Permutation s2 catalog /\ Permutation s3 catalog /\
    head s1 = Some p1 /\ head s2 = Some p2 /\ head s3 = Some p3 /\
    Permutation o1 (map commonName (take 4 s1)) /\
    Permutation o2 [light_value FULL_SUN; light_value PARTIAL_SHADE; light_value SHADE] /\
    Permutation o3 (map commonName (take 4 s3)) /\
    (forall a l, arrays w !! a = Some l -> arrays w' !! a = Some l) /\
    generateDailyQuiz plants w
    = Ok ([ {| q_id := 1; q_type := SCIENTIFIC_TO_COMMON;
               questionText :=
                 "Qual o nome popular da planta " +:+ quoted (scientificName p1) +:+ "?";
               q_imageUrl := None; options := o1; correctAnswer := commonName p1 |};
            {| q_id := 2; q_type := COMMON_TO_LIGHT;
               questionText :=
                 "Qual a luminosidade ideal para a planta " +:+ quoted (commonName p2) +:+ "?";
               q_imageUrl := None; options := o2;
               correctAnswer := light_value (light p2) |};
            {| q_id := 3; q_type := PHOTO_TO_COMMON;
               questionText := "Qual o nome desta planta?";
               q_imageUrl := Some (imageUrl p3); options := o3;
               correctAnswer := commonName p3 |} ], w').
Proof.
  intros Hcat Hne.
  destruct (three_samples plants w catalog Hcat)
    as (a1 & a2 & a3 & w1 & w2 & w3 & s1 & s2 & s3 &
        E1 & E2 & E3 & Hp1 & Hp2 & Hp3 & R1 & R2 & R3 & Hkeep).
  destruct (slice0_cons_of_perm s1 catalog 4 Hp1 Hne ltac:(lia)) as (p1 & t1 & -> & S1).
  destruct (slice0_cons_of_perm s2 catalog 1 Hp2 Hne ltac:(lia)) as (p2 & t2 & -> & S2).
  destruct (slice0_cons_of_perm s3 catalog 4 Hp3 Hne ltac:(lia)) as (p3 & t3 & -> & S3).
  rewrite S1 in R1. rewrite S2 in R2. rewrite S3 in R3.
  destruct (sortStrings_spec optionOrder (map commonName (p1 :: take (Z.to_nat 4 - 1) t1)) w3)
    as (o1 & g1 & Eo1 & Ho1).
  set (w4 := {| arrays := arrays w3; rng := g1 |}) in *.
  destruct (sortStrings_spec optionOrder
              [light_value FULL_SUN; light_value PARTIAL_SHADE; light_value SHADE] w4)
    as (o2 & g2 & Eo2 & Ho2).
  set (w5 := {| arrays := arrays w4; rng := g2 |}) in *.
  destruct (sortStrings_spec optionOrder (map commonName (p3 :: take (Z.to_nat 4 - 1) t3)) w5)
    as (o3 & g3 & Eo3 & Ho3).
  exists (p1 :: t1), (p2 :: t2), (p3 :: t3), p1, p2, p3, o1, o2, o3,
    {| arrays := arrays w5; rng := g3 |}.
  repeat (split; [first [assumption | reflexivity]|]).
  unfold generateDailyQuiz.
  rewrite (mbind_ok _ _ _ _ _ E1), (mbind_ok _ _ _ _ _ E2), (mbind_ok _ _ _ _ _ E3).
  rewrite (mbind_ok _ _ _ _ _ (first_ok _ _ _ _ R1)).
  rewrite (mbind_ok _ _ _ _ _ (readArray_ok _ _ _ R1)).
  rewrite (mbind_ok _ _ _ _ _ Eo1). cbv beta zeta.
  rewrite (mbind_ok _ _ _ _ _ (first_ok a2 w4 _ _ R2)).
  rewrite (mbind_ok _ _ _ _ _ Eo2). cbv beta zeta.
  rewrite (mbind_ok _ _ _ _ _ (first_ok a3 w5 _ _ R3)).
  rewrite (mbind_ok _ _ _ _ _ (readArray_ok a3 w5 _ R3)).
  rewrite (mbind_ok _ _ _ _ _ Eo3).
  reflexivity.
Qed.

Lemma head_in_take (s : list Plant) (p : Plant) :
  head s = Some p -> commonName p ∈ map commonName (take 4 s).
Proof.
  destruct s as [|p' s]; [discriminate|]. intros [= ->]. cbn [take map].
  apply list_elem_of_here.
Qed.

Lemma head_in_perm (s catalog : list Plant) (p : Plant) :
  Permutation s catalog -> head s = Some p -> p ∈ catalog.
Proof.
  intros Hp Hh. rewrite <- Hp. destruct s as [|p' s]; [discriminate|].
  injection Hh as ->. apply list_elem_of_here.
Qed.

Lemma names_of_take (s catalog : list Plant) (o : list string) (x : string) :
  Permutation s catalog -> Permutation o (map commonName (take 4 s)) ->
  x ∈ o -> exists plant, plant ∈ catalog /\ x = commonName plant.
Proof.
  intros Hs Ho Hx. rewrite Ho in Hx. apply list_elem_of_fmap in Hx as (plant & -> & Hin).
  exists plant. split; [|reflexivity]. rewrite <- Hs.
  exact (subseteq_take 4 s plant Hin).
Qed.

(** Every generated quiz can be answered: from any catalog with at least
    one plant, [generateDailyQuiz] builds three questions numbered 1, 2
    and 3, each with its correct answer among its options; a name
    question has as many options as the catalog has plants, up to four,
    and the light question has three; the catalog array is left as it
    was. *)
Theorem generated_quiz_is_answerable (plants : nat) (w : World) (catalog : list Plant) :
  arrays w !! plants = Some catalog -> catalog <> [] ->
  exists (q1 q2 q3 : QuizQuestion) (w' : World),
    generateDailyQuiz plants w = Ok ([q1; q2; q3], w') /\
    map q_id [q1; q2; q3] = [1; 2; 3] /\
    map q_type [q1; q2; q3] = [SCIENTIFIC_TO_COMMON; COMMON_TO_LIGHT; PHOTO_TO_COMMON] /\
    Forall (fun q => correctAnswer q ∈ options q) [q1; q2; q3] /\
    length (options q1) = Nat.min 4 (length catalog) /\
    length (options q2) = 3%nat /\
    length (options q3) = Nat.min 4 (length catalog) /\
    arrays w' !! plants = Some catalog.
Proof.
  intros Hcat Hne.
  destruct (generateDailyQuiz_trace plants w catalog Hcat Hne)
    as (s1 & s2 & s3 & p1 & p2 & p3 & o1 & o2 & o3 & w' &
        Hs1 & Hs2 & Hs3 & Hh1 & Hh2 & Hh3 & Ho1 & Ho2 & Ho3 & Hkeep & E).
  eexists _, _, _, w'. split; [exact E|]. split; [reflexivity|]. split; [reflexivity|].
  cbn [options correctAnswer]. split; [|split; [|split; [|split]]].
  - repeat apply Forall_cons_2; [| | |apply Forall_nil_2]; cbn [options correctAnswer].
    + rewrite Ho1. now apply head_in_take.
    + rewrite Ho2. destruct (light p2);
        [ apply list_elem_of_here
        | apply list_elem_of_further, list_elem_of_here
        | do 2 apply list_elem_of_further; apply list_elem_of_here ].
    + rewrite Ho3. now apply head_in_take.
  - now rewrite (Permutation_length Ho1), length_map, length_take, (Permutation_length Hs1).
  - now rewrite (Permutation_length Ho2).
  - now rewrite (Permutation_length Ho3), length_map, length_take, (Permutation_length Hs3).
  - now apply Hkeep.
Qed.

(** A question and its answer describe one plant of the catalog: the
    first question quotes the scientific name of a catalog plant whose
    common name is its correct answer; the second quotes the common name
    of a catalog plant whose light requirement is its correct answer; the
    third shows the image of a catalog plant whose common name is its
    correct answer; and every option of the two name questions is the
    common name of a catalog plant. *)
Theorem generated_quiz_describes_catalog_plants (plants : nat) (w : World)
    (catalog : list Plant) :
  arrays w !! plants = Some catalog -> catalog <> [] ->
  exists (q1 q2 q3 : QuizQuestion) (w' : World) (p1 p2 p3 : Plant),
    generateDailyQuiz plants w = Ok ([q1; q2; q3], w') /\
    p1 ∈ catalog /\ p2 ∈ catalog /\ p3 ∈ catalog /\
    questionText q1
    = "Qual o nome popular da planta " +:+ quoted (scientificName p1) +:+ "?" /\
    correctAnswer q1 = commonName p1 /\
    questionText q2
    = "Qual a luminosidade ideal para a planta " +:+ quoted (commonName p2) +:+ "?" /\
    correctAnswer q2 = light_value (light p2) /\
    q_imageUrl q3 = Some (imageUrl p3) /\
    correctAnswer q3 = commonName p3 /\
    (forall x, x ∈ options q1 \/ x ∈ options q3 ->
               exists plant, plant ∈ catalog /\ x = commonName plant).
Proof.
  intros Hcat Hne.
  destruct (generateDailyQuiz_trace plants w catalog Hcat Hne)
    as (s1 & s2 & s3 & p1 & p2 & p3 & o1 & o2 & o3 & w' &
        Hs1 & Hs2 & Hs3 & Hh1 & Hh2 & Hh3 & Ho1 & Ho2 & Ho3 & Hkeep & E).
  eexists _, _, _, w', p1, p2, p3. split; [exact E|].
  split; [now apply (head_in_perm s1)|]. split; [now apply (head_in_perm s2)|].
  split; [now apply (head_in_perm s3)|].
  do 6 (split; [reflexivity|]). cbn [options].
  intros x [Hx|Hx]; [now apply (names_of_take s1 catalog o1) | now apply (names_of_take s3 catalog o3)].
Qed.

(** On an empty catalog [generateDailyQuiz] throws a TypeError: the first
    sampled plant is [undefined] and its scientific name is read.  (The
    effect that calls it checks [plants.length > 0] first.) *)
Theorem generateDailyQuiz_empty_catalog (plants : nat) (w : World) :
  arrays w !! plants = Some [] ->
  generateDailyQuiz plants w = Throw TypeError.
Proof.
  intros Hcat.
  destruct (three_samples plants w [] Hcat)
    as (a1 & a2 & a3 & w1 & w2 & w3 & s1 & s2 & s3 &
        E1 & E2 & E3 & Hp1 & Hp2 & Hp3 & R1 & R2 & R3 & Hkeep).
  symmetry in Hp1. apply Permutation_nil in Hp1. subst s1.
  unfold generateDailyQuiz.
  rewrite (mbind_ok _ _ _ _ _ E1), (mbind_ok _ _ _ _ _ E2), (mbind_ok _ _ _ _ _ E3).
  unfold mbind' at 1, first, mbind' at 1. rewrite (readArray_ok _ _ _ R1). reflexivity.
Qed.

End GeneratorFacts.

Lemma generated_quiz_is_answerable_witness :
  arrays (Samples.world_of Samples.catalog 0) !! 0%nat = Some Samples.catalog /\
  Samples.catalog <> [] /\
  exists (q1 q2 q3 : QuizQuestion) (w' : World),
    generateDailyQuiz (engine := insertion_engine) 0 (Samples.world_of Samples.catalog 0)
    = Ok ([q1; q2; q3], w') /\
    map q_id [q1; q2; q3] = [1; 2; 3] /\
    map q_type [q1; q2; q3] = [SCIENTIFIC_TO_COMMON; COMMON_TO_LIGHT; PHOTO_TO_COMMON] /\
    Forall (fun q => correctAnswer q ∈ options q) [q1; q2; q3] /\
    length (options q1) = Nat.min 4 (length Samples.catalog) /\
    length (options q2) = 3%nat /\
    length (options q3) = Nat.min 4 (length Samples.catalog) /\
    arrays w' !! 0%nat = Some Samples.catalog.
Proof.
  split; [reflexivity|]. split; [discriminate|].
  apply (generated_quiz_is_answerable (engine := insertion_engine) 0
           (Samples.world_of Samples.catalog 0) Samples.catalog); [reflexivity | discriminate].
Defined.

Lemma generated_quiz_describes_catalog_plants_witness :
  arrays (Samples.world_of [Samples.jiboia; Samples.lirio] 0) !! 0%nat
  = Some [Samples.jiboia; Samples.lirio] /\
  [Samples.jiboia; Samples.lirio] <> [] /\
  exists (q1 q2 q3 : QuizQuestion) (w' : World) (p1 p2 p3 : Plant),
    generateDailyQuiz (engine := insertion_engine) 0
      (Samples.world_of [Samples.jiboia; Samples.lirio] 0)
    = Ok ([q1; q2; q3], w') /\
    p1 ∈ [Samples.jiboia; Samples.lirio] /\
    p2 ∈ [Samples.jiboia; Samples.lirio] /\
    p3 ∈ [Samples.jiboia; Samples.lirio] /\
    questionText q1
    = "Qual o nome popular da planta " +:+ quoted (scientificName p1) +:+ "?" /\
    correctAnswer q1 = commonName p1 /\
    questionText q2
    = "Qual a luminosidade ideal para a planta " +:+ quoted (commonName p2) +:+ "?" /\
    correctAnswer q2 = light_value (light p2) /\
    q_imageUrl q3 = Some (imageUrl p3) /\
    correctAnswer q3 = commonName p3 /\
    (forall x, x ∈ options q1 \/ x ∈ options q3 ->
               exists plant, plant ∈ [Samples.jiboia; Samples.lirio] /\ x = commonName plant).
Proof.
  split; [reflexivity|]. split; [discriminate|].
  apply (generated_quiz_describes_catalog_plants (engine := insertion_engine) 0
           (Samples.world_of [Samples.jiboia; Samples.lirio] 0)
           [Samples.jiboia; Samples.lirio]); [reflexivity | discriminate].
Defined.

Lemma generateDailyQuiz_empty_catalog_witness :
  arrays (Samples.world_of [] 0) !! 0%nat = Some [] /\
  generateDailyQuiz (engine := insertion_engine) 0 (Samples.world_of [] 0) = Throw TypeError.
Proof.
  split; [reflexivity|].
  apply (generateDailyQuiz_empty_catalog (engine := insertion_engine) 0
           (Samples.world_of [] 0)); reflexivity.
Defined.

(** ** The stored custom images *)

Module PlantHookFacts.
Import PlantDatabase PlantHook.

(** Reading the members that [images_to_json] lists adds them to the
    record read so far. *)
Lemma record_of_members_listed (l : list (string * string)) (acc : gmap string string) :
  NoDup l.*1 ->
  record_of_members (map (fun kv => (fst kv, Json.JStr (snd kv))) l) acc
  = Ok (list_to_map l ∪ acc).
Proof.
  revert acc. induction l as [|[k v] l IH]; intros acc Hnd.
  - cbn. now rewrite (left_id_L ∅ (∪)).
  - rewrite fmap_cons in Hnd. apply NoDup_cons in Hnd as [Hk Hnd].
    cbn [map fst snd record_of_members]. rewrite IH by exact Hnd. f_equal.
    rewrite list_to_map_cons, <- insert_union_l. symmetry. apply insert_union_r.
    now apply not_elem_of_list_to_map_1.
Qed.

(** The record of custom images comes back from its stored text, in
    whatever order its members were listed. *)
Lemma images_roundtrip (m : gmap string string) :
  (let* parsed := Json.parse (Json.stringify (images_to_json m)) in images_of_json parsed)
  = Ok m.
Proof.
  rewrite JsonFacts.parse_stringify. cbn [bind]. unfold images_to_json, images_of_json.
  rewrite record_of_members_listed by apply NoDup_fst_map_to_list.
  now rewrite list_to_map_to_list, (right_id_L ∅ (∪)).
Qed.

Lemma withImage_same (p : Plant) : withImage p (imageUrl p) = p.
Proof. now destruct p. Qed.

(** Without custom images the merge gives the dataset. *)
Lemma mergedPlants_empty (PLANT_DATABASE : list Plant) :
  mergedPlants PLANT_DATABASE ∅ = PLANT_DATABASE.
Proof.
  unfold mergedPlants. induction PLANT_DATABASE as [|p l IH]; [reflexivity|].
  cbn [map]. rewrite IH. unfold effectiveImage. rewrite lookup_empty.
  now rewrite withImage_same.
Qed.

(** The hook after a reload that finds the text of [images]. *)
Lemma usePlantDatabase_stored (PLANT_DATABASE : list Plant) (images : gmap string string)
    (localStorage : gmap string string) :
  usePlantDatabase PLANT_DATABASE
    (<[CUSTOM_IMAGES_KEY := Json.stringify (images_to_json images)]> localStorage)
  = Ok (setCustomImages PLANT_DATABASE images).
Proof.
  unfold usePlantDatabase, loadEffect. rewrite lookup_insert_eq, JsonFacts.stringify_truthy.
  pose proof (images_roundtrip images) as R.
  destruct (Json.parse (Json.stringify (images_to_json images))) as [parsed|e];
    [|discriminate]. cbn [bind] in R. rewrite R. reflexivity.
Qed.

End PlantHookFacts.


(** A restored picture stays restored after a reload: a hook mounted on
    the storage that [resetImage] left has the state that [resetImage]
    left, with no custom image under the plant's identifier, and shows
    every dataset plant of that identifier as the dataset has it. *)
Theorem reset_image_survives_reload (PLANT_DATABASE : list Plant) (plantId : string)
    (h : PlantDatabase.Hook) (localStorage : gmap string string) :
  exists (h' : PlantDatabase.Hook) (localStorage' : gmap string string),
    PlantDatabase.resetImage PLANT_DATABASE plantId h localStorage = (h', localStorage') /\
    PlantDatabase.customImages h' !! plantId = None /\
    PlantHook.usePlantDatabase PLANT_DATABASE localStorage' = Ok h' /\
    forall (i : nat) (p : Plant),
      PLANT_DATABASE !! i = Some p -> plant_id p = plantId ->
      PlantDatabase.plants h' !! i = Some p.
Proof.
  eexists _, _. split; [reflexivity|]. split; [|split].
  - cbn [PlantDatabase.setCustomImages PlantDatabase.customImages]. apply lookup_delete_eq.
  - apply PlantHookFacts.usePlantDatabase_stored.
  - intros i p Hp Hid. cbn [PlantDatabase.setCustomImages PlantDatabase.plants].
    unfold PlantDatabase.mergedPlants. rewrite list_lookup_fmap, Hp. cbn. f_equal.
    unfold PlantDatabase.effectiveImage. rewrite Hid, lookup_delete_eq.
    apply PlantHookFacts.withImage_same.
Qed.

(** Stored images that cannot be used do not break the hook: with no
    entry under the key, with the empty text, or with a text that
    [JSON.parse] rejects, the hook shows the dataset as it is and has no
    custom images. *)
Theorem unreadable_images_show_dataset (PLANT_DATABASE : list Plant)
    (localStorage : gmap string string) :
  localStorage !! CUSTOM_IMAGES_KEY = None \/
  (exists storedImages : string,
      localStorage !! CUSTOM_IMAGES_KEY = Some storedImages /\
      (storedImages = ""%string \/ Json.parse storedImages = Throw SyntaxError)) ->
  PlantHook.usePlantDatabase PLANT_DATABASE localStorage
  = Ok {| PlantDatabase.plants := PLANT_DATABASE; PlantDatabase.customImages := ∅ |}.
Proof.
  intros H. unfold PlantHook.usePlantDatabase, PlantHook.loadEffect.
  assert (E : PlantHook.mergeEffect PLANT_DATABASE (PlantHook.initial PLANT_DATABASE)
              = {| PlantDatabase.plants := PLANT_DATABASE; PlantDatabase.customImages := ∅ |}).
  { unfold PlantHook.mergeEffect, PlantHook.initial. cbn.
    now rewrite PlantHookFacts.mergedPlants_empty. }
  destruct H as [->|(stored & -> & [->|Hp])].
  - cbn [bind]. now rewrite E.
  - cbn [truthy String.eqb negb bind]. now rewrite E.
  - rewrite Hp. destruct (truthy stored); cbn [bind]; now rewrite E.
Qed.

Lemma unreadable_images_show_dataset_witness :
  (({[ CUSTOM_IMAGES_KEY := "{oops"%string ]} : gmap string string) !! CUSTOM_IMAGES_KEY = None \/
   (exists storedImages : string,
       ({[ CUSTOM_IMAGES_KEY := "{oops"%string ]} : gmap string string) !! CUSTOM_IMAGES_KEY
       = Some storedImages /\
       (storedImages = ""%string \/ Json.parse storedImages = Throw SyntaxError))) /\
  PlantHook.usePlantDatabase Samples.catalog {[ CUSTOM_IMAGES_KEY := "{oops"%string ]}
  = Ok {| PlantDatabase.plants := Samples.catalog; PlantDatabase.customImages := ∅ |}.
Proof.
  assert (H : ({[ CUSTOM_IMAGES_KEY := "{oops"%string ]} : gmap string string)
                !! CUSTOM_IMAGES_KEY = None \/
              (exists storedImages : string,
                  ({[ CUSTOM_IMAGES_KEY := "{oops"%string ]} : gmap string string)
                    !! CUSTOM_IMAGES_KEY = Some storedImages /\
                  (storedImages = ""%string \/ Json.parse storedImages = Throw SyntaxError))).
  { right. exists "{oops"%string. split; [reflexivity|]. right. vm_compute. reflexivity. }
  split; [exact H|].
  apply (unreadable_images_show_dataset Samples.catalog
           {[ CUSTOM_IMAGES_KEY := "{oops"%string ]} H).
Defined.

(** ** The clock of the cycle page *)

Module ClockFacts.
Import CyclePage.

Lemma clock_checked_below_600 : forallb clock_checked (seq 0 600) = true.
Proof. vm_compute. reflexivity. Qed.

Lemma formatTime_below_600 (seconds : Z) :
  0 <= seconds < 600 ->
  formatTime seconds = Some (clock_text (seconds / 60) (seconds mod 60)).
Proof.
  intros Hs.
  pose proof (proj1 (forallb_forall _ _) clock_checked_below_600 (Z.to_nat seconds)) as H.
  unfold clock_checked in H. rewrite Z2Nat.id in H by lia.
  specialize (H ltac:(apply in_seq; lia)).
  destruct (formatTime seconds) as [text|]; [|discriminate].
  apply String.eqb_eq in H. now subst text.
Qed.

Lemma timerEffect_clock (now : Z) (c c' : Instance) (l l' : gmap string string) :
  0 <= timeLeft (state c) <= 180 ->
  timerEffect now c l = Ok (c', l') -> clock_in_range c'.
Proof.
  unfold timerEffect, clock_in_range. intros Hb.
  destruct (isActive (state c) && (0 <? timeLeft (state c))) eqn:Ea.
  - intros [= <- _]. cbn. apply andb_prop in Ea as [_ Ht]. split; [lia|]. intros _. lia.
  - destruct (timeLeft (state c) =? 0).
    + destruct (handleFinish now (state c) l) as [[s' l1]|] eqn:Eh; cbn [bind]; [|discriminate].
      apply CycleFacts.handleFinish_state in Eh as [_ Et].
      intros [= <- _]. cbn. rewrite Et. split; [lia|discriminate].
    + intros [= <- _]. cbn. split; [lia|discriminate].
Qed.

Lemma afterRender_clock (now : Z) (c c' : Instance) (l l' : gmap string string) :
  0 <= timeLeft (state c) <= 180 ->
  (depsChanged c = false -> clock_in_range c) ->
  afterRender now c l = Ok (c', l') -> clock_in_range c'.
Proof.
  unfold afterRender. intros Hb Hq. destruct (depsChanged c).
  - now apply timerEffect_clock.
  - intros [= <- _]. now apply Hq.
Qed.

Lemma settle_clock (now : Z) (c c' : Instance) (l l' : gmap string string) :
  0 <= timeLeft (state c) <= 180 ->
  (depsChanged c = false -> clock_in_range c) ->
  settle now c l = Ok (c', l') -> clock_in_range c'.
Proof.
  unfold settle. intros Hb Hq.
  destruct (afterRender now c l) as [[c1 l1]|] eqn:E1; cbn [bind]; [|discriminate].
  destruct (afterRender now c1 l1) as [[c2 l2]|] eqn:E2; cbn [bind]; [|discriminate].
  intros E3.
  pose proof (afterRender_clock _ _ _ _ _ Hb Hq E1) as H1.
  pose proof (afterRender_clock _ _ _ _ _ (proj1 H1) (fun _ => H1) E2) as H2.
  exact (afterRender_clock _ _ _ _ _ (proj1 H2) (fun _ => H2) E3).
Qed.

(** What a handler leaves for the render that follows it. *)
Lemma handle_clock (now : Z) (ev : Event) (c c' : Instance) (l l' : gmap string string) :
  depsChanged c = false -> clock_in_range c ->
  handle now ev c l = Ok (c', l') ->
  0 <= timeLeft (state c') <= 180 /\ (depsChanged c' = false -> clock_in_range c').
Proof.
  unfold handle, clock_in_range. intros Hq [Hb Hp] H.
  destruct ev.
  - destruct (intervalPending c) eqn:Ep.
    + injection H as <- _. cbn. specialize (Hp eq_refl). split; [lia|].
      unfold depsChanged in *. cbn.
      destruct (timerDeps c) as [[a t]|]; [|discriminate].
      apply negb_false_iff, andb_prop in Hq as [_ Ht]. apply Z.eqb_eq in Ht. subst t.
      intros Hc. apply negb_false_iff, andb_prop in Hc as [_ Hc]. apply Z.eqb_eq in Hc. lia.
    + injection H as <- _. split; [lia|]. intros _. split; [lia|]. rewrite Ep. discriminate.
  - destruct (cardShown (state c)); injection H as <- _; cbn; (split; [lia|]); auto.
  - destruct (cardShown (state c) && nextShown (state c)); injection H as <- _; cbn;
      (split; [lia|]); auto.
  - destruct (cardShown (state c) && negb (nextShown (state c)));
      [|injection H as <- _; split; [lia|]; now auto].
    destruct (handleFinish now (state c) l) as [[s' l1]|] eqn:Eh; cbn [bind] in H; [|discriminate].
    apply CycleFacts.handleFinish_state in Eh as [_ Et].
    injection H as <- _. cbn. rewrite Et. split; [lia|]. auto.
Qed.

Lemma step_clock (now : Z) (ev : Event) (c c' : Instance) (l l' : gmap string string) :
  depsChanged c = false -> clock_in_range c ->
  step now ev c l = Ok (c', l') ->
  depsChanged c' = false /\ clock_in_range c'.
Proof.
  unfold step. intros Hq Hc.
  destruct (handle now ev c l) as [[c1 l1]|] eqn:E; cbn [bind]; [|discriminate].
  intros Hs. destruct (handle_clock _ _ _ _ _ _ Hq Hc E) as [Hb Hn].
  split; [exact (CycleFacts.settle_quiescent _ _ _ _ _ Hs) | exact (settle_clock _ _ _ _ _ Hb Hn Hs)].
Qed.

Lemma run_clock (evs : list (Z * Event)) (c c' : Instance) (l l' : gmap string string) :
  depsChanged c = false -> clock_in_range c ->
  run evs c l = Ok (c', l') ->
  depsChanged c' = false /\ clock_in_range c'.
Proof.
  revert c l. induction evs as [|[now ev] evs IH]; intros c l Hq Hc.
  - intros [= <- _]. auto.
  - cbn [run]. destruct (step now ev c l) as [[c1 l1]|] eqn:E; cbn [bind]; [|discriminate].
    destruct (step_clock _ _ _ _ _ _ Hq Hc E) as [Hq1 Hc1]. now apply IH.
Qed.

End ClockFacts.

(** [formatTime] writes minutes, a colon and two digits of seconds: for
    a number of seconds from 0 to 599 its text is the digit of
    [seconds / 60], [:], and [seconds mod 60] padded to two digits. *)
Theorem formatTime_minutes_and_seconds (seconds : Z) :
  0 <= seconds < 600 ->
  formatTime seconds = Some (clock_text (seconds / 60) (seconds mod 60)).
Proof. apply ClockFacts.formatTime_below_600. Qed.

Lemma formatTime_minutes_and_seconds_witness :
  0 <= 125 < 600 /\ formatTime 125 = Some (clock_text (125 / 60) (125 mod 60)).
Proof.
  split; [lia|]. apply (formatTime_minutes_and_seconds 125). lia.
Defined.

(** The clock never leaves its range: from the start of a session,
    after any ticks and clicks, the time left is between 0 and 180
    seconds, so the page shows it as a text from [0:00] to [3:00]. *)
Theorem clock_stays_in_range (now : Z) (selected : list Plant)
    (evs : list (Z * CyclePage.Event)) (c0 c' : CyclePage.Instance)
    (l l0 l' : gmap string string) :
  CyclePage.start now selected l = Ok (c0, l0) ->
  CyclePage.run evs c0 l0 = Ok (c', l') ->
  0 <= CyclePage.timeLeft (CyclePage.state c') <= 180 /\
  formatTime (CyclePage.timeLeft (CyclePage.state c'))
  = Some (clock_text (CyclePage.timeLeft (CyclePage.state c') / 60)
                     (CyclePage.timeLeft (CyclePage.state c') mod 60)).
Proof.
  intros Hstart Hrun. rewrite CycleSteps.start_running in Hstart. injection Hstart as <- <-.
  assert (Hc : clock_in_range (cycle_running selected 0 false 180)).
  { unfold clock_in_range, cycle_running. cbn. split; [lia|]. intros _. lia. }
  destruct (ClockFacts.run_clock _ _ _ _ _ (CycleFacts.depsChanged_same _ _) Hc Hrun)
    as [_ [Hb _]].
  split; [exact Hb|]. apply ClockFacts.formatTime_below_600. lia.
Qed.

Lemma clock_stays_in_range_witness :
  CyclePage.start Samples.oct4_1am [Samples.samambaia; Samples.espada] Samples.storage_oct4
  = Ok (cycle_running [Samples.samambaia; Samples.espada] 0 false 180, Samples.storage_oct4) /\
  CyclePage.run (ticks_at three_instants)
    (cycle_running [Samples.samambaia; Samples.espada] 0 false 180) Samples.storage_oct4
  = Ok (cycle_running [Samples.samambaia; Samples.espada] 0 false 177, Samples.storage_oct4) /\
  0 <= 177 <= 180 /\
  formatTime 177 = Some (clock_text (177 / 60) (177 mod 60)).
Proof.
  split; [reflexivity|]. split; [vm_compute; reflexivity|].
  apply (clock_stays_in_range Samples.oct4_1am [Samples.samambaia; Samples.espada]
           (ticks_at three_instants)
           (cycle_running [Samples.samambaia; Samples.espada] 0 false 180)
           (cycle_running [Samples.samambaia; Samples.espada] 0 false 177)
           Samples.storage_oct4 Samples.storage_oct4 Samples.storage_oct4);
    [reflexivity | vm_compute; reflexivity].
Defined.

(** ** The study page *)

Module StudyFacts.
Import PlantDatabase StudyPage.

Lemma includes_empty (s : string) : includes s "" = true.
Proof. destruct s; reflexivity. Qed.

Lemma filter_all {A : Type} (f : A -> bool) (l : list A) :
  (forall x, f x = true) -> List.filter f l = l.
Proof.
  intros Hf. induction l as [|x l IH]; [reflexivity|]. cbn. now rewrite Hf, IH.
Qed.

Lemma light_value_eqb (a b : LightRequirement) :
  String.eqb (light_value a) (light_value b) = same_light a b.
Proof. destruct a, b; reflexivity. Qed.

Lemma light_value_not_all (a : LightRequirement) : String.eqb (light_value a) "all" = false.
Proof. destruct a; reflexivity. Qed.

(** [find] by identifier finds the plant itself when identifiers are
    unique. *)
Lemma find_by_id (PLANT_DATABASE : list Plant) (b : Plant) :
  NoDup (map plant_id PLANT_DATABASE) -> b ∈ PLANT_DATABASE ->
  List.find (fun p => String.eqb (plant_id p) (plant_id b)) PLANT_DATABASE = Some b.
Proof.
  induction PLANT_DATABASE as [|p l IH]; intros Hnd Hin.
  - now apply elem_of_nil in Hin.
  - cbn [map] in Hnd. apply NoDup_cons in Hnd as [Hp Hnd]. cbn [List.find].
    apply elem_of_cons in Hin as [->|Hin].
    + now rewrite String.eqb_refl.
    + destruct (String.eqb_spec (plant_id p) (plant_id b)) as [E|_]; [|now apply IH].
      exfalso. apply Hp. rewrite E. apply list_elem_of_fmap. now exists b.
Qed.

End StudyFacts.

(** The light filter of the study page, with nothing typed in the
    search box: the choice [all] lists every plant, and the choice of a
    light requirement lists exactly the plants of that requirement, in
    the order of the list. *)
Theorem light_filter_lists_that_light (toLowerCase : string -> string)
    (plants : list Plant) (l : LightRequirement) :
  toLowerCase "" = ""%string ->
  StudyPage.filteredPlants toLowerCase plants "" "all" = plants /\
  StudyPage.filteredPlants toLowerCase plants "" (light_value l)
  = List.filter (fun p => same_light (light p) l) plants.
Proof.
  intros Hlow. unfold StudyPage.filteredPlants. rewrite Hlow. split.
  - apply StudyFacts.filter_all. intros p. now rewrite StudyFacts.includes_empty.
  - apply List.filter_ext. intros p.
    rewrite StudyFacts.includes_empty, StudyFacts.light_value_not_all,
      StudyFacts.light_value_eqb.
    reflexivity.
Qed.

Lemma light_filter_lists_that_light_witness :
  lower_ascii "" = ""%string /\
  StudyPage.filteredPlants lower_ascii Samples.catalog "" "all" = Samples.catalog /\
  StudyPage.filteredPlants lower_ascii Samples.catalog "" (light_value SHADE)
  = List.filter (fun p => same_light (light p) SHADE) Samples.catalog.
Proof.
  split; [reflexivity|].
  apply (light_filter_lists_that_light lower_ascii Samples.catalog SHADE). reflexivity.
Defined.

(** The restore button puts the dataset's record back.  When plant
    identifiers are unique in the dataset and the selected plant is a
    dataset plant up to its image, a click on the button of a custom
    image leaves that dataset plant selected, and the list of the hook
    shows the same record. *)
Theorem restore_click_selects_dataset_plant (PLANT_DATABASE : list Plant) (base sel : Plant)
    (h : PlantDatabase.Hook) (localStorage : gmap string string) :
  NoDup (map plant_id PLANT_DATABASE) ->
  base ∈ PLANT_DATABASE ->
  sel = PlantDatabase.withImage base (imageUrl sel) ->
  StudyPage.hasCustomImage sel = true ->
  exists (h' : PlantDatabase.Hook) (localStorage' : gmap string string),
    StudyPage.restoreClick PLANT_DATABASE (Some sel) h localStorage
    = (Some base, h', localStorage') /\
    base ∈ PlantDatabase.plants h' /\
    PlantDatabase.customImages h' = delete (plant_id base) (PlantDatabase.customImages h).
Proof.
  intros Hnd Hin Hsel Hcustom.
  assert (Hid : plant_id sel = plant_id base) by (rewrite Hsel; reflexivity).
  unfold StudyPage.restoreClick. rewrite Hcustom. cbn [PlantDatabase.resetImage].
  eexists _, _. split; [|split].
  - f_equal. f_equal. f_equal. unfold StudyPage.originalImage.
    rewrite Hid, (StudyFacts.find_by_id _ _ Hnd Hin). rewrite Hsel.
    destruct base; reflexivity.
  - cbn [PlantDatabase.setCustomImages PlantDatabase.plants]. unfold PlantDatabase.mergedPlants.
    apply list_elem_of_fmap. exists base. split; [|exact Hin].
    unfold PlantDatabase.effectiveImage. rewrite Hid, lookup_delete_eq.
    symmetry. apply PlantHookFacts.withImage_same.
  - cbn [PlantDatabase.setCustomImages PlantDatabase.customImages]. now rewrite Hid.
Qed.

Lemma restore_click_selects_dataset_plant_witness :
  NoDup (map plant_id Samples.catalog) /\
  Samples.jiboia ∈ Samples.catalog /\
  PlantDatabase.withImage Samples.jiboia Samples.photo_blob
  = PlantDatabase.withImage Samples.jiboia
      (imageUrl (PlantDatabase.withImage Samples.jiboia Samples.photo_blob)) /\
  StudyPage.hasCustomImage (PlantDatabase.withImage Samples.jiboia Samples.photo_blob) = true /\
  exists (h' : PlantDatabase.Hook) (localStorage' : gmap string string),
    StudyPage.restoreClick Samples.catalog
      (Some (PlantDatabase.withImage Samples.jiboia Samples.photo_blob))
      Samples.plain_hook ∅
    = (Some Samples.jiboia, h', localStorage') /\
    Samples.jiboia ∈ PlantDatabase.plants h' /\
    PlantDatabase.customImages h'
    = delete (plant_id Samples.jiboia) (PlantDatabase.customImages Samples.plain_hook).
Proof.
  assert (Hnd : NoDup (map plant_id Samples.catalog))
    by (apply (bool_decide_unpack _); vm_compute; exact I).
  assert (Hin : Samples.jiboia ∈ Samples.catalog)
    by (do 2 apply list_elem_of_further; apply list_elem_of_here).
  split; [exact Hnd|]. split; [exact Hin|]. split; [reflexivity|].
  split; [vm_compute; reflexivity|].
  apply (restore_click_selects_dataset_plant Samples.catalog Samples.jiboia
           (PlantDatabase.withImage Samples.jiboia Samples.photo_blob)
           Samples.plain_hook ∅ Hnd Hin); [reflexivity | vm_compute; reflexivity].
Defined.

(** ** The weekly ranking *)

Module RankingFacts.
Import Ranking.

Lemma others_sorted :
  sort_stable (fun a b => points b - points a) [carlos; ana; roberto] = [carlos; ana; roberto].
Proof. reflexivity. Qed.

End RankingFacts.

(** The place of the user in the weekly ranking.  With ten points for a
    studied plant and five for a correct answer, the user is shown first
    from 450 points on (ahead of an equal score), second from 210, third
    from 180 and fourth below; the positions shown are 1 to 4 from the
    top, whatever the [rank] written in the rows. *)
Theorem ranking_place_by_points (progress : UserProgress) :
  Ranking.rows progress
  = let pts := plantsStudiedCount progress * 10 + quizCorrectAnswers progress * 5 in
    if 450 <=? pts then
      [(1, Ranking.you progress); (2, Ranking.carlos); (3, Ranking.ana); (4, Ranking.roberto)]
    else if 210 <=? pts then
      [(1, Ranking.carlos); (2, Ranking.you progress); (3, Ranking.ana); (4, Ranking.roberto)]
    else if 180 <=? pts then
      [(1, Ranking.carlos); (2, Ranking.ana); (3, Ranking.you progress); (4, Ranking.roberto)]
    else
      [(1, Ranking.carlos); (2, Ranking.ana); (3, Ranking.roberto); (4, Ranking.you progress)].
Proof.
  unfold Ranking.rows.
  change (Ranking.sort_stable (fun a b => Ranking.points b - Ranking.points a)
            [Ranking.you progress; Ranking.carlos; Ranking.ana; Ranking.roberto])
    with (Ranking.insert_stable (fun a b => Ranking.points b - Ranking.points a)
            (Ranking.you progress)
            (Ranking.sort_stable (fun a b => Ranking.points b - Ranking.points a)
               [Ranking.carlos; Ranking.ana; Ranking.roberto])).
  rewrite RankingFacts.others_sorted.
  cbn [Ranking.insert_stable Ranking.points Ranking.you Ranking.carlos Ranking.ana
       Ranking.roberto].
  cbv zeta. set (pts := plantsStudiedCount progress * 10 + quizCorrectAnswers progress * 5).
  destruct (Z.leb_spec 450 pts), (Z.ltb_spec 0 (450 - pts)); try lia; [reflexivity|].
  destruct (Z.leb_spec 210 pts), (Z.ltb_spec 0 (210 - pts)); try lia; [reflexivity|].
  destruct (Z.leb_spec 180 pts), (Z.ltb_spec 0 (180 - pts)); try lia; reflexivity.
Qed.

(** ** Uploads *)

Module CodecFacts.

Lemma keeps_size_to_600 : forallb keeps_size (seq 0 601) = true.
Proof. vm_compute. reflexivity. Qed.

Lemma canvasFor_narrow (img : Codec.Image) :
  (Codec.width img <= 600)%N ->
  Codec.canvasFor img
  = {| Codec.canvas_width := Codec.width img; Codec.canvas_height := Codec.height img |}.
Proof.
  intros Hw.
  pose proof (proj1 (forallb_forall _ _) keeps_size_to_600
                (N.to_nat (Codec.width img))) as H.
  specialize (H ltac:(apply in_seq; lia)). unfold keeps_size in H.
  rewrite N_nat_Z in H. apply negb_true_iff in H.
  unfold Codec.canvasFor. cbv zeta. now rewrite H.
Qed.

(** The text of [toDataURL] opens with [data:]. *)
Lemma toDataURL_prefix (jpegBase64 : Codec.Image -> Codec.Canvas -> string)
    (img : Codec.Image) (canvas : Codec.Canvas) :
  String.prefix "data:" (Codec.toDataURL jpegBase64 img canvas) = true.
Proof.
  unfold Codec.toDataURL. destruct ((_ =? 0)%N || (_ =? 0)%N); reflexivity.
Qed.

End CodecFacts.

(** A picture no wider than 600 pixels is not resized: [compressImage]
    draws it on a canvas of the picture's own width and height and
    resolves with the data URL of that canvas. *)
Theorem narrow_image_is_not_resized (jpegBase64 : Codec.Image -> Codec.Canvas -> string)
    (img : Codec.Image) :
  (Codec.width img <= 600)%N ->
  Codec.compressImage jpegBase64 (Codec.Decodable img)
  = Codec.Resolved
      (Codec.toDataURL jpegBase64 img
         {| Codec.canvas_width := Codec.width img; Codec.canvas_height := Codec.height img |}).
Proof.
  intros Hw. cbn [Codec.compressImage]. now rewrite CodecFacts.canvasFor_narrow.
Qed.

Lemma narrow_image_is_not_resized_witness :
  (Codec.width narrow_photo <= 600)%N /\
  Codec.compressImage Samples.fixed_jpeg (Codec.Decodable narrow_photo)
  = Codec.Resolved
      (Codec.toDataURL Samples.fixed_jpeg narrow_photo
         {| Codec.canvas_width := Codec.width narrow_photo;
            Codec.canvas_height := Codec.height narrow_photo |}).
Proof.
  split; [vm_compute; discriminate|].
  apply (narrow_image_is_not_resized Samples.fixed_jpeg narrow_photo).
  vm_compute. discriminate.
Defined.

(** An uploaded picture can be restored.  After [updatePlantImage] with
    a file that decodes, the hook shows the dataset plant of that
    identifier with the uploaded data URL as its image, and the study
    page takes that image for a custom one, so it offers the restore
    button. *)
Theorem uploaded_picture_is_custom (PLANT_DATABASE : list Plant)
    (jpegBase64 : Codec.Image -> Codec.Canvas -> string) (img : Codec.Image)
    (i : nat) (p : Plant) (h : PlantDatabase.Hook) (localStorage : gmap string string) :
  PLANT_DATABASE !! i = Some p ->
  exists (h' : PlantDatabase.Hook) (localStorage' : gmap string string) (shown : Plant),
    PlantDatabase.updatePlantImage PLANT_DATABASE (plant_id p)
      (Codec.compressImage jpegBase64 (Codec.Decodable img)) h localStorage
    = (true, h', localStorage') /\
    PlantDatabase.plants h' !! i = Some shown /\
    shown = PlantDatabase.withImage p (Codec.toDataURL jpegBase64 img (Codec.canvasFor img)) /\
    StudyPage.hasCustomImage shown = true.
Proof.
  intros Hp. eexists _, _, _. split; [reflexivity|].
  cbn [PlantDatabase.setCustomImages PlantDatabase.plants].
  unfold PlantDatabase.mergedPlants. rewrite list_lookup_fmap, Hp. cbn [fmap option_fmap option_map].
  unfold PlantDatabase.effectiveImage. rewrite lookup_insert_eq.
  assert (Ht : truthy (Codec.toDataURL jpegBase64 img (Codec.canvasFor img)) = true).
  { unfold Codec.toDataURL. destruct ((_ =? 0)%N || (_ =? 0)%N); reflexivity. }
  rewrite Ht. split; [reflexivity|]. split; [reflexivity|].
  unfold StudyPage.hasCustomImage. cbn [imageUrl PlantDatabase.withImage].
  apply CodecFacts.toDataURL_prefix.
Qed.

Lemma uploaded_picture_is_custom_witness :
  Samples.catalog !! 2%nat = Some Samples.jiboia /\
  exists (h' : PlantDatabase.Hook) (localStorage' : gmap string string) (shown : Plant),
    PlantDatabase.updatePlantImage Samples.catalog (plant_id Samples.jiboia)
      (Codec.compressImage Samples.fixed_jpeg (Codec.Decodable narrow_photo))
      Samples.plain_hook ∅
    = (true, h', localStorage') /\
    PlantDatabase.plants h' !! 2%nat = Some shown /\
    shown = PlantDatabase.withImage Samples.jiboia
              (Codec.toDataURL Samples.fixed_jpeg narrow_photo (Codec.canvasFor narrow_photo)) /\
    StudyPage.hasCustomImage shown = true.
Proof.
  split; [reflexivity|].
  apply (uploaded_picture_is_custom Samples.catalog Samples.fixed_jpeg narrow_photo 2
           Samples.jiboia Samples.plain_hook ∅). reflexivity.
Defined.
